(** * MindGuard: scheduled check-in and recommendation engine

    A shallow embedding of the check-in ledger, the preference store, the
    recommendation selector, the scheduler and the check-in workflow of the
    MindGuard agent ([src/server.ts], the tool definitions of [src/app.tsx],
    [src/workflows/checkInWorkflow.ts]) together with the properties its
    specification states about them.

    Conventions of the embedding:
    - a JavaScript string is a Rocq [string]; [toLowerCase], [trim] and
      [length] act per character the way ECMAScript acts on the code units
      U+0000..U+00FF;
    - an agent method is a computation in the monad [Eff Agent], which
      threads the agent (reactive state, SQL tables, schedules, chat
      messages) and either completes normally or throws;
    - what a method reads from outside the agent (generated ids, the
      clock, the verdict of the cron parser of the SDK) is passed in a
      [Host] record, and what the Workflows runtime brings to a cycle (the
      retries of a failing step, the error of a wait that times out) in a
      [Runtime] record;
    - the body of an HTTP request is what [request.json()] makes of it:
      no JSON at all, [null], or a value with the members the routes
      read;
    - [console.log] / [console.error] output is not part of the model. *)

From Stdlib Require Import String Ascii ZArith QArith Lia Sorted.
From stdpp Require Import base list option strings pretty.

Open Scope string_scope.
Open Scope list_scope.

(** ** JavaScript strings *)

Module JsString.

(** [!s] is [true] exactly for the empty string. *)
Definition truthy (s : string) : bool :=
  match s with
  | EmptyString => false
  | String _ _ => true
  end.

(** [o || d] for a possibly-undefined string [o]. *)
Definition orDefault (o : option string) (d : string) : string :=
  match o with
  | Some s => if truthy s then s else d
  | None => d
  end.

Definition lowerChar (c : ascii) : ascii :=
  let n := N_of_ascii c in
  if ((65 <=? n) && (n <=? 90)
      || (192 <=? n) && (n <=? 222) && negb (n =? 215))%N
  then ascii_of_N (n + 32)
  else c.

Fixpoint toLowerCase (s : string) : string :=
  match s with
  | EmptyString => EmptyString
  | String c s' => String (lowerChar c) (toLowerCase s')
  end.

(** White space and line terminators below U+0100. *)
Definition isWhiteSpace (c : ascii) : bool :=
  let n := N_of_ascii c in
  ((9 <=? n) && (n <=? 13) || (n =? 32) || (n =? 160))%N.

Fixpoint trimStart (s : string) : string :=
  match s with
  | EmptyString => EmptyString
  | String c s' => if isWhiteSpace c then trimStart s' else s
  end.

Fixpoint trimEnd (s : string) : string :=
  match s with
  | EmptyString => EmptyString
  | String c s' =>
      match trimEnd s' with
      | EmptyString => if isWhiteSpace c then EmptyString else String c EmptyString
      | t => String c t
      end
  end.

Definition trim (s : string) : string := trimEnd (trimStart s).

(** A possibly-undefined (or NULL) string used as a condition: the string
    itself when it is truthy. *)
Definition present (o : option string) : option string :=
  match o with
  | Some s => if truthy s then Some s else None
  | None => None
  end.

(** [hay.includes(needle)] *)
Fixpoint includes (hay needle : string) : bool :=
  String.prefix needle hay
  || match hay with
     | EmptyString => false
     | String _ hay' => includes hay' needle
     end.

(** [s.split(sep)] for a one-character separator. *)
Fixpoint split (sep : ascii) (s : string) : list string :=
  match s with
  | EmptyString => [EmptyString]
  | String c s' =>
      if Ascii.eqb c sep then EmptyString :: split sep s'
      else match split sep s' with
           | piece :: rest => String c piece :: rest
           | [] => [String c EmptyString]
           end
  end.

(** [parts.join(sep)] *)
Fixpoint join (sep : string) (parts : list string) : string :=
  match parts with
  | [] => EmptyString
  | [p] => p
  | p :: rest => p +:+ sep +:+ join sep rest
  end.

End JsString.

Import JsString.

(** ** Computations that may throw *)

Inductive completion (A : Type) : Type :=
| Normal (value : A)
| Thrown (message : string).
Arguments Normal {A} value.
Arguments Thrown {A} message.

Definition Eff (S A : Type) : Type := S -> S * completion A.

Definition ret {S A} (a : A) : Eff S A := fun s => (s, Normal a).

Definition throw {S A} (message : string) : Eff S A := fun s => (s, Thrown message).

Definition bind {S A B} (m : Eff S A) (k : A -> Eff S B) : Eff S B :=
  fun s =>
    match m s with
    | (s', Normal a) => k a s'
    | (s', Thrown e) => (s', Thrown e)
    end.

(** [try { body } catch (error) { handler }] *)
Definition tryCatch {S A} (body : Eff S A) (handler : string -> Eff S A) : Eff S A :=
  fun s =>
    match body s with
    | (s', Normal a) => (s', Normal a)
    | (s', Thrown e) => handler e s'
    end.

Definition inspect {S} : Eff S S := fun s => (s, Normal s).

(** A promise nobody awaits: what the call does before it settles is done,
    its result is not looked at and its rejection is lost. *)
Definition unawaited {S A} (m : Eff S A) : Eff S unit :=
  fun s => (fst (m s), Normal tt).

Definition modify {S} (f : S -> S) : Eff S unit := fun s => (f s, Normal tt).

Declare Scope eff_scope.
Delimit Scope eff_scope with eff.
Notation "'let*' x := m 'in' k" := (bind m (fun x => k))
  (at level 10, x name, m at level 100, k at level 200, only parsing) : eff_scope.
Notation "m ;;; k" := (bind m (fun _ => k))
  (at level 100, k at level 200, right associativity, only parsing) : eff_scope.

(** ** Data model *)

(** An entry of [state.dailyCheckIns]. *)
Module CheckInEntry.
Record t : Type := make {
  date : string;
  emotionalTone : string;
  summary : string;
  recommendations : list string
}.
End CheckInEntry.

(** [state.preferences]; a field is [None] when the object does not carry it. *)
Module Preferences.
Record t : Type := make {
  checkInTime : option string;
  timezone : option string;
  agentName : option string;
  modelProvider : option string
}.
End Preferences.

(** The reactive state slot; [this.state] itself may be undefined, and a
    spread of a partial state leaves fields undefined. *)
Module MindGuardState.
Record t : Type := make {
  userId : option string;
  dailyCheckIns : option (list CheckInEntry.t);
  lastCheckIn : option string;
  preferences : option Preferences.t
}.
End MindGuardState.

(** A row of table [check_ins]; column [recommendations] holds the JSON
    text of the list, kept here as the list it encodes. *)
Module CheckInRow.
Record t : Type := make {
  id : string;
  user_id : string;
  date : string;
  emotional_tone : string;
  summary : string;
  recommendations : list string;
  created_at : string
}.
End CheckInRow.

(** A row of table [user_preferences]; [None] is SQL NULL. *)
Module PrefRow.
Record t : Type := make {
  user_id : string;
  check_in_time : option string;
  timezone : option string;
  agent_name : option string;
  model_provider : option string;
  updated_at : option string
}.
End PrefRow.

(** What [this.schedule] was called with. *)
Inductive When : Type :=
| AtDate (date : string)
| AfterDelay (delayInSeconds : Z)
| Cron (cron : string).

Module Schedule.
Record t : Type := make {
  id : string;
  callback : string;
  payload : string;
  when : When
}.
End Schedule.

(** A value as [JSON.parse] yields it; a number is a finite double, here
    a rational. *)
#[warnings="-register-all"]
Inductive Json : Type :=
| JNull
| JBool (b : bool)
| JNumber (n : Q)
| JString (s : string)
| JArray (items : list Json)
| JObject (members : list (string * Json)).

Coercion JString : string >-> Json.

(** A chat message with one text part.  The routes that post a message put
    the member of the body into the part as it came, so [text] is any JSON
    value. *)
Module Message.
Record t : Type := make {
  id : string;
  role : string;
  text : Json;
  createdAt : string
}.
End Message.

(** The agent: the state slot, its SQL storage, its schedules and its chat
    messages.  [db_fault] is [Some e] while the storage is unavailable:
    every SQL statement then throws [e]. *)
Record Agent : Type := mkAgent {
  state : option MindGuardState.t;
  check_ins : list CheckInRow.t;
  user_preferences : list PrefRow.t;
  db_fault : option string;
  schedules : list Schedule.t;
  messages : list Message.t
}.

(** What a method call reads from its host: the value of [generateId()]
    (and the id the SDK draws for a schedule), the instant [new Date()]
    yields when the day is computed and the instant it yields when a row is
    stamped (both as [toISOString()] text), and the verdict of the cron
    parser of the SDK, which is not among the sources: the message of the
    error it rejects a text with, [None] when it accepts the text. *)
Record Host : Type := mkHost {
  generateId : string;
  today : string;
  stamp : string;
  cronError : string -> option string
}.

(** [new Date().toISOString().split('T')[0]] *)
Definition isoDate (instant : string) : string :=
  match split "T" instant with
  | day :: _ => day
  | [] => EmptyString
  end.

Definition defaultPreferences : Preferences.t :=
  Preferences.make (Some "09:00") (Some "UTC") (Some "MindGuard") (Some "openai").

(** ** Agent primitives *)

Section AgentPrimitives.
Local Open Scope eff_scope.

(** [this.state] *)
Definition readState : Eff Agent (option MindGuardState.t) :=
  fun ag => (ag, Normal (state ag)).

(** [this.setState(s)] *)
Definition setState (s : MindGuardState.t) : Eff Agent unit :=
  modify (fun ag => mkAgent (Some s) (check_ins ag) (user_preferences ag)
                            (db_fault ag) (schedules ag) (messages ag)).

(** Every SQL statement first reaches the storage. *)
Definition sqlReady : Eff Agent unit :=
  fun ag => match db_fault ag with
            | Some e => (ag, Thrown e)
            | None => (ag, Normal tt)
            end.

Definition setCheckIns (rows : list CheckInRow.t) : Eff Agent unit :=
  modify (fun ag => mkAgent (state ag) rows (user_preferences ag)
                            (db_fault ag) (schedules ag) (messages ag)).

Definition setUserPreferences (rows : list PrefRow.t) : Eff Agent unit :=
  modify (fun ag => mkAgent (state ag) (check_ins ag) rows
                            (db_fault ag) (schedules ag) (messages ag)).

Definition sameDay (userId date : string) (r : CheckInRow.t) : bool :=
  bool_decide (CheckInRow.user_id r = userId) && bool_decide (CheckInRow.date r = date).

(** [SELECT id FROM check_ins WHERE user_id = ? AND date = ? LIMIT 1] *)
Definition selectCheckInId (userId date : string) : Eff Agent (list string) :=
  sqlReady ;;;
  let* ag := inspect in
  ret (take 1 (CheckInRow.id <$> List.filter (sameDay userId date) (check_ins ag))).

(** [UPDATE check_ins SET emotional_tone = ?, summary = ?,
    recommendations = ?, created_at = ? WHERE id = ?] *)
Definition updateCheckIn (rowId tone summary : string) (recommendations : list string)
    (createdAt : string) : Eff Agent unit :=
  sqlReady ;;;
  let* ag := inspect in
  setCheckIns
    ((fun r => if bool_decide (CheckInRow.id r = rowId)
               then CheckInRow.make (CheckInRow.id r) (CheckInRow.user_id r)
                      (CheckInRow.date r) tone summary recommendations createdAt
               else r) <$> check_ins ag).

(** [INSERT INTO check_ins (...) VALUES (...)]; [id] is the primary key. *)
Definition insertCheckIn (row : CheckInRow.t) : Eff Agent unit :=
  sqlReady ;;;
  let* ag := inspect in
  if bool_decide (CheckInRow.id row ∈ CheckInRow.id <$> check_ins ag)
  then throw "UNIQUE constraint failed: check_ins.id"
  else setCheckIns (check_ins ag ++ [row]).

End AgentPrimitives.

(** ** Check-in ledger *)

Definition validTones : list string := ["positive"; "neutral"; "negative"].

Section Ledger.
Local Open Scope eff_scope.

(** [MindGuard.saveCheckIn] ([recommendations] is a list by its type, so
    the [Array.isArray] guard never fires). *)
Definition saveCheckIn (host : Host) (emotionalTone summary : string)
    (recommendations : list string) : Eff Agent unit :=
  tryCatch
    (if negb (truthy emotionalTone) || negb (truthy summary)
     then throw "Emotional tone and summary are required"
     else
       let emotionalTone :=
         if negb (bool_decide (toLowerCase emotionalTone ∈ validTones))
         then "neutral" else emotionalTone in
       let checkInId := generateId host in
       let* st := readState in
       let userId := orDefault (st ≫= MindGuardState.userId) "default" in
       let date := isoDate (today host) in
       let* existingCheckIn := selectCheckInId userId date in
       match existingCheckIn with
       | existingId :: _ =>
           updateCheckIn existingId (toLowerCase emotionalTone) summary
             recommendations (stamp host)
       | [] =>
           insertCheckIn
             (CheckInRow.make checkInId userId date (toLowerCase emotionalTone)
                summary recommendations (stamp host))
       end ;;;
       let* st := readState in
       let updatedCheckIns := default [] (st ≫= MindGuardState.dailyCheckIns) in
       let checkInEntry :=
         CheckInEntry.make date (toLowerCase emotionalTone) summary recommendations in
       let updatedCheckIns :=
         match list_find (fun ci => CheckInEntry.date ci = date) updatedCheckIns with
         | Some (existingIndex, _) => <[existingIndex := checkInEntry]> updatedCheckIns
         | None => updatedCheckIns ++ [checkInEntry]
         end in
       setState
         (MindGuardState.make (Some userId) (Some updatedCheckIns) (Some date)
            (Some (default defaultPreferences (st ≫= MindGuardState.preferences)))))
    (fun error => throw error).

End Ledger.

(** ** Preference store *)

Section PreferenceStore.
Local Open Scope eff_scope.

Definition ownedBy (userId : string) (r : PrefRow.t) : bool :=
  bool_decide (PrefRow.user_id r = userId).

(** [SELECT agent_name FROM user_preferences WHERE user_id = ? LIMIT 1] *)
Definition selectAgentName (userId : string) : Eff Agent (list (option string)) :=
  sqlReady ;;;
  let* ag := inspect in
  ret (take 1 (PrefRow.agent_name <$> List.filter (ownedBy userId) (user_preferences ag))).

(** [INSERT INTO user_preferences (user_id, agent_name, updated_at)
    VALUES (?, ?, ?) ON CONFLICT(user_id) DO UPDATE SET agent_name = ?,
    updated_at = ?] *)
Definition upsertAgentName (userId name updatedAt : string) : Eff Agent unit :=
  sqlReady ;;;
  let* ag := inspect in
  if existsb (ownedBy userId) (user_preferences ag)
  then setUserPreferences
         ((fun r => if ownedBy userId r
                    then PrefRow.make (PrefRow.user_id r) (PrefRow.check_in_time r)
                           (PrefRow.timezone r) (Some name) (PrefRow.model_provider r)
                           (Some updatedAt)
                    else r) <$> user_preferences ag)
  else setUserPreferences
         (user_preferences ag
            ++ [PrefRow.make userId None None (Some name) None (Some updatedAt)]).

(** [MindGuard.getAgentName].  The early [return]s of the source are the
    branches that end in [ret]; the inner [try] yields the persisted name
    when the query produced one. *)
Definition getAgentName : Eff Agent string :=
  tryCatch
    (let* st := readState in
     match present ((st ≫= MindGuardState.preferences) ≫= Preferences.agentName) with
     | Some inState => ret inState
     | None =>
         let userId := orDefault (st ≫= MindGuardState.userId) "default" in
         let* persisted :=
           tryCatch
             (let* result := selectAgentName userId in
              ret (present (mjoin (head result))))
             (fun error => ret (None : option string)) in
         match persisted with
         | Some name => ret name
         | None => ret "MindGuard"
         end
     end)
    (fun error => ret "MindGuard").

(** [MindGuard.updateAgentName] *)
Definition updateAgentName (host : Host) (newName : string) : Eff Agent unit :=
  tryCatch
    (if negb (truthy newName) || (String.length (trim newName) =? 0)%nat
     then throw "Agent name cannot be empty"
     else if (50 <? String.length newName)%nat
     then throw "Agent name must be 50 characters or less"
     else
       let* st := readState in
       let userId := orDefault (st ≫= MindGuardState.userId) "default" in
       let trimmedName := trim newName in
       upsertAgentName userId trimmedName (stamp host) ;;;
       let* st := readState in
       let old := default defaultPreferences (st ≫= MindGuardState.preferences) in
       setState
         (MindGuardState.make
            (st ≫= MindGuardState.userId)
            (st ≫= MindGuardState.dailyCheckIns)
            (st ≫= MindGuardState.lastCheckIn)
            (Some (Preferences.make (Preferences.checkInTime old) (Preferences.timezone old)
                     (Some trimmedName) (Preferences.modelProvider old)))))
    (fun error => throw error).

End PreferenceStore.

(** ** Star-free regular expressions

    The patterns of the source have no repetition, so a matcher that
    returns, in the order a backtracking engine tries them, every remainder
    a pattern can leave is structural in the pattern. *)

Module Regex.

Inductive t : Type :=
| Range (lo hi : ascii)          (* [lo-hi] *)
| Chr (c : ascii)                (* a literal character *)
| Seq (r1 r2 : t)                (* r1 r2 *)
| Alt (r1 r2 : t)                (* r1|r2 *)
| Opt (r : t).                   (* r? *)

Definition inRange (lo hi c : ascii) : bool :=
  ((N_of_ascii lo <=? N_of_ascii c) && (N_of_ascii c <=? N_of_ascii hi))%N.

Fixpoint remainders (r : t) (s : string) : list string :=
  match r with
  | Range lo hi =>
      match s with
      | String c s' => if inRange lo hi c then [s'] else []
      | EmptyString => []
      end
  | Chr c0 =>
      match s with
      | String c s' => if Ascii.eqb c c0 then [s'] else []
      | EmptyString => []
      end
  | Seq r1 r2 => flat_map (remainders r2) (remainders r1 s)
  | Alt r1 r2 => remainders r1 s ++ remainders r2 s
  | Opt r' => remainders r' s ++ [s]
  end.

(** [/^r$/.test(s)] *)
Definition test (r : t) (s : string) : bool :=
  existsb (fun rest => bool_decide (rest = EmptyString)) (remainders r s).

End Regex.

(** ** Scheduler *)

(** [/^([0-1]?[0-9]|2[0-3]):[0-5][0-9]$/] *)
Definition timeRegex : Regex.t :=
  Regex.Seq
    (Regex.Alt
       (Regex.Seq (Regex.Opt (Regex.Range "0" "1")) (Regex.Range "0" "9"))
       (Regex.Seq (Regex.Chr "2") (Regex.Range "0" "3")))
    (Regex.Seq (Regex.Chr ":")
       (Regex.Seq (Regex.Range "0" "5") (Regex.Range "0" "9"))).

Definition isDailyCheckIn (schedule : Schedule.t) : bool :=
  bool_decide (Schedule.callback schedule = "executeDailyCheckIn").

Section Scheduler.
Local Open Scope eff_scope.

(** [this.getSchedules()]: the SDK keeps the schedules in a table of the
    storage of the agent, and this is a query on it. *)
Definition getSchedules : Eff Agent (list Schedule.t) :=
  sqlReady ;;;
  let* ag := inspect in
  ret (schedules ag).

(** The table of schedules after [INSERT OR REPLACE] of a row: the row
    that had its id, if any, is gone and the new row is the last. *)
Definition replaceSchedule (created : Schedule.t) (rows : list Schedule.t) :
    list Schedule.t :=
  List.filter (fun s => negb (bool_decide (Schedule.id s = Schedule.id created))) rows
  ++ [created].

(** [this.schedule(when, callback, payload)] of the SDK: a text that the
    cron parser rejects makes it throw before anything is written; else the
    row is written under its id, the primary key, with [INSERT OR REPLACE],
    which throws while the storage is unavailable.  The host draws the
    id. *)
Definition schedule (host : Host) (when : When) (callback payload : string) :
    Eff Agent Schedule.t :=
  let created := Schedule.make (generateId host) callback payload when in
  match when with
  | Cron cron =>
      match cronError host cron with
      | Some error => throw error
      | None => ret tt
      end
  | _ => ret tt
  end ;;;
  sqlReady ;;;
  modify (fun ag => mkAgent (state ag) (check_ins ag) (user_preferences ag) (db_fault ag)
                            (replaceSchedule created (schedules ag)) (messages ag)) ;;;
  ret created.

Definition configuredCheckInTime (st : option MindGuardState.t) : string :=
  orDefault ((st ≫= MindGuardState.preferences) ≫= Preferences.checkInTime) "09:00".

(** [MindGuard.scheduleDailyCheckIn] of [src/server.ts]; the lookups after
    the creation only feed the log. *)
Definition scheduleDailyCheckIn (host : Host) : Eff Agent unit :=
  tryCatch
    (let* st := readState in
     let checkInTime := configuredCheckInTime st in
     if negb (Regex.test timeRegex checkInTime)
     then ret tt
     else
       let cronPattern := "* * * * *" in
       let* existingSchedules := getSchedules in
       let hasDailyCheckIn := existsb isDailyCheckIn existingSchedules in
       if negb hasDailyCheckIn
       then
         let* scheduleResult :=
           schedule host (Cron cronPattern) "executeDailyCheckIn" "Daily wellness check-in" in
         let* verifySchedules := getSchedules in
         ret tt
       else ret tt)
    (fun error => ret tt).

End Scheduler.

(** The earlier variant of the agent (the two older copies of [server.ts]
    among the sources), where the cron pattern is computed from the
    configured time. *)
Module Earlier.
Section Scheduler.
Local Open Scope eff_scope.

(** [`${minute} ${hour} * * *`] with [[hour, minute] = checkInTime.split(':')] *)
Definition cronPatternOf (checkInTime : string) : string :=
  let parts := split ":" checkInTime in
  let hour := default "undefined" (parts !! 0%nat) in
  let minute := default "undefined" (parts !! 1%nat) in
  minute +:+ " " +:+ hour +:+ " * * *".

Definition scheduleDailyCheckIn (host : Host) : Eff Agent unit :=
  tryCatch
    (let* st := readState in
     let checkInTime := configuredCheckInTime st in
     if negb (Regex.test timeRegex checkInTime)
     then ret tt
     else
       let cronPattern := cronPatternOf checkInTime in
       let* existingSchedules := getSchedules in
       let hasDailyCheckIn := existsb isDailyCheckIn existingSchedules in
       if negb hasDailyCheckIn
       then
         unawaited
           (schedule host (Cron cronPattern) "executeDailyCheckIn" "Daily wellness check-in")
       else ret tt)
    (fun error => ret tt).

End Scheduler.
End Earlier.

(** ** Recommendation selector *)

Module Tone.
(** [z.enum(["positive", "neutral", "negative"])] *)
Inductive t : Type := Positive | Neutral | Negative.
End Tone.

Definition professionalSupport : string :=
  "Consider reaching out to a mental health professional or crisis support line if needed".

(** The table the [getMindfulnessRecommendations] tool builds on every call. *)
Definition toolRecommendations (tone : Tone.t) : list string :=
  match tone with
  | Tone.Positive =>
      [ "Practice gratitude journaling - write down 3 things you're grateful for today";
        "Share your positive energy with others - reach out to a friend or loved one";
        "Set new goals while feeling motivated - channel this energy into something meaningful";
        "Practice mindful appreciation - take a moment to fully experience this positive feeling" ]
  | Tone.Neutral =>
      [ "Take a mindful walk - focus on your breathing and surroundings";
        "Practice deep breathing exercises - 4-7-8 technique (inhale 4, hold 7, exhale 8)";
        "Try a new hobby or activity - explore something that interests you";
        "Practice body scan meditation - notice how each part of your body feels" ]
  | Tone.Negative =>
      [ "Practice 4-7-8 breathing technique - inhale for 4, hold for 7, exhale for 8";
        "Write down your feelings in a journal - express what you're experiencing";
        "Try progressive muscle relaxation - tense and release each muscle group";
        "Consider talking to a trusted friend or professional - you don't have to go through this alone";
        "Practice self-compassion - be kind to yourself, acknowledge that difficult emotions are valid" ]
  end.

(** [getMindfulnessRecommendations.execute]: [intensity] is a JavaScript
    number, here a rational, and defaults to 5.  The table is allocated inside
    [execute], so the [push] changes the array of this call only; every
    member of the enumeration is a key of the table, so the [||] fallback to
    the neutral list is never taken. *)
Definition getMindfulnessRecommendations (emotionalTone : Tone.t) (intensity : option Q) :
    list string :=
  let intensity := default (5 : Q) intensity in
  let toneRecommendations := toolRecommendations emotionalTone in
  if Qle_bool 7 intensity
     && match emotionalTone with Tone.Negative => true | _ => false end
  then toneRecommendations ++ [professionalSupport]
  else toneRecommendations.

(** ** The recommendation endpoint of the agent *)

Module Endpoint.

(** What [recommendations[toneKey] || recommendations.neutral] evaluates
    to, as [Response.json] serialises it: an array of strings; the empty
    object (for [Object.prototype], reached through ["__proto__"]); or
    nothing (the function reached through ["constructor"] is dropped from
    the JSON text). *)
Inductive Recommendations : Type :=
| Items (items : list string)
| EmptyObject
| Omitted.

Inductive Body : Type :=
| RecommendationsBody (recommendations : Recommendations)
| ErrorBody (error : string).

Record Response : Type := mkResponse {
  status : Z;
  body : Body
}.

Definition positiveList : list string :=
  [ "Practice gratitude journaling - write down 3 things you're grateful for today";
    "Share your positive energy with others - reach out to a friend or loved one";
    "Set new goals while feeling motivated - channel this energy into something meaningful" ].

Definition neutralList : list string :=
  [ "Take a mindful walk - focus on your breathing and surroundings";
    "Practice deep breathing exercises - 4-7-8 technique";
    "Try a new hobby or activity - explore something that interests you" ].

Definition negativeList : list string :=
  [ "Practice 4-7-8 breathing technique - inhale for 4, hold for 7, exhale for 8";
    "Write down your feelings in a journal - express what you're experiencing";
    "Consider talking to a trusted friend or professional - you don't have to go through this alone" ].

(** [recommendations[toneKey]]: an own key of the object literal, else a
    member inherited from [Object.prototype] (only two of its names are
    all lower case), else undefined. *)
Definition lookup (toneKey : string) : option Recommendations :=
  if bool_decide (toneKey = "positive") then Some (Items positiveList)
  else if bool_decide (toneKey = "neutral") then Some (Items neutralList)
  else if bool_decide (toneKey = "negative") then Some (Items negativeList)
  else if bool_decide (toneKey = "__proto__") then Some EmptyObject
  else if bool_decide (toneKey = "constructor") then Some Omitted
  else None.

(** The [POST /internal/get-recommendations] branch of
    [MindGuard.onRequest]; the body is [{ emotionalTone?, intensity? }]. *)
Definition getRecommendations (emotionalTone : option string) (intensity : option Q) :
    Eff Agent Response :=
  tryCatch
    (let emotionalTone := default "neutral" emotionalTone in
     let toneKey := toLowerCase emotionalTone in
     let recs := default (Items neutralList) (lookup toneKey) in
     ret (mkResponse 200 (RecommendationsBody recs)))
    (fun error => ret (mkResponse 500 (ErrorBody error))).

End Endpoint.

(** ** Check-in workflow *)

Module Workflow.

(** The five endpoints the workflow posts to:
    [`${workerUrl}/agents/mindguard/${agentId}/internal/${name}`]. *)
Inductive Route : Type :=
| SendCheckInMessage
| AnalyzeTone
| GetRecommendations
| SaveCheckIn
| SendMessage.

(** The JSON bodies it sends; a field that is undefined is left out by
    [JSON.stringify]. *)
Inductive Payload : Type :=
| MessagePayload (message : string)
| TonePayload (emotionalTone : option string) (intensity : Q)
| CheckInPayload (emotionalTone : option string) (summary : string)
    (recommendations : list string).

Record Request : Type := mkRequest {
  workerUrl : string;
  agentId : string;
  route : Route;
  payload : Payload
}.

(** The fields the workflow reads from [response.json()]. *)
Record Json : Type := mkJson {
  tone : option string;
  intensity : option Q;
  recommendations : option (list string)
}.

Record Response : Type := mkResponse {
  ok : bool;
  statusText : string;
  json : Json
}.

Record CheckInWorkflowInput : Type := mkInput {
  userId : string;
  inputAgentId : string;
  checkInTime : string;
  inputWorkerUrl : option string
}.

(** The reply event of a cycle: how many milliseconds after the wait was
    registered it is delivered, and the text it carries; [None] when the
    user never replies. *)
Definition Arrival : Type := option (Z * string).

(** What the Workflows runtime brings and the sources do not show: how
    many more times it runs the callback of a step that threw before the
    step fails (five when the step gives no configuration, as here), and the
    message of the error a wait throws when its timeout passes. *)
Record Runtime : Type := mkRuntime {
  retryLimit : nat;
  timeoutError : string
}.

Definition checkInPrompt : string :=
  "Good morning! 🌅 It's time for your daily check-in. How are you feeling today? Take a moment to reflect on your emotional state and share what's on your mind.".

Definition reminder : string :=
  "I noticed you haven't responded to today's check-in. That's okay! Feel free to share how you're feeling whenever you're ready. I'm here for you. 💙".

Definition newline : string := String (ascii_of_nat 10) EmptyString.

(** [`${v}`] for a possibly-undefined string. *)
Definition shown (v : option string) : string := default "undefined" v.

(** [analysis.intensity || 5] *)
Definition intensityOr5 (v : option Q) : Q :=
  match v with
  | Some q => if Qeq_bool q 0 then 5 else q
  | None => 5
  end.

Definition summaryMessage (tone : option string) (recommendations : option (list string)) :
    string :=
  "Thank you for your check-in! Based on your response, I've noted that you're feeling "
  +:+ shown tone
  +:+ ". Here are some personalized recommendations:" +:+ newline +:+ newline
  +:+ shown ((fun recs => join newline (imap (fun i r => pretty (i + 1)%nat +:+ ". " +:+ r) recs))
             <$> recommendations)
  +:+ newline +:+ newline +:+ "Take care! 💙".

Section Run.
Local Open Scope eff_scope.

(** The world the workflow talks to: [fetch] answers a request, or
    rejects. *)
Context {World : Type}.
Variable fetch : Request -> Eff World Response.

(** A cycle in progress: the world and the requests issued so far. *)
Record Cycle : Type := mkCycle {
  world : World;
  issued : list Request
}.

Definition post (request : Request) : Eff Cycle Response :=
  fun c =>
    let '(w, outcome) := fetch request (world c) in
    (mkCycle w (issued c ++ [request]), outcome).

Variable runtime : Runtime.

(** The callback of a step, run again while it throws and retries are
    left; each attempt starts from what the one before left behind. *)
Fixpoint attempts {A} (retries : nat) (callback : Eff Cycle A) : Eff Cycle A :=
  tryCatch callback
    (fun error =>
       match retries with
       | O => throw error
       | S retries => attempts retries callback
       end).

(** [step.do(name, callback)]: the step completes with the value of the
    first attempt that returns, or fails with what the last attempt threw
    once the runtime has given up on it. *)
Definition stepDo {A} (name : string) (callback : Eff Cycle A) : Eff Cycle A :=
  attempts (retryLimit runtime) callback.

(** [step.waitForEvent(name, { type, timeout })]: the event when it
    arrives within [timeout], a number being milliseconds; when the timeout
    passes the runtime throws.  The promise never resolves to a value that
    is falsy. *)
Definition waitForEvent (arrival : Arrival) (name : string) (timeout : Z) :
    Eff Cycle (option string) :=
  match arrival with
  | Some (after, response) =>
      if (after <? timeout)%Z then ret (Some response) else throw (timeoutError runtime)
  | None => throw (timeoutError runtime)
  end.

(** [CheckInWorkflow.run] *)
Definition run (input : CheckInWorkflowInput) (arrival : Arrival) : Eff Cycle unit :=
  let agentId := inputAgentId input in
  let workerUrl := orDefault (inputWorkerUrl input) "https://mindguard.nkemkaomeiza.workers.dev" in
  stepDo "send-check-in-message"
    (let* response :=
       post (mkRequest workerUrl agentId SendCheckInMessage (MessagePayload checkInPrompt)) in
     if negb (ok response)
     then throw ("Failed to send check-in message: " +:+ statusText response)
     else ret tt) ;;;
  let* userResponseEvent :=
    waitForEvent arrival "user-check-in-response" (24 * 60 * 60) in
  match userResponseEvent with
  | Some userResponseText =>
      let* analysis :=
        stepDo "analyze-emotional-tone"
          (let* response :=
             post (mkRequest workerUrl agentId AnalyzeTone (MessagePayload userResponseText)) in
           if negb (ok response)
           then throw ("Failed to analyze tone: " +:+ statusText response)
           else ret (json response)) in
      let* recommendationsResult :=
        stepDo "generate-recommendations"
          (let* response :=
             post (mkRequest workerUrl agentId GetRecommendations
                     (TonePayload (tone analysis) (intensityOr5 (intensity analysis)))) in
           if negb (ok response)
           then throw ("Failed to get recommendations: " +:+ statusText response)
           else ret (json response)) in
      stepDo "save-check-in"
        (let summary :=
           "Daily check-in: User reported feeling " +:+ shown (tone analysis)
           +:+ ". Response: " +:+ String.substring 0 200 userResponseText +:+ "..." in
         let* response :=
           post (mkRequest workerUrl agentId SaveCheckIn
                   (CheckInPayload (tone analysis) summary
                      (default [] (recommendations recommendationsResult)))) in
         if negb (ok response)
         then throw ("Failed to save check-in: " +:+ statusText response)
         else ret tt) ;;;
      stepDo "send-summary"
        (let* response :=
           post (mkRequest workerUrl agentId SendMessage
                   (MessagePayload
                      (summaryMessage (tone analysis)
                         (recommendations recommendationsResult)))) in
         if negb (ok response)
         then throw ("Failed to send summary: " +:+ statusText response)
         else ret tt)
  | None =>
      stepDo "handle-timeout"
        (post (mkRequest workerUrl agentId SendMessage (MessagePayload reminder)) ;;;
         ret tt)
  end.

End Run.

(** The requests of a cycle, as [run] builds them. *)
Definition workerUrlOf (input : CheckInWorkflowInput) : string :=
  orDefault (inputWorkerUrl input) "https://mindguard.nkemkaomeiza.workers.dev".

Definition promptRequest (input : CheckInWorkflowInput) : Request :=
  mkRequest (workerUrlOf input) (inputAgentId input) SendCheckInMessage
    (MessagePayload checkInPrompt).

Definition analyzeRequest (input : CheckInWorkflowInput) (text : string) : Request :=
  mkRequest (workerUrlOf input) (inputAgentId input) AnalyzeTone (MessagePayload text).

Definition reminderRequest (input : CheckInWorkflowInput) : Request :=
  mkRequest (workerUrlOf input) (inputAgentId input) SendMessage (MessagePayload reminder).

(** The timeout [run] gives its wait: the number of seconds of 24 hours,
    which the runtime reads as milliseconds, 86.4 seconds. *)
Definition deadline : Z := 24 * 60 * 60.

(** The runtime as it is configured by default; the wording of its
    timeout error is a sample. *)
Definition defaultRuntime : Runtime :=
  mkRuntime 5 "Execution timed out after 86400ms".

(** What a finished cycle did. *)
Definition posts {World} (to : Route) (c : @Cycle World) : list Request :=
  List.filter (fun r => match route r, to with
                        | SendCheckInMessage, SendCheckInMessage
                        | AnalyzeTone, AnalyzeTone
                        | GetRecommendations, GetRecommendations
                        | SaveCheckIn, SaveCheckIn
                        | SendMessage, SendMessage => true
                        | _, _ => false
                        end) (issued c).

(** Sample worlds without state of their own: every endpoint answers 200,
    except, in the second, tone analysis, which answers 500. *)
Definition sampleInput : CheckInWorkflowInput :=
  mkInput "default" "default" "2026-11-03T09:00:00.000Z" None.

Definition okResponse (body : Json) : Response := mkResponse true "OK" body.

Definition answering (analysis : Response) (request : Request) : Eff unit Response :=
  ret (match route request with
       | AnalyzeTone => analysis
       | GetRecommendations =>
           okResponse (mkJson None None (Some ["Take a mindful walk"; "Breathe"; "Journal"]))
       | _ => okResponse (mkJson None None None)
       end).

Definition healthy : Request -> Eff unit Response :=
  answering (okResponse (mkJson (Some "positive") (Some (6 : Q)) None)).


End Workflow.

(** ** Notions the statements are phrased with *)

(** [this.state?.userId || "default"] *)
Definition currentUser (ag : Agent) : string :=
  orDefault (state ag ≫= MindGuardState.userId) "default".

(** The tone a check-in is to be stored with: the lower-case input when that
    is one of the three tones, else ["neutral"]. *)
Definition storedTone (tone : string) : string :=
  if bool_decide (toLowerCase tone ∈ validTones) then toLowerCase tone else "neutral".

(** The effect of the [UPDATE] statement on one row. *)
Definition rewriteRow (rowId tone summary : string) (recs : list string) (createdAt : string)
    (r : CheckInRow.t) : CheckInRow.t :=
  if bool_decide (CheckInRow.id r = rowId)
  then CheckInRow.make (CheckInRow.id r) (CheckInRow.user_id r) (CheckInRow.date r)
         tone summary recs createdAt
  else r.

(** The effect of a save on [state.dailyCheckIns]. *)
Definition recordEntry (entry : CheckInEntry.t) (entries : list CheckInEntry.t) :
    list CheckInEntry.t :=
  match list_find (fun ci => CheckInEntry.date ci = CheckInEntry.date entry) entries with
  | Some (existingIndex, _) => <[existingIndex := entry]> entries
  | None => entries ++ [entry]
  end.

Definition stateAfterSave (host : Host) (tone summary : string) (recs : list string)
    (ag : Agent) : MindGuardState.t :=
  MindGuardState.make (Some (currentUser ag))
    (Some (recordEntry
             (CheckInEntry.make (isoDate (today host)) (storedTone tone) summary recs)
             (default [] (state ag ≫= MindGuardState.dailyCheckIns))))
    (Some (isoDate (today host)))
    (Some (default defaultPreferences (state ag ≫= MindGuardState.preferences))).

(** The name [getAgentName] is specified to return: the value in the state
    when there is one, else the value of the persisted row when the storage
    answers and has one, else the default. *)
Definition agentNameByFallback (ag : Agent) : string :=
  match present ((state ag ≫= MindGuardState.preferences) ≫= Preferences.agentName) with
  | Some inState => inState
  | None =>
      match db_fault ag with
      | Some _ => "MindGuard"
      | None =>
          match List.filter (ownedBy (currentUser ag)) (user_preferences ag) with
          | row :: _ => default "MindGuard" (present (PrefRow.agent_name row))
          | [] => "MindGuard"
          end
      end
  end.

(** The agent name held by the state slot. *)
Definition stateAgentName (ag : Agent) : option string :=
  (state ag ≫= MindGuardState.preferences) ≫= Preferences.agentName.

(** The agent after [this.schedule] created a job. *)
Definition withSchedule (ag : Agent) (created : Schedule.t) : Agent :=
  mkAgent (state ag) (check_ins ag) (user_preferences ag) (db_fault ag)
    (replaceSchedule created (schedules ag)) (messages ag).

(** The job [scheduleDailyCheckIn] creates, for a cron pattern. *)
Definition dailyJob (host : Host) (cron : string) : Schedule.t :=
  Schedule.make (generateId host) "executeDailyCheckIn" "Daily wellness check-in" (Cron cron).

(** The scheduled jobs whose callback is ["executeDailyCheckIn"]. *)
Definition dailyJobs (ag : Agent) : list Schedule.t :=
  List.filter isDailyCheckIn (schedules ag).

(** Sample values for the closed instances below. *)
Definition freshAgent : Agent := mkAgent None [] [] None [] [].

(** The cron parser of the sample hosts.  It accepts the patterns of five
    fields, one space apart, each [*] or a number of one or two digits in
    the range of the field (minute, hour, day of the month, month, day of
    the week) - patterns that every cron parser accepts - and nothing
    else. *)
Definition digitValue (c : ascii) : option nat :=
  if Regex.inRange "0" "9" c then Some (nat_of_ascii c - 48)%nat else None.

Definition numberOf (field : string) : option nat :=
  match field with
  | String c EmptyString => digitValue c
  | String c (String d EmptyString) =>
      match digitValue c, digitValue d with
      | Some tens, Some units => Some (10 * tens + units)%nat
      | _, _ => None
      end
  | _ => None
  end.

Definition plainField (lo hi : nat) (field : string) : bool :=
  bool_decide (field = "*")
  || match numberOf field with
     | Some n => (lo <=? n)%nat && (n <=? hi)%nat
     | None => false
     end.

Definition plainCron (pattern : string) : option string :=
  match split " " pattern with
  | [minute; hour; day; month; weekday] =>
      if plainField 0 59 minute && plainField 0 23 hour && plainField 1 31 day
         && plainField 1 12 month && plainField 0 7 weekday
      then None
      else Some "Invalid cron expression"
  | _ => Some "Invalid cron expression"
  end.

Definition morning : Host :=
  mkHost "a1" "2026-11-03T09:00:00.000Z" "2026-11-03T09:00:00.412Z" plainCron.

Definition evening : Host :=
  mkHost "b2" "2026-11-03T19:30:00.000Z" "2026-11-03T19:30:00.007Z" plainCron.

(** ** Further methods of the agent *)

Section History.
Local Open Scope eff_scope.

Definition ownCheckIn (userId : string) (r : CheckInRow.t) : bool :=
  bool_decide (CheckInRow.user_id r = userId).

(** [ORDER BY created_at DESC]: text compares code unit by code unit, a
    proper prefix first.  SQL leaves the order of rows with equal stamps
    open; here they keep the order of the table. *)
Fixpoint insertByCreatedAt (r : CheckInRow.t) (sorted : list CheckInRow.t) :
    list CheckInRow.t :=
  match sorted with
  | [] => [r]
  | x :: rest =>
      if String.ltb (CheckInRow.created_at r) (CheckInRow.created_at x)
      then x :: insertByCreatedAt r rest
      else r :: x :: rest
  end.

Definition orderByCreatedAtDesc (rows : list CheckInRow.t) : list CheckInRow.t :=
  foldr insertByCreatedAt [] rows.

(** [LIMIT n]: a negative [n] is no limit. *)
Definition limitRows {A} (n : Z) (rows : list A) : list A :=
  if (n <? 0)%Z then rows else take (Z.to_nat n) rows.

(** [SELECT * FROM check_ins WHERE user_id = ? ORDER BY created_at DESC
    LIMIT ?] *)
Definition selectHistory (userId : string) (limit : Z) : Eff Agent (list CheckInRow.t) :=
  sqlReady ;;;
  let* ag := inspect in
  ret (limitRows limit (orderByCreatedAtDesc (List.filter (ownCheckIn userId) (check_ins ag)))).

(** [MindGuard.getCheckInHistory]; [limit] is an integer and defaults
    to 7. *)
Definition getCheckInHistory (limit : option Z) : Eff Agent (list CheckInRow.t) :=
  tryCatch
    (let limit := default 7%Z limit in
     let* st := readState in
     let userId := orDefault (st ≫= MindGuardState.userId) "default" in
     let* results := selectHistory userId limit in
     ret results)
    (fun error => ret []).

(** [MindGuard.getLastCheckIn]: the query is the one above with the column
    [date] and [LIMIT 1]; [None] is [null]. *)
Definition getLastCheckIn : Eff Agent (option string) :=
  tryCatch
    (let* st := readState in
     let userId := orDefault (st ≫= MindGuardState.userId) "default" in
     let* result := selectHistory userId 1 in
     match result with
     | first :: _ => ret (Some (CheckInRow.date first))
     | [] => ret None
     end)
    (fun error => ret None).

End History.

Section ModelProvider.
Local Open Scope eff_scope.

(** [SELECT model_provider FROM user_preferences WHERE user_id = ? LIMIT 1] *)
Definition selectModelProvider (userId : string) : Eff Agent (list (option string)) :=
  sqlReady ;;;
  let* ag := inspect in
  ret (take 1 (PrefRow.model_provider <$> List.filter (ownedBy userId) (user_preferences ag))).

(** [INSERT INTO user_preferences (user_id, model_provider, updated_at)
    VALUES (?, ?, ?) ON CONFLICT(user_id) DO UPDATE SET model_provider = ?,
    updated_at = ?] *)
Definition upsertModelProvider (userId provider updatedAt : string) : Eff Agent unit :=
  sqlReady ;;;
  let* ag := inspect in
  if existsb (ownedBy userId) (user_preferences ag)
  then setUserPreferences
         ((fun r => if ownedBy userId r
                    then PrefRow.make (PrefRow.user_id r) (PrefRow.check_in_time r)
                           (PrefRow.timezone r) (PrefRow.agent_name r) (Some provider)
                           (Some updatedAt)
                    else r) <$> user_preferences ag)
  else setUserPreferences
         (user_preferences ag
            ++ [PrefRow.make userId None None None (Some provider) (Some updatedAt)]).

Definition isProvider (provider : string) : bool :=
  bool_decide (provider = "openai") || bool_decide (provider = "workers-ai").

(** [MindGuard.getModelProvider] *)
Definition getModelProvider : Eff Agent string :=
  tryCatch
    (let* st := readState in
     match present ((st ≫= MindGuardState.preferences) ≫= Preferences.modelProvider) with
     | Some inState => ret inState
     | None =>
         let userId := orDefault (st ≫= MindGuardState.userId) "default" in
         let* persisted :=
           tryCatch
             (let* result := selectModelProvider userId in
              match present (mjoin (head result)) with
              | Some provider =>
                  if isProvider provider then ret (Some provider) else ret None
              | None => ret None
              end)
             (fun error => ret (None : option string)) in
         match persisted with
         | Some provider => ret provider
         | None => ret "openai"
         end
     end)
    (fun error => ret "openai").

(** [MindGuard.updateModelProvider] *)
Definition updateModelProvider (host : Host) (provider : string) : Eff Agent unit :=
  tryCatch
    (let* st := readState in
     let userId := orDefault (st ≫= MindGuardState.userId) "default" in
     let now := stamp host in
     upsertModelProvider userId provider now ;;;
     let* st := readState in
     let old := st ≫= MindGuardState.preferences in
     setState
       (MindGuardState.make
          (st ≫= MindGuardState.userId)
          (st ≫= MindGuardState.dailyCheckIns)
          (st ≫= MindGuardState.lastCheckIn)
          (Some (Preferences.make
                   (Some (orDefault (old ≫= Preferences.checkInTime) "09:00"))
                   (Some (orDefault (old ≫= Preferences.timezone) "UTC"))
                   (Some (orDefault (old ≫= Preferences.agentName) "MindGuard"))
                   (Some provider)))))
    (fun error => throw error).

End ModelProvider.

Section Messages.
Local Open Scope eff_scope.

(** [this.saveMessages(list)]: the chat messages become [list]; they are
    persisted through the storage of the agent, so the call throws while
    that is unavailable.  What the chat loop streams in answer is outside
    the model. *)
Definition saveMessages (list : list Message.t) : Eff Agent unit :=
  sqlReady ;;;
  modify (fun ag => mkAgent (state ag) (check_ins ag) (user_preferences ag)
                            (db_fault ag) (schedules ag) list).

(** An assistant or user message with a text part, as the agent builds
    it: a generated id and the current instant. *)
Definition textMessage (host : Host) (role text : string) : Message.t :=
  Message.make (generateId host) role (JString text) (stamp host).

Definition shortPrompt : string :=
  "Good morning! 🌅 It's time for your daily check-in. How are you feeling today?".

(** [private readonly USE_WORKFLOWS = false] *)
Definition USE_WORKFLOWS : bool := false.

(** [MindGuard.executeDailyCheckIn].  [workflow] is the effect of
    [this.env.CHECKIN_WORKFLOW.create(...)] when that binding exists: it acts
    outside the agent, and the model keeps of it that it may throw. *)
Definition executeDailyCheckIn (host : Host) (workflow : option (Eff Agent unit))
    (description : string) : Eff Agent unit :=
  tryCatch
    (match (if USE_WORKFLOWS then workflow else None) with
     | Some create => create
     | None =>
         let* ag := inspect in
         saveMessages (messages ag ++ [textMessage host "assistant" Workflow.checkInPrompt])
     end)
    (fun error =>
       tryCatch
         (let* ag := inspect in
          saveMessages (messages ag ++ [textMessage host "assistant" shortPrompt]))
         (fun fallbackError => ret tt)).

(** [MindGuard.executeTask] *)
Definition executeTask (host : Host) (description : string) : Eff Agent unit :=
  let* ag := inspect in
  saveMessages
    (messages ag ++ [textMessage host "user" ("Running scheduled task: " +:+ description)]).

End Messages.


(** [MindGuard.initializeDatabase]: the statements create the two tables
    when they are missing and add two columns when those are missing; the
    tables of the model exist from the start, and every error is caught
    inside. *)
Definition initializeDatabase : Eff Agent unit :=
  tryCatch (bind sqlReady (fun _ => ret tt)) (fun error => ret tt).

(** [MindGuard.onStart] *)
Definition onStart (host : Host) : Eff Agent unit :=
  tryCatch
    (bind initializeDatabase (fun _ => bind (scheduleDailyCheckIn host) (fun _ => ret tt)))
    (fun error => ret tt).

(** ** The HTTP surface of the agent *)

Module Http.

Inductive Method : Type := GET | POST | OtherMethod.

(** The member [recommendations] of a body as the save-check-in route
    reads it: absent, an array of strings, or a value [Array.isArray]
    rejects ([null] included: the default of the pattern stands in for
    [undefined] only). *)
Inductive RecommendationsField : Type :=
| Absent
| Strings (items : list string)
| NotArray.

(** What the routes read off a JSON value that is not [null]: the members
    they destructure, [None] for one the value does not carry (a primitive
    or an array carries none of them).  [name], [provider], [message],
    [emotionalTone] and [intensity], which the routes test themselves, are
    any JSON value.  [summary] and the members of [recommendations] are
    bound to the SQL statement as they come, and what the storage makes of a
    binding that is not a string is not in the sources: they are strings
    here, and [summary] is [None] also when it is [null], [false] or [0],
    which the guard treats like a missing one. *)
Record Fields : Type := mkFields {
  name : option Json;
  provider : option Json;
  message : option Json;
  emotionalTone : option Json;
  intensity : option Json;
  summary : option string;
  recommendations : RecommendationsField
}.

Definition noFields : Fields := mkFields None None None None None None Absent.

(** The body of a request as [request.json()] finds it: no JSON text
    (the promise rejects with a SyntaxError of message [error]), the text
    [null], or another value. *)
Inductive Body : Type :=
| NotJson (error : string)
| Null
| Members (fields : Fields).

Definition emptyBody : Body := Members noFields.

(** A body the routes can read: it is JSON and not [null]. *)
Definition readable (body : Body) : bool :=
  match body with
  | Members _ => true
  | _ => false
  end.

(** The members of a body that can be read. *)
Definition fieldsOf (body : Body) : Fields :=
  match body with
  | Members fields => fields
  | _ => noFields
  end.

(** [!!value] *)
Definition truthy (value : Json) : bool :=
  match value with
  | JNull => false
  | JBool b => b
  | JNumber n => negb (Qeq_bool n 0)
  | JString s => JsString.truthy s
  | JArray _ | JObject _ => true
  end.

(** A member when it is there and truthy. *)
Definition holding (member : option Json) : option Json :=
  match member with
  | Some value => if truthy value then Some value else None
  | None => None
  end.

(** A member when [typeof] it is ["string"]. *)
Definition asString (member : option Json) : option string :=
  match member with
  | Some (JString s) => Some s
  | _ => None
  end.

Definition asNumber (member : option Json) : option Q :=
  match member with
  | Some (JNumber n) => Some n
  | _ => None
  end.

Record Request : Type := mkRequest {
  pathname : string;
  method : Method;
  body : Body
}.

(** What a response carries. *)
Inductive Payload : Type :=
| Success                                   (* { success: true } *)
| NameUpdated (name : string)               (* { success: true, name } *)
| ProviderUpdated (provider : string)       (* { success: true, provider } *)
| Triggered (message : string)              (* { success: true, message } *)
| Analysis (tone : string) (intensity : Q) (keywords : list string)
| RecommendationsOf (answer : Endpoint.Body)
| MessageList (messages : list Message.t)
| Error (error : string)                    (* { error } *)
| NotFound.                                 (* the text "Not found" *)

Record Response : Type := mkResponse {
  status : Z;
  payload : Payload
}.

(** [s.endsWith(suffix)] *)
Fixpoint endsWith (s suffix : string) : bool :=
  String.eqb s suffix
  || match s with
     | EmptyString => false
     | String _ s' => endsWith s' suffix
     end.

(** [pathname === route || pathname.endsWith(route)] *)
Definition onRoute (pathname route : string) : bool :=
  String.eqb pathname route || endsWith pathname route.

Definition isPOST (m : Method) : bool :=
  match m with POST => true | _ => false end.

Definition isGET (m : Method) : bool :=
  match m with GET => true | _ => false end.

(** The keyword heuristic of [/internal/analyze-tone]. *)
Definition positiveWords : list string := ["good"; "great"; "happy"; "excited"].

Definition negativeWords : list string := ["bad"; "sad"; "angry"; "worried"; "anxious"].

Definition analyze (message : string) : string * Q :=
  let lowerMessage := toLowerCase message in
  if existsb (includes lowerMessage) positiveWords then ("positive", 7%Q)
  else if existsb (includes lowerMessage) negativeWords then ("negative", 7%Q)
  else ("neutral", 5%Q).

Section Routes.
Local Open Scope eff_scope.

Variable host : Host.
Variable workflow : option (Eff Agent unit).

Definition json (status : Z) (payload : Payload) : Eff Agent Response :=
  ret (mkResponse status payload).

(** [const body = await request.json(); const { first, ... } = body]: the
    promise rejects when the body is not JSON, and [null] cannot be
    destructured; the TypeError names the first member of the pattern, in
    the wording of the engine. *)
Definition destructure (first : string) (body : Body) : Eff Agent Fields :=
  match body with
  | NotJson error => throw error
  | Null =>
      throw ("Cannot destructure property '" +:+ first +:+ "' of 'body' as it is null.")
  | Members fields => ret fields
  end.

(** [value.toLowerCase()] on a value that is not a string: the TypeError,
    in the wording of the engine. *)
Definition noToLowerCase (variable : string) (value : Json) : string :=
  match value with
  | JNull => "Cannot read properties of null (reading 'toLowerCase')"
  | _ => variable +:+ ".toLowerCase is not a function"
  end.

(** [!name || typeof name !== "string"] answers 400. *)
Definition updateNameRoute (body : Body) : Eff Agent Response :=
  tryCatch
    (initializeDatabase ;;;
     let* fields := destructure "name" body in
     match present (asString (name fields)) with
     | None => json 400 (Error "Invalid name provided")
     | Some name =>
         updateAgentName host name ;;;
         json 200 (NameUpdated name)
     end)
    (fun error => json 500 (Error error)).

(** [!provider || (provider !== "openai" && provider !== "workers-ai")]
    answers 400; [!==] holds of every value that is not a string. *)
Definition updateModelProviderRoute (body : Body) : Eff Agent Response :=
  tryCatch
    (initializeDatabase ;;;
     let* fields := destructure "provider" body in
     match present (asString (provider fields)) with
     | None => json 400 (Error "Invalid provider. Must be 'openai' or 'workers-ai'")
     | Some provider =>
         if negb (isProvider provider)
         then json 400 (Error "Invalid provider. Must be 'openai' or 'workers-ai'")
         else
           updateModelProvider host provider ;;;
           json 200 (ProviderUpdated provider)
     end)
    (fun error => json 500 (Error error)).

(** The routes [/internal/send-check-in-message] and
    [/internal/send-message] have the same body. *)
Definition sendMessageRoute (body : Body) : Eff Agent Response :=
  tryCatch
    (let* fields := destructure "message" body in
     match holding (message fields) with
     | None => json 400 (Error "Message is required")
     | Some message =>
         let* ag := inspect in
         saveMessages
           (messages ag ++ [Message.make (generateId host) "assistant" message (stamp host)]) ;;;
         json 200 Success
     end)
    (fun error => json 500 (Error error)).

Definition analyzeToneRoute (body : Body) : Eff Agent Response :=
  tryCatch
    (let* fields := destructure "message" body in
     match holding (message fields) with
     | None => json 400 (Error "Message is required")
     | Some (JString message) =>
         let '(tone, intensity) := analyze message in
         json 200 (Analysis tone intensity [])
     | Some other => throw (noToLowerCase "message" other)
     end)
    (fun error => json 500 (Error error)).

(** The default of [const { emotionalTone = "neutral" } = body] stands in
    for a missing member only; on a string the route goes on as
    [Endpoint.getRecommendations] has it, on another value [toLowerCase]
    throws.  [intensity] is not read. *)
Definition getRecommendationsRoute (body : Body) : Eff Agent Response :=
  tryCatch
    (let* fields := destructure "emotionalTone" body in
     let answerFor emotionalTone :=
       let* answer :=
         Endpoint.getRecommendations emotionalTone (asNumber (intensity fields)) in
       json (Endpoint.status answer) (RecommendationsOf (Endpoint.body answer)) in
     match emotionalTone fields with
     | None => answerFor None
     | Some (JString emotionalTone) => answerFor (Some emotionalTone)
     | Some other => throw (noToLowerCase "emotionalTone" other)
     end)
    (fun error => json 500 (Error error)).

(** [this.saveCheckIn(emotionalTone, summary, recommendations)] on the
    values of a body, which the route casts and does not check: past its
    first guard [saveCheckIn] throws on recommendations that are not an
    array, then on a tone that has no [toLowerCase], both before its first
    statement. *)
Definition saveCheckInOf (emotionalTone : Json) (summary : string)
    (recommendations : RecommendationsField) : Eff Agent unit :=
  let checked (recommendations : list string) : Eff Agent unit :=
    match emotionalTone with
    | JString emotionalTone => saveCheckIn host emotionalTone summary recommendations
    | other => throw (noToLowerCase "emotionalTone" other)
    end in
  match recommendations with
  | Absent => checked []
  | Strings items => checked items
  | NotArray => throw "Recommendations must be an array"
  end.

Definition saveCheckInRoute (body : Body) : Eff Agent Response :=
  tryCatch
    (initializeDatabase ;;;
     let* fields := destructure "emotionalTone" body in
     match holding (emotionalTone fields), present (summary fields) with
     | Some emotionalTone, Some summary =>
         saveCheckInOf emotionalTone summary (recommendations fields) ;;;
         json 200 Success
     | _, _ => json 400 (Error "Emotional tone and summary are required")
     end)
    (fun error => json 500 (Error error)).

Definition getMessagesRoute : Eff Agent Response :=
  tryCatch
    (let* ag := inspect in
     json 200 (MessageList (messages ag)))
    (fun error => json 500 (Error error)).

Definition testCheckInRoute : Eff Agent Response :=
  tryCatch
    (executeDailyCheckIn host workflow "Manual test check-in" ;;;
     json 200 (Triggered "Check-in triggered manually"))
    (fun error => json 500 (Error error)).

(** [MindGuard.onRequest] *)
Definition onRequest (request : Request) : Eff Agent Response :=
  let pathname := pathname request in
  let post := isPOST (method request) in
  if onRoute pathname "/internal/update-name" && post
  then updateNameRoute (body request)
  else if onRoute pathname "/internal/update-model-provider" && post
  then updateModelProviderRoute (body request)
  else if onRoute pathname "/internal/send-check-in-message" && post
  then sendMessageRoute (body request)
  else if onRoute pathname "/internal/analyze-tone" && post
  then analyzeToneRoute (body request)
  else if onRoute pathname "/internal/get-recommendations" && post
  then getRecommendationsRoute (body request)
  else if onRoute pathname "/internal/save-check-in" && post
  then saveCheckInRoute (body request)
  else if onRoute pathname "/internal/send-message" && post
  then sendMessageRoute (body request)
  else if onRoute pathname "/get-messages" && isGET (method request)
  then getMessagesRoute
  else if onRoute pathname "/test-check-in" && post
  then testCheckInRoute
  else json 404 NotFound.

End Routes.

End Http.

(** ** The tools the chat model may call *)

Module Tools.
Section Tools.
Local Open Scope eff_scope.

(** [saveCheckInData.execute]; [answered] is the instant read for the
    text of the answer. *)
Definition saveCheckInData (host : Host) (answered : string)
    (emotionalTone summary : string) (recommendations : list string) : Eff Agent string :=
  tryCatch
    (saveCheckIn host emotionalTone summary recommendations ;;;
     ret ("Check-in saved successfully for " +:+ isoDate answered))
    (fun error => ret ("Error saving check-in: " +:+ error)).



(** The [when] of [scheduleSchema]. *)
Inductive ScheduleInput : Type :=
| NoSchedule
| Planned (when : When).

(** The answer of [scheduleTask.execute], by the text it is built from. *)
Inductive ScheduleAnswer : Type :=
| NotValid                         (* "Not a valid schedule input" *)
| TaskScheduled (when : When)      (* `Task scheduled for type ...` *)
| SchedulingError (error : string). (* `Error scheduling task: ...` *)

(** [scheduleTask.execute].  The promise of [agent.schedule] is not
    awaited: its rejection does not reach the [catch], and the answer is the
    same whether the job was created or not. *)
Definition scheduleTask (host : Host) (when : ScheduleInput) (description : string) :
    Eff Agent ScheduleAnswer :=
  match when with
  | NoSchedule => ret NotValid
  | Planned input =>
      tryCatch
        (unawaited (schedule host input "executeTask" description) ;;;
         ret (TaskScheduled input))
        (fun error => ret (SchedulingError error))
  end.

End Tools.
End Tools.

(** ** The agent as the world of the workflow *)

Module AgentWorld.

Definition endpointName (route : Workflow.Route) : string :=
  match route with
  | Workflow.SendCheckInMessage => "send-check-in-message"
  | Workflow.AnalyzeTone => "analyze-tone"
  | Workflow.GetRecommendations => "get-recommendations"
  | Workflow.SaveCheckIn => "save-check-in"
  | Workflow.SendMessage => "send-message"
  end.

(** The path of [`${workerUrl}/agents/mindguard/${agentId}/internal/...`]. *)
Definition pathnameOf (request : Workflow.Request) : string :=
  "/agents/mindguard/" +:+ Workflow.agentId request +:+ "/internal/"
  +:+ endpointName (Workflow.route request).

Definition bodyOf (payload : Workflow.Payload) : Http.Body :=
  match payload with
  | Workflow.MessagePayload message =>
      Http.Members (Http.mkFields None None (Some (JString message)) None None None Http.Absent)
  | Workflow.TonePayload emotionalTone intensity =>
      Http.Members
        (Http.mkFields None None None (JString <$> emotionalTone) (Some (JNumber intensity))
           None Http.Absent)
  | Workflow.CheckInPayload emotionalTone summary recommendations =>
      Http.Members
        (Http.mkFields None None None (JString <$> emotionalTone) None (Some summary)
           (Http.Strings recommendations))
  end.

(** What the workflow reads from the JSON of an answer.  An answer whose
    [recommendations] is not an array has no image among the bodies of the
    workflow model and reads as one without the field; the agent gives such
    an answer for the tone keys [constructor] (where the field is indeed
    missing) and [__proto__] only. *)
Definition jsonOf (payload : Http.Payload) : Workflow.Json :=
  match payload with
  | Http.Analysis tone intensity _ => Workflow.mkJson (Some tone) (Some intensity) None
  | Http.RecommendationsOf (Endpoint.RecommendationsBody (Endpoint.Items items)) =>
      Workflow.mkJson None None (Some items)
  | _ => Workflow.mkJson None None None
  end.

(** [fetch(endpoint, { method: "POST", body })] answered by the agent;
    [hosts] gives each request the ids and instants of its own
    handling, [reasonPhrase] the status text that goes with a status. *)
Definition fetch (hosts : Workflow.Route -> Host) (workflow : option (Eff Agent unit))
    (reasonPhrase : Z -> string) (request : Workflow.Request) : Eff Agent Workflow.Response :=
  bind (Http.onRequest (hosts (Workflow.route request)) workflow
          (Http.mkRequest (pathnameOf request) Http.POST (bodyOf (Workflow.payload request))))
    (fun response =>
       ret (Workflow.mkResponse
              ((200 <=? Http.status response)%Z && (Http.status response <=? 299)%Z)
              (reasonPhrase (Http.status response))
              (jsonOf (Http.payload response)))).

End AgentWorld.

(** ** The model of the chat *)

(** The two models [getModel] chooses between:
    [openai("gpt-4o-2024-11-20")] and
    [workersAI("@cf/meta/llama-3.3-70b-instruct-fp8-fast")]. *)
Inductive Model : Type := Gpt4o | Llama33.

(** [MindGuard.getModel].  [binding] is [this.env.AI]: [None] when the
    binding is missing, else how [createWorkersAI] and the construction of
    the model complete for it. *)
Definition getModel (binding : option (completion unit)) (ag : Agent) : Model :=
  let modelProvider :=
    orDefault ((state ag ≫= MindGuardState.preferences) ≫= Preferences.modelProvider)
      "openai" in
  if bool_decide (modelProvider = "workers-ai")
  then match binding with
       | None => Gpt4o
       | Some (Normal _) => Llama33
       | Some (Thrown _) => Gpt4o
       end
  else Gpt4o.

(** * Notions of the further properties *)

(** The row a save inserts. *)
Definition insertedRow (host : Host) (tone summary : string) (recs : list string)
    (ag : Agent) : CheckInRow.t :=
  CheckInRow.make (generateId host) (currentUser ag) (isoDate (today host))
    (storedTone tone) summary recs (stamp host).

(** The ledger is well formed when ids are unique, as the primary key
    demands, and no user has two rows for one day. *)
Definition ledgerOk (ag : Agent) : Prop :=
  NoDup (CheckInRow.id <$> check_ins ag)
  /\ forall userId date,
       (length (List.filter (sameDay userId date) (check_ins ag)) <= 1)%nat.



(** The provider held by the state slot. *)
Definition stateModelProvider (ag : Agent) : option string :=
  (state ag ≫= MindGuardState.preferences) ≫= Preferences.modelProvider.

(** The provider [getModelProvider] answers with: the value in the state
    when there is one, else the value of the persisted row when the storage
    answers and the value is one of the two providers, else ["openai"]. *)
Definition modelProviderByFallback (ag : Agent) : string :=
  match present (stateModelProvider ag) with
  | Some inState => inState
  | None =>
      match db_fault ag with
      | Some _ => "openai"
      | None =>
          match List.filter (ownedBy (currentUser ag)) (user_preferences ag) with
          | row :: _ =>
              match present (PrefRow.model_provider row) with
              | Some provider => if isProvider provider then provider else "openai"
              | None => "openai"
              end
          | [] => "openai"
          end
      end
  end.

(** The row of a user in table [user_preferences]. *)
Definition preferenceRow (userId : string) (ag : Agent) : option PrefRow.t :=
  head (List.filter (ownedBy userId) (user_preferences ag)).

(** An agent in use, for the closed instances: two users, three check-ins
    and a persisted name and provider. *)
Definition seasoned : Agent :=
  mkAgent (Some (MindGuardState.make (Some "ada") None None None))
    [CheckInRow.make "r1" "ada" "2026-11-02" "neutral" "quiet day" []
       "2026-11-02T09:00:00.101Z";
     CheckInRow.make "r2" "bob" "2026-11-03" "negative" "tired" ["rest"]
       "2026-11-03T08:00:00.000Z";
     CheckInRow.make "r3" "ada" "2026-11-03" "negative" "rough morning" ["rest"]
       "2026-11-03T07:10:00.000Z"]
    [PrefRow.make "ada" None None (Some "Aria") (Some "workers-ai")
       (Some "2026-11-01T10:00:00.000Z")]
    None [] [].

(** The agent after one more chat message. *)
Definition withMessage (ag : Agent) (message : Message.t) : Agent :=
  mkAgent (state ag) (check_ins ag) (user_preferences ag) (db_fault ag) (schedules ag)
    (messages ag ++ [message]).

(** A handler is atomic when it always answers, with one of the four
    statuses of the agent, keeps the schedules and the condition of the
    storage, and changes the agent only when it answers 200. *)
Definition atomic (handler : Eff Agent Http.Response) : Prop :=
  forall ag, exists ag' response,
    handler ag = (ag', Normal response)
    /\ Http.status response ∈ [200; 400; 404; 500]%Z
    /\ (Http.status response <> 200%Z -> ag' = ag)
    /\ schedules ag' = schedules ag
    /\ db_fault ag' = db_fault ag.

(** The paths [onRequest] tests for, in the order of its tests. *)
Definition routePaths : list string :=
  [ "/internal/update-name"; "/internal/update-model-provider";
    "/internal/send-check-in-message"; "/internal/analyze-tone";
    "/internal/get-recommendations"; "/internal/save-check-in";
    "/internal/send-message"; "/get-messages"; "/test-check-in" ].

(** The endpoints of a cycle that runs to its end, in order. *)
Definition happyPath : list Workflow.Route :=
  [ Workflow.SendCheckInMessage; Workflow.AnalyzeTone; Workflow.GetRecommendations;
    Workflow.SaveCheckIn; Workflow.SendMessage ].

(** The endpoints of the requests of a cycle whose steps took [counts]
    attempts: the first steps of a full cycle, each as often as it was
    attempted. *)
Definition attempted (counts : list nat) : list Workflow.Route :=
  concat (zip_with replicate counts happyPath).

(** The callback of each of the five steps of a full cycle: post the
    request, throw when the answer is not OK, else return what is read off
    it. *)
Definition checked {World A} (fetch : Workflow.Request -> Eff World Workflow.Response)
    (request : Workflow.Request) (failure : Workflow.Response -> string)
    (result : Workflow.Response -> A) : Eff (@Workflow.Cycle World) A :=
  bind (Workflow.post fetch request)
    (fun response =>
       if negb (Workflow.ok response) then throw (failure response)
       else ret (result response)).

(** The requests of a cycle in progress: they go to the agent of the
    input, and the reminder is not among them. *)
Definition sound (input : Workflow.CheckInWorkflowInput) (requests : list Workflow.Request) :
    Prop :=
  Forall (fun request =>
            Workflow.workerUrl request = Workflow.workerUrlOf input
            /\ Workflow.agentId request = Workflow.inputAgentId input)
    requests
  /\ Workflow.reminderRequest input ∉ requests.

(** An answer a step throws on: a status that is not OK, or a rejection. *)
Definition failing (answer : completion Workflow.Response) : Prop :=
  match answer with
  | Normal response => Workflow.ok response = false
  | Thrown _ => True
  end.

(** The reply reaches the workflow before the deadline. *)
Definition inTime (arrival : Workflow.Arrival) : Prop :=
  exists after text, arrival = Some (after, text) /\ (after < Workflow.deadline)%Z.

(** Sample hosts of the five handlers of a cycle, and the usual reason
    phrases, for the closed instances. *)
Definition cycleHosts (route : Workflow.Route) : Host :=
  match route with
  | Workflow.SendCheckInMessage => mkHost "m1" "2026-11-03T09:00:00.000Z" "2026-11-03T09:00:00.120Z"
      plainCron
  | Workflow.AnalyzeTone => mkHost "m2" "2026-11-03T09:40:00.000Z" "2026-11-03T09:40:00.005Z"
      plainCron
  | Workflow.GetRecommendations => mkHost "m3" "2026-11-03T09:40:01.000Z" "2026-11-03T09:40:01.002Z"
      plainCron
  | Workflow.SaveCheckIn => mkHost "m4" "2026-11-03T09:40:02.000Z" "2026-11-03T09:40:02.310Z"
      plainCron
  | Workflow.SendMessage => mkHost "m5" "2026-11-03T09:40:03.000Z" "2026-11-03T09:40:03.044Z"
      plainCron
  end.

Definition reasonPhraseOf (status : Z) : string :=
  if (status =? 200)%Z then "OK"
  else if (status =? 400)%Z then "Bad Request"
  else if (status =? 404)%Z then "Not Found"
  else "Internal Server Error".

(** The calls an agent receives: its start, its methods, the
    [scheduleTask] tool and HTTP requests.  A call that throws leaves the
    agent as it was when the error was thrown. *)
Inductive Call : Type :=
| Start (host : Host)
| ScheduleDailyCheckIn (host : Host)
| ScheduleTask (host : Host) (when : Tools.ScheduleInput) (description : string)
| ExecuteDailyCheckIn (host : Host) (description : string)
| ExecuteTask (host : Host) (description : string)
| SaveCheckIn (host : Host) (emotionalTone summary : string) (recommendations : list string)
| UpdateAgentName (host : Host) (newName : string)
| UpdateModelProvider (host : Host) (provider : string)
| Request (host : Host) (request : Http.Request).

Definition after (workflow : option (Eff Agent unit)) (call : Call) (ag : Agent) : Agent :=
  match call with
  | Start host => fst (onStart host ag)
  | ScheduleDailyCheckIn host => fst (scheduleDailyCheckIn host ag)
  | ScheduleTask host when description => fst (Tools.scheduleTask host when description ag)
  | ExecuteDailyCheckIn host description =>
      fst (executeDailyCheckIn host workflow description ag)
  | ExecuteTask host description => fst (executeTask host description ag)
  | SaveCheckIn host emotionalTone summary recommendations =>
      fst (saveCheckIn host emotionalTone summary recommendations ag)
  | UpdateAgentName host newName => fst (updateAgentName host newName ag)
  | UpdateModelProvider host provider => fst (updateModelProvider host provider ag)
  | Request host request => fst (Http.onRequest host workflow request ag)
  end.





(** A number below 100 in two decimal digits. *)
Definition twoDigits (n : nat) : string :=
  if (n <? 10)%nat then "0" +:+ pretty n else pretty n.

(** The two spellings of an hour: plain, and in two digits. *)
Definition hourSpellings (h : nat) : list string := [pretty h; twoDigits h].

(** * Properties *)

(** ** The monad *)

Section EffLemmas.
Context {S A B : Type}.

Lemma bind_Normal (m : Eff S A) (k : A -> Eff S B) s s' a :
  m s = (s', Normal a) -> bind m k s = k a s'.
Proof. unfold bind. by intros ->. Qed.

Lemma bind_Thrown (m : Eff S A) (k : A -> Eff S B) s s' e :
  m s = (s', Thrown e) -> bind m k s = (s', Thrown e).
Proof. unfold bind. by intros ->. Qed.

Lemma tryCatch_rethrow (m : Eff S A) s :
  tryCatch m (fun error => throw error) s = m s.
Proof. unfold tryCatch, throw. by destruct (m s) as [s' [a|e]]. Qed.

Lemma tryCatch_Normal (m : Eff S A) h s s' a :
  m s = (s', Normal a) -> tryCatch m h s = (s', Normal a).
Proof. unfold tryCatch. by intros ->. Qed.

Lemma tryCatch_Thrown (m : Eff S A) h s s' e :
  m s = (s', Thrown e) -> tryCatch m h s = h e s'.
Proof. unfold tryCatch. by intros ->. Qed.
End EffLemmas.

(** [x ∉ [a; b; ...]] for a list of literals, each different from [x]. *)
Ltac not_listed :=
  let H := fresh "H" in
  cbn; intros H;
  repeat (apply elem_of_cons in H as [H|H]; [discriminate H|]);
  by apply elem_of_nil in H.

Lemma truthy_true s : s ≠ "" -> truthy s = true.
Proof. by destruct s. Qed.

Lemma truthy_false s : truthy s = false -> s = "".
Proof. by destruct s. Qed.

(** ** SQL primitives *)

Lemma sqlReady_ok ag : db_fault ag = None -> sqlReady ag = (ag, Normal tt).
Proof. unfold sqlReady. by intros ->. Qed.

Lemma sqlReady_fault ag e : db_fault ag = Some e -> sqlReady ag = (ag, Thrown e).
Proof. unfold sqlReady. by intros ->. Qed.

Lemma selectCheckInId_ok userId date ag :
  db_fault ag = None ->
  selectCheckInId userId date ag =
    (ag, Normal (take 1 (CheckInRow.id <$> List.filter (sameDay userId date) (check_ins ag)))).
Proof. intros H. unfold selectCheckInId. by rewrite (bind_Normal _ _ _ _ _ (sqlReady_ok _ H)). Qed.

Lemma updateCheckIn_ok rowId tone summary recs createdAt ag :
  db_fault ag = None ->
  updateCheckIn rowId tone summary recs createdAt ag =
    (mkAgent (state ag) (rewriteRow rowId tone summary recs createdAt <$> check_ins ag)
       (user_preferences ag) (db_fault ag) (schedules ag) (messages ag), Normal tt).
Proof. intros H. unfold updateCheckIn. by rewrite (bind_Normal _ _ _ _ _ (sqlReady_ok _ H)). Qed.

Lemma insertCheckIn_ok row ag :
  db_fault ag = None -> CheckInRow.id row ∉ CheckInRow.id <$> check_ins ag ->
  insertCheckIn row ag =
    (mkAgent (state ag) (check_ins ag ++ [row])
       (user_preferences ag) (db_fault ag) (schedules ag) (messages ag), Normal tt).
Proof.
  intros H Hid. unfold insertCheckIn. rewrite (bind_Normal _ _ _ _ _ (sqlReady_ok _ H)).
  unfold bind, inspect. by rewrite bool_decide_eq_false_2.
Qed.

Lemma insertCheckIn_taken row ag :
  db_fault ag = None -> CheckInRow.id row ∈ CheckInRow.id <$> check_ins ag ->
  insertCheckIn row ag = (ag, Thrown "UNIQUE constraint failed: check_ins.id").
Proof.
  intros H Hid. unfold insertCheckIn. rewrite (bind_Normal _ _ _ _ _ (sqlReady_ok _ H)).
  unfold bind, inspect. by rewrite bool_decide_eq_true_2.
Qed.

(** ** Check-in ledger *)

Lemma toLowerCase_storedTone tone :
  toLowerCase (if negb (bool_decide (toLowerCase tone ∈ validTones)) then "neutral" else tone)
  = storedTone tone.
Proof. unfold storedTone. by destruct (bool_decide _). Qed.

(** A save on a day that already has a row rewrites that row. *)
Lemma saveCheckIn_update host tone summary recs ag r rest :
  tone ≠ "" -> summary ≠ "" -> db_fault ag = None ->
  List.filter (sameDay (currentUser ag) (isoDate (today host))) (check_ins ag) = r :: rest ->
  saveCheckIn host tone summary recs ag =
    (mkAgent (Some (stateAfterSave host tone summary recs ag))
       (rewriteRow (CheckInRow.id r) (storedTone tone) summary recs (stamp host) <$> check_ins ag)
       (user_preferences ag) (db_fault ag) (schedules ag) (messages ag), Normal tt).
Proof.
  intros Ht Hs Hdb Hf.
  unfold saveCheckIn. rewrite tryCatch_rethrow.
  rewrite (truthy_true _ Ht), (truthy_true _ Hs). cbn [negb orb].
  rewrite toLowerCase_storedTone.
  erewrite bind_Normal by reflexivity.
  erewrite bind_Normal by (by apply selectCheckInId_ok).
  fold (currentUser ag). rewrite Hf. cbn [fmap list_fmap take].
  erewrite bind_Normal by (by apply updateCheckIn_ok).
  erewrite bind_Normal by reflexivity.
  reflexivity.
Qed.

(** A save on a day without a row appends one, under a fresh id. *)
Lemma saveCheckIn_insert host tone summary recs ag :
  tone ≠ "" -> summary ≠ "" -> db_fault ag = None ->
  List.filter (sameDay (currentUser ag) (isoDate (today host))) (check_ins ag) = [] ->
  generateId host ∉ CheckInRow.id <$> check_ins ag ->
  saveCheckIn host tone summary recs ag =
    (mkAgent (Some (stateAfterSave host tone summary recs ag))
       (check_ins ag ++ [CheckInRow.make (generateId host) (currentUser ag) (isoDate (today host))
                           (storedTone tone) summary recs (stamp host)])
       (user_preferences ag) (db_fault ag) (schedules ag) (messages ag), Normal tt).
Proof.
  intros Ht Hs Hdb Hf Hid.
  unfold saveCheckIn. rewrite tryCatch_rethrow.
  rewrite (truthy_true _ Ht), (truthy_true _ Hs). cbn [negb orb].
  rewrite toLowerCase_storedTone.
  erewrite bind_Normal by reflexivity.
  erewrite bind_Normal by (by apply selectCheckInId_ok).
  fold (currentUser ag). rewrite Hf. cbn [fmap list_fmap take].
  erewrite bind_Normal by (by apply insertCheckIn_ok).
  erewrite bind_Normal by reflexivity.
  reflexivity.
Qed.

Lemma orDefault_currentUser ag : orDefault (Some (currentUser ag)) "default" = currentUser ag.
Proof.
  unfold currentUser.
  destruct (state ag ≫= MindGuardState.userId) as [[|c u]|]; reflexivity.
Qed.

Lemma sameDay_rewriteRow userId date rowId tone summary recs createdAt r :
  sameDay userId date (rewriteRow rowId tone summary recs createdAt r) = sameDay userId date r.
Proof. unfold rewriteRow. by destruct (bool_decide _). Qed.

Lemma filter_rewriteRow userId date rowId tone summary recs createdAt rows :
  List.filter (sameDay userId date) (rewriteRow rowId tone summary recs createdAt <$> rows)
  = rewriteRow rowId tone summary recs createdAt <$> List.filter (sameDay userId date) rows.
Proof.
  induction rows as [|r rows IH]; [done|].
  cbn [fmap list_fmap List.filter]. rewrite sameDay_rewriteRow.
  destruct (sameDay userId date r); cbn [fmap list_fmap]; by rewrite <- IH.
Qed.

Lemma rewriteRow_self r tone summary recs createdAt :
  rewriteRow (CheckInRow.id r) tone summary recs createdAt r
  = CheckInRow.make (CheckInRow.id r) (CheckInRow.user_id r) (CheckInRow.date r)
      tone summary recs createdAt.
Proof. unfold rewriteRow. by rewrite bool_decide_eq_true_2. Qed.

Lemma recordEntry_find entry entries :
  exists i, list_find (fun ci => CheckInEntry.date ci = CheckInEntry.date entry)
              (recordEntry entry entries) = Some (i, entry).
Proof.
  unfold recordEntry.
  destruct (list_find _ entries) as [[i x]|] eqn:Hfind.
  - exists i. apply list_find_Some in Hfind as (Hi & _ & Hbefore).
    apply list_find_Some. split_and!.
    + apply list_lookup_insert_eq. by eapply lookup_lt_Some.
    + done.
    + intros j y Hj Hlt. rewrite list_lookup_insert_ne in Hj by lia. eauto.
  - exists (0 + length entries)%nat.
    rewrite list_find_app_r by done. cbn. by rewrite decide_True.
Qed.

(** At most one row a day is an invariant of the ledger. *)
Lemma saveCheckIn_keeps_one_row_a_day host tone summary recs ag ag' outcome :
  (forall userId date,
     (length (List.filter (sameDay userId date) (check_ins ag)) <= 1)%nat) ->
  saveCheckIn host tone summary recs ag = (ag', outcome) ->
  forall userId date,
    (length (List.filter (sameDay userId date) (check_ins ag')) <= 1)%nat.
Proof.
  intros Hinv Hrun userId date.
  unfold saveCheckIn in Hrun. rewrite tryCatch_rethrow in Hrun.
  destruct (negb (truthy tone) || negb (truthy summary)).
  { inversion Hrun; subst. apply Hinv. }
  rewrite toLowerCase_storedTone in Hrun.
  erewrite bind_Normal in Hrun by reflexivity.
  destruct (db_fault ag) as [e|] eqn:Hdb.
  { unfold selectCheckInId in Hrun.
    erewrite bind_Thrown in Hrun by (erewrite bind_Thrown; [reflexivity|by apply sqlReady_fault]).
    inversion Hrun; subst. apply Hinv. }
  erewrite bind_Normal in Hrun by (by apply selectCheckInId_ok).
  fold (currentUser ag) in Hrun.
  destruct (List.filter (sameDay (currentUser ag) (isoDate (today host))) (check_ins ag))
    as [|r rest] eqn:Hf; cbn [fmap list_fmap take] in Hrun.
  - destruct (decide (generateId host ∈ CheckInRow.id <$> check_ins ag)) as [Hin|Hout].
    + erewrite bind_Thrown in Hrun by (by apply insertCheckIn_taken).
      inversion Hrun; subst. apply Hinv.
    + erewrite bind_Normal in Hrun by (by apply insertCheckIn_ok).
      erewrite bind_Normal in Hrun by reflexivity.
      inversion Hrun; subst. cbn [check_ins].
      rewrite List.filter_app, length_app. cbn [List.filter].
      destruct (sameDay userId date _) eqn:Hsame; cbn [length]; [|specialize (Hinv userId date); lia].
      unfold sameDay in Hsame. cbn in Hsame.
      apply andb_prop in Hsame as [Hu Hd].
      apply bool_decide_eq_true_1 in Hu. apply bool_decide_eq_true_1 in Hd. subst.
      rewrite Hf. cbn. lia.
  - erewrite bind_Normal in Hrun by (by apply updateCheckIn_ok).
    erewrite bind_Normal in Hrun by reflexivity.
    inversion Hrun; subst. cbn [check_ins].
    rewrite filter_rewriteRow, length_fmap. apply Hinv.
Qed.

(** C1. Two saves of the same user on the same calendar day leave exactly one
    row for that user and day. It carries the tone, the summary and the
    recommendations of the second call, and the second call rewrote the row
    of the first in place (same id, same number of rows) instead of
    inserting. *)
Theorem saveCheckIn_twice_single_record
    (host1 host2 : Host) (tone1 summary1 tone2 summary2 : string)
    (recs1 recs2 : list string) (ag : Agent) :
  isoDate (today host2) = isoDate (today host1) ->
  tone1 ≠ "" -> summary1 ≠ "" -> tone2 ≠ "" -> summary2 ≠ "" ->
  db_fault ag = None ->
  (length (List.filter (sameDay (currentUser ag) (isoDate (today host1))) (check_ins ag)) <= 1)%nat ->
  generateId host1 ∉ CheckInRow.id <$> check_ins ag ->
  exists ag1 ag2 row1 row2,
    saveCheckIn host1 tone1 summary1 recs1 ag = (ag1, Normal tt)
    /\ saveCheckIn host2 tone2 summary2 recs2 ag1 = (ag2, Normal tt)
    /\ List.filter (sameDay (currentUser ag) (isoDate (today host1))) (check_ins ag1) = [row1]
    /\ List.filter (sameDay (currentUser ag) (isoDate (today host1))) (check_ins ag2) = [row2]
    /\ CheckInRow.emotional_tone row2 = storedTone tone2
    /\ CheckInRow.summary row2 = summary2
    /\ CheckInRow.recommendations row2 = recs2
    /\ CheckInRow.id row2 = CheckInRow.id row1
    /\ length (check_ins ag2) = length (check_ins ag1).
Proof.
  intros Hday Ht1 Hs1 Ht2 Hs2 Hdb Hone Hfresh.
  set (user := currentUser ag) in *. set (day := isoDate (today host1)) in *.
  assert (exists ag1 row1,
    saveCheckIn host1 tone1 summary1 recs1 ag = (ag1, Normal tt)
    /\ List.filter (sameDay user day) (check_ins ag1) = [row1]
    /\ db_fault ag1 = None /\ currentUser ag1 = user) as (ag1 & row1 & Hrun1 & Hrow1 & Hdb1 & Huser1).
  { destruct (List.filter (sameDay user day) (check_ins ag)) as [|r rest] eqn:Hf.
    - eexists _, _. split; [by apply saveCheckIn_insert|].
      cbn [check_ins db_fault]. split_and!; [|done|apply orDefault_currentUser].
      rewrite List.filter_app, Hf. cbn [List.filter app]. fold user day.
      unfold sameDay. cbn. by rewrite !bool_decide_eq_true_2.
    - destruct rest; [|cbn in Hone; lia].
      eexists _, _. split; [by eapply saveCheckIn_update|].
      cbn [check_ins db_fault]. split_and!; [|done|apply orDefault_currentUser].
      fold user day. by rewrite filter_rewriteRow, Hf. }
  pose proof (saveCheckIn_update host2 tone2 summary2 recs2 ag1 row1 []) as Hrun2.
  rewrite Huser1, Hday in Hrun2. specialize (Hrun2 Ht2 Hs2 Hdb1 Hrow1).
  eexists ag1, _, row1, _. split; [exact Hrun1|]. split; [exact Hrun2|].
  split; [exact Hrow1|]. cbn [check_ins].
  rewrite filter_rewriteRow, Hrow1. cbn [fmap list_fmap]. rewrite rewriteRow_self.
  split_and!; try reflexivity.
  by rewrite length_fmap.
Qed.

Lemma saveCheckIn_twice_single_record_witness :
  exists ag1 ag2 row1 row2,
    saveCheckIn morning "bogus" "slept badly" ["breathe"] freshAgent = (ag1, Normal tt)
    /\ saveCheckIn evening "POSITIVE" "a good walk" ["journal"; "share"] ag1 = (ag2, Normal tt)
    /\ List.filter (sameDay "default" "2026-11-03") (check_ins ag1) = [row1]
    /\ List.filter (sameDay "default" "2026-11-03") (check_ins ag2) = [row2]
    /\ CheckInRow.emotional_tone row2 = "positive"
    /\ CheckInRow.summary row2 = "a good walk"
    /\ CheckInRow.recommendations row2 = ["journal"; "share"]
    /\ CheckInRow.id row2 = CheckInRow.id row1
    /\ length (check_ins ag2) = length (check_ins ag1).
Proof.
  apply (saveCheckIn_twice_single_record morning evening
           "bogus" "slept badly" "POSITIVE" "a good walk" ["breathe"] ["journal"; "share"]
           freshAgent).
  - reflexivity.
  - discriminate.
  - discriminate.
  - discriminate.
  - discriminate.
  - reflexivity.
  - cbn. lia.
  - cbn. apply not_elem_of_nil.
Defined.

(** C4 (as amended). For a non-empty tone, a save stores the lower-case
    input when that is one of positive, neutral, negative, and ["neutral"]
    for any other input, both in the row of the day and in the state entry of
    the day; an empty tone is not coerced: the call throws and leaves the
    agent as it was. *)
Theorem saveCheckIn_stored_tone
    (host : Host) (tone summary : string) (recs : list string) (ag : Agent) :
  summary ≠ "" ->
  db_fault ag = None ->
  generateId host ∉ CheckInRow.id <$> check_ins ag ->
  (tone ≠ "" ->
     exists ag' row st entries i entry,
       saveCheckIn host tone summary recs ag = (ag', Normal tt)
       /\ head (List.filter (sameDay (currentUser ag) (isoDate (today host))) (check_ins ag'))
          = Some row
       /\ CheckInRow.emotional_tone row = storedTone tone
       /\ state ag' = Some st
       /\ MindGuardState.dailyCheckIns st = Some entries
       /\ list_find (fun ci => CheckInEntry.date ci = isoDate (today host)) entries
          = Some (i, entry)
       /\ CheckInEntry.emotionalTone entry = storedTone tone)
  /\ (tone = "" ->
      saveCheckIn host tone summary recs ag
      = (ag, Thrown "Emotional tone and summary are required")).
Proof.
  intros Hs Hdb Hfresh. split.
  - intros Ht.
    set (entry := CheckInEntry.make (isoDate (today host)) (storedTone tone) summary recs).
    destruct (recordEntry_find entry (default [] (state ag ≫= MindGuardState.dailyCheckIns)))
      as [i Hi].
    destruct (List.filter (sameDay (currentUser ag) (isoDate (today host))) (check_ins ag))
      as [|r rest] eqn:Hf.
    + eexists _, _, _, _, i, entry.
      split; [by apply saveCheckIn_insert|]. cbn [check_ins state].
      rewrite List.filter_app, Hf. cbn [List.filter app]. unfold sameDay at 1. cbn.
      rewrite !bool_decide_eq_true_2 by done. cbn.
      split_and!; try reflexivity. exact Hi.
    + eexists _, _, _, _, i, entry.
      split; [by eapply saveCheckIn_update|]. cbn [check_ins state].
      rewrite filter_rewriteRow, Hf. cbn [fmap list_fmap head]. rewrite rewriteRow_self.
      split_and!; try reflexivity. exact Hi.
  - intros ->. reflexivity.
Qed.

Lemma saveCheckIn_stored_tone_witness :
  (exists ag' row st entries i entry,
     saveCheckIn morning "POSITIVE" "slept well" ["walk"] freshAgent = (ag', Normal tt)
     /\ head (List.filter (sameDay "default" "2026-11-03") (check_ins ag')) = Some row
     /\ CheckInRow.emotional_tone row = "positive"
     /\ state ag' = Some st
     /\ MindGuardState.dailyCheckIns st = Some entries
     /\ list_find (fun ci => CheckInEntry.date ci = "2026-11-03") entries = Some (i, entry)
     /\ CheckInEntry.emotionalTone entry = "positive")
  /\ (exists ag' row,
        saveCheckIn morning "bogus" "slept well" ["walk"] freshAgent = (ag', Normal tt)
        /\ head (List.filter (sameDay "default" "2026-11-03") (check_ins ag')) = Some row
        /\ CheckInRow.emotional_tone row = "neutral").
Proof.
  split.
  - apply (saveCheckIn_stored_tone morning "POSITIVE" "slept well" ["walk"] freshAgent).
    + discriminate.
    + reflexivity.
    + cbn. apply not_elem_of_nil.
    + discriminate.
  - destruct (saveCheckIn_stored_tone morning "bogus" "slept well" ["walk"] freshAgent)
      as [Hstored _].
    + discriminate.
    + reflexivity.
    + cbn. apply not_elem_of_nil.
    + destruct Hstored as (ag' & row & _ & _ & _ & _ & Hrun & Hrow & Htone & _).
      * discriminate.
      * exists ag', row. split; [exact Hrun|]. split; [exact Hrow|exact Htone].
Defined.

(** C4 (as stated) fails: an empty tone is not stored as ["neutral"]; the
    call throws and no row and no state entry is written. *)
Lemma saveCheckIn_empty_tone_not_stored :
  saveCheckIn morning "" "slept well" ["walk"] freshAgent
  = (freshAgent, Thrown "Emotional tone and summary are required")
  /\ ~ (exists ag' row,
          saveCheckIn morning "" "slept well" ["walk"] freshAgent = (ag', Normal tt)
          /\ row ∈ check_ins ag'
          /\ CheckInRow.emotional_tone row = "neutral").
Proof.
  split; [reflexivity|].
  intros (ag' & row & Hrun & _). vm_compute in Hrun. discriminate.
Qed.

(** ** Preference store *)

Lemma selectAgentName_ok userId ag :
  db_fault ag = None ->
  selectAgentName userId ag =
    (ag, Normal (take 1 (PrefRow.agent_name <$> List.filter (ownedBy userId) (user_preferences ag)))).
Proof. intros H. unfold selectAgentName. by rewrite (bind_Normal _ _ _ _ _ (sqlReady_ok _ H)). Qed.

Lemma selectAgentName_fault userId ag e :
  db_fault ag = Some e -> selectAgentName userId ag = (ag, Thrown e).
Proof. intros H. unfold selectAgentName. by rewrite (bind_Thrown _ _ _ _ _ (sqlReady_fault _ _ H)). Qed.

(** C8. [getAgentName] never throws and leaves the agent as it was; it
    returns the name held in the state when there is one, else the name of
    the persisted row when the storage answers and the row has one, else the
    default ["MindGuard"] - in particular when the query fails. *)
Theorem getAgentName_never_fails (ag : Agent) :
  getAgentName ag = (ag, Normal (agentNameByFallback ag)).
Proof.
  unfold getAgentName, agentNameByFallback.
  apply tryCatch_Normal.
  erewrite bind_Normal by reflexivity.
  destruct (present _) as [inState|]; [reflexivity|].
  fold (currentUser ag).
  destruct (db_fault ag) as [e|] eqn:Hdb.
  - erewrite bind_Normal
      by (erewrite tryCatch_Thrown
            by (by erewrite bind_Thrown by (by apply selectAgentName_fault));
          reflexivity).
    reflexivity.
  - erewrite bind_Normal
      by (apply tryCatch_Normal; by erewrite bind_Normal by (by apply selectAgentName_ok)).
    destruct (List.filter _ _) as [|row rest]; [reflexivity|].
    cbn [fmap list_fmap take head mjoin option_join].
    by destruct (present (PrefRow.agent_name row)).
Qed.

(** Instances of the three sources of the name, and of a failing query. *)
Example getAgentName_from_state :
  getAgentName
    (mkAgent (Some (MindGuardState.make None None None
                      (Some (Preferences.make None None (Some "Ada") None))))
       [] [PrefRow.make "default" None None (Some "Grace") None None] None [] [])
  = (mkAgent (Some (MindGuardState.make None None None
                      (Some (Preferences.make None None (Some "Ada") None))))
       [] [PrefRow.make "default" None None (Some "Grace") None None] None [] [],
     Normal "Ada").
Proof. reflexivity. Qed.

Example getAgentName_from_row :
  snd (getAgentName
         (mkAgent None [] [PrefRow.make "default" None None (Some "Grace") None None] None [] []))
  = Normal "Grace".
Proof. reflexivity. Qed.

Example getAgentName_storage_down :
  snd (getAgentName
         (mkAgent None [] [PrefRow.make "default" None None (Some "Grace") None None]
            (Some "no such column: agent_name") [] []))
  = Normal "MindGuard".
Proof. reflexivity. Qed.

Lemma length_zero_truthy s : (String.length s =? 0)%nat = negb (truthy s).
Proof. by destruct s. Qed.

Lemma trim_empty : trim "" = "".
Proof. reflexivity. Qed.

Lemma ownedBy_upsert userId name updatedAt r :
  ownedBy userId
    (if ownedBy userId r
     then PrefRow.make (PrefRow.user_id r) (PrefRow.check_in_time r) (PrefRow.timezone r)
            (Some name) (PrefRow.model_provider r) (Some updatedAt)
     else r)
  = ownedBy userId r.
Proof. by destruct (ownedBy userId r) eqn:H. Qed.

Lemma filter_ownedBy_fmap userId (f : PrefRow.t -> PrefRow.t) rows :
  (forall r, ownedBy userId (f r) = ownedBy userId r) ->
  List.filter (ownedBy userId) (f <$> rows) = f <$> List.filter (ownedBy userId) rows.
Proof.
  intros Hf. induction rows as [|r rows IH]; [done|].
  cbn [fmap list_fmap List.filter]. rewrite Hf.
  destruct (ownedBy userId r); cbn [fmap list_fmap]; by rewrite <- IH.
Qed.

Lemma existsb_filter {A} (p : A -> bool) (l : list A) :
  existsb p l = match List.filter p l with [] => false | _ :: _ => true end.
Proof.
  induction l as [|x l IH]; [done|]. cbn. destruct (p x); [done|]. by rewrite IH.
Qed.

Lemma upsertAgentName_ok userId name updatedAt ag :
  db_fault ag = None ->
  exists rows row,
    upsertAgentName userId name updatedAt ag =
      (mkAgent (state ag) (check_ins ag) rows (db_fault ag) (schedules ag) (messages ag),
       Normal tt)
    /\ head (List.filter (ownedBy userId) rows) = Some row
    /\ PrefRow.agent_name row = Some name.
Proof.
  intros Hdb. unfold upsertAgentName.
  rewrite (bind_Normal _ _ _ _ _ (sqlReady_ok _ Hdb)).
  erewrite bind_Normal by reflexivity.
  rewrite existsb_filter.
  destruct (List.filter (ownedBy userId) (user_preferences ag)) as [|r rest] eqn:Hf.
  - eexists _, _. split; [reflexivity|].
    rewrite List.filter_app, Hf. cbn [List.filter app].
    unfold ownedBy at 1. cbn. rewrite bool_decide_eq_true_2 by done. done.
  - eexists _, _. split; [reflexivity|].
    rewrite filter_ownedBy_fmap by (intros; apply ownedBy_upsert).
    rewrite Hf. cbn [fmap list_fmap head].
    assert (ownedBy userId r = true) as ->; [|done].
    assert (In r (List.filter (ownedBy userId) (user_preferences ag))) as Hin
      by (rewrite Hf; by left).
    by apply List.filter_In in Hin as [_ ?].
Qed.

Lemma upsertAgentName_fault userId name updatedAt ag e :
  db_fault ag = Some e -> upsertAgentName userId name updatedAt ag = (ag, Thrown e).
Proof.
  intros H. unfold upsertAgentName. by rewrite (bind_Thrown _ _ _ _ _ (sqlReady_fault _ _ H)).
Qed.

(** C10. [updateAgentName] measures the 50-character limit on the input as
    given, before trimming: a name longer than 50 characters makes it throw
    and leaves the agent - preferences included - as it was, whatever the
    length of the trimmed name; when the call succeeds, the name is
    non-empty after trimming and at most 50 characters as given, and what is
    persisted, in the row of the user and in the state, is the trimmed name;
    and every such name is accepted while the storage answers. *)
Theorem updateAgentName_limit_on_raw_input (host : Host) (newName : string) (ag : Agent) :
  ((50 < String.length newName)%nat ->
     exists e,
       updateAgentName host newName ag = (ag, Thrown e)
       /\ (e = "Agent name cannot be empty"
           \/ e = "Agent name must be 50 characters or less"))
  /\ (forall ag',
        updateAgentName host newName ag = (ag', Normal tt) ->
        trim newName ≠ ""
        /\ (String.length newName <= 50)%nat
        /\ stateAgentName ag' = Some (trim newName)
        /\ exists row,
             head (List.filter (ownedBy (currentUser ag)) (user_preferences ag')) = Some row
             /\ PrefRow.agent_name row = Some (trim newName))
  /\ (trim newName ≠ "" -> (String.length newName <= 50)%nat -> db_fault ag = None ->
      exists ag', updateAgentName host newName ag = (ag', Normal tt)).
Proof.
  unfold updateAgentName. rewrite tryCatch_rethrow.
  rewrite length_zero_truthy.
  destruct (truthy (trim newName)) eqn:Htrim.
  2:{ assert (negb (truthy newName) || negb false = true) as -> by (by destruct (truthy newName)).
      apply truthy_false in Htrim.
      split_and!.
      - intros _. eexists. split; [reflexivity|by left].
      - intros ag' Hrun. discriminate.
      - intros Hne. by destruct Hne. }
  assert (truthy newName = true) as ->.
  { destruct newName; [by rewrite trim_empty in Htrim|done]. }
  cbn [negb orb].
  assert (trim newName ≠ "") as Hne by (by destruct (trim newName)).
  destruct (50 <? String.length newName)%nat eqn:Hlen.
  - apply Nat.ltb_lt in Hlen.
    split_and!.
    + intros _. eexists. split; [reflexivity|by right].
    + intros ag' Hrun. discriminate.
    + intros _ Hle. lia.
  - apply Nat.ltb_ge in Hlen.
    erewrite bind_Normal by reflexivity. fold (currentUser ag).
    destruct (db_fault ag) as [e|] eqn:Hdb.
    + erewrite bind_Thrown by (by apply upsertAgentName_fault).
      split_and!; [intros; lia|intros ag' Hrun; discriminate|intros; discriminate].
    + destruct (upsertAgentName_ok (currentUser ag) (trim newName) (stamp host) ag Hdb)
        as (rows & row & Hup & Hrow & Hname).
      erewrite bind_Normal by exact Hup.
      erewrite bind_Normal by reflexivity.
      split_and!; [intros; lia| |intros; by eexists].
      intros ag' Hrun. inversion Hrun; subst ag'. clear Hrun.
      split; [done|]. split; [done|]. split; [reflexivity|].
      exists row. by split.
Qed.

Lemma updateAgentName_limit_on_raw_input_witness :
  (String.length (trim "Ada                                                    ") <= 50)%nat
  /\ (exists e,
        updateAgentName morning "Ada                                                    "
          freshAgent = (freshAgent, Thrown e)
        /\ (e = "Agent name cannot be empty"
            \/ e = "Agent name must be 50 characters or less"))
  /\ (exists ag', updateAgentName morning "  Ada " freshAgent = (ag', Normal tt)).
Proof.
  split; [vm_compute; lia|]. split.
  - apply (updateAgentName_limit_on_raw_input morning
             "Ada                                                    " freshAgent).
    vm_compute. lia.
  - apply (updateAgentName_limit_on_raw_input morning "  Ada " freshAgent).
    + vm_compute. discriminate.
    + vm_compute. lia.
    + reflexivity.
Defined.

(** ** Scheduler *)

Lemma inRange_not_colon lo hi c :
  Regex.inRange lo hi c = true -> (N_of_ascii hi < 58)%N -> Ascii.eqb c ":" = false.
Proof.
  unfold Regex.inRange. intros H Hhi.
  apply andb_prop in H as [_ H]. apply N.leb_le in H.
  destruct (Ascii.eqb c ":") eqn:Heq; [|done].
  apply Ascii.eqb_eq in Heq. subst c. cbn in H. lia.
Qed.

Lemma split_skip c sep s :
  Ascii.eqb c sep = false ->
  split sep (String c s) =
    match split sep s with
    | piece :: rest => String c piece :: rest
    | [] => [String c EmptyString]
    end.
Proof. intros H. cbn [split]. by rewrite H. Qed.

Lemma split_hit sep s : split sep (String sep s) = EmptyString :: split sep s.
Proof. cbn [split]. by rewrite Ascii.eqb_refl. Qed.

(** A time the pattern accepts is one or two characters, a colon and two
    characters, none of them a colon: [split(':')] gives the two parts. *)
Lemma timeRegex_shape s :
  Regex.test timeRegex s = true ->
  exists hh mm,
    s = hh +:+ ":" +:+ mm
    /\ split ":" s = [hh; mm]
    /\ String.length mm = 2%nat
    /\ (1 <= String.length hh <= 2)%nat.
Proof.
  intros H.
  destruct s as [|c1 [|c2 [|c3 [|c4 [|c5 s]]]]];
    cbn -[Regex.inRange Ascii.eqb] in H; try discriminate.
  all: repeat match type of H with
       | context [Regex.inRange ?lo ?hi ?c] =>
           let E := fresh "E" in destruct (Regex.inRange lo hi c) eqn:E;
           cbn -[Regex.inRange Ascii.eqb] in H
       | context [Ascii.eqb ?a ?b] =>
           let E := fresh "E" in destruct (Ascii.eqb a b) eqn:E;
           cbn -[Regex.inRange Ascii.eqb] in H
       end; try discriminate.
  all: repeat match goal with
       | E : Ascii.eqb ?c _ = true |- _ => apply Ascii.eqb_eq in E; subst c
       end.
  all: try (match goal with
            | E : Regex.inRange _ _ ":" = true |- _ => by vm_compute in E
            end).
  all: try (destruct s; [|by cbn in H]).
  all: repeat match goal with
       | E : Regex.inRange ?lo ?hi ?c = true |- _ =>
           lazymatch goal with
           | _ : Ascii.eqb c ":" = false |- _ => fail
           | _ => pose proof (inRange_not_colon lo hi c E eq_refl)
           end
       end.
  all: try (match goal with
            | E : Regex.inRange _ _ _ = true |- _ => by vm_compute in E
            end).
  all: match goal with
       | |- exists hh mm, String ?a (String ":" ?m) = _ /\ _ =>
           exists (String a EmptyString), m
       | |- exists hh mm, String ?a (String ?b (String ":" ?m)) = _ /\ _ =>
           exists (String a (String b EmptyString)), m
       end.
  all: split_and!; [reflexivity| |reflexivity|cbn; lia|cbn; lia].
  all: repeat first [rewrite split_hit | rewrite split_skip by assumption].
  all: reflexivity.
Qed.

Example timeRegex_samples :
  List.map (Regex.test timeRegex)
    ["09:00"; "9:00"; "23:59"; "2:30"; "24:00"; "25:99"; "19:60"; ""; "09:000"; "1a:30"]
  = [true; true; true; true; false; false; false; false; false; false].
Proof. reflexivity. Qed.

Lemma getSchedules_run ag :
  getSchedules ag =
    match db_fault ag with
    | Some e => (ag, Thrown e)
    | None => (ag, Normal (schedules ag))
    end.
Proof. unfold getSchedules, bind, sqlReady. by destruct (db_fault ag). Qed.

(** The verdict of the cron parser on what [schedule] is given. *)
Lemma schedule_run host when callback payload ag :
  schedule host when callback payload ag =
    match match when with Cron cron => cronError host cron | _ => None end with
    | Some error => (ag, Thrown error)
    | None =>
        match db_fault ag with
        | Some e => (ag, Thrown e)
        | None =>
            (withSchedule ag (Schedule.make (generateId host) callback payload when),
             Normal (Schedule.make (generateId host) callback payload when))
        end
    end.
Proof.
  unfold schedule, withSchedule, bind, sqlReady, modify, ret, throw.
  destruct when as [date|delay|cron]; try destruct (cronError host cron);
    destruct (db_fault ag) eqn:Hdb; cbn; by rewrite ?Hdb.
Qed.

Lemma filter_filter_length {A} (p q : A -> bool) (l : list A) :
  (length (List.filter p (List.filter q l)) <= length (List.filter p l))%nat.
Proof.
  induction l as [|x l IH]; [done|]. cbn [List.filter].
  destruct (q x); cbn [List.filter]; destruct (p x); cbn [length]; lia.
Qed.

Lemma dailyJobs_withSchedule ag created :
  dailyJobs (withSchedule ag created)
  = List.filter isDailyCheckIn
      (List.filter (fun s => negb (bool_decide (Schedule.id s = Schedule.id created)))
         (schedules ag))
    ++ (if isDailyCheckIn created then [created] else []).
Proof.
  unfold dailyJobs, withSchedule, replaceSchedule. cbn [schedules].
  rewrite List.filter_app. cbn. by destruct (isDailyCheckIn created).
Qed.

(** A job put on an agent without a daily job is its daily job; a task
    never is. *)
Lemma dailyJobs_first ag created :
  dailyJobs ag = [] -> isDailyCheckIn created = true ->
  dailyJobs (withSchedule ag created) = [created].
Proof.
  intros Hnone Hdaily. rewrite dailyJobs_withSchedule, Hdaily.
  pose proof (filter_filter_length isDailyCheckIn
                (fun s => negb (bool_decide (Schedule.id s = Schedule.id created)))
                (schedules ag)) as Hle.
  unfold dailyJobs in Hnone. rewrite Hnone in Hle. clear Hnone.
  destruct (List.filter isDailyCheckIn (List.filter _ _)) as [|j js]; [reflexivity|].
  cbn in Hle. lia.
Qed.

(** What a call of [scheduleDailyCheckIn] does, in one equation: it adds
    the job when the time is well formed, the storage answers, no daily job
    is there and the parser accepts the pattern, and else leaves the agent as
    it is. *)
Lemma scheduleDailyCheckIn_run host ag :
  scheduleDailyCheckIn host ag =
    (if Regex.test timeRegex (configuredCheckInTime (state ag))
        && bool_decide (db_fault ag = None)
        && negb (existsb isDailyCheckIn (schedules ag))
        && bool_decide (cronError host "* * * * *" = None)
     then withSchedule ag (dailyJob host "* * * * *")
     else ag,
     Normal tt).
Proof.
  unfold scheduleDailyCheckIn, tryCatch. unfold bind at 1. unfold readState at 1.
  destruct (Regex.test timeRegex _); [|reflexivity]. cbn [negb andb].
  unfold bind at 1. rewrite getSchedules_run.
  destruct (db_fault ag) as [e|] eqn:Hdb; [reflexivity|]. cbn [bool_decide andb].
  rewrite bool_decide_eq_true_2 by done. cbn [andb].
  destruct (existsb isDailyCheckIn (schedules ag)); [reflexivity|]. cbn [negb andb].
  unfold bind at 1. rewrite schedule_run, Hdb.
  destruct (cronError host "* * * * *") as [error|] eqn:Hcron; [reflexivity|].
  rewrite bool_decide_eq_true_2 by done.
  unfold bind. rewrite getSchedules_run. cbn [withSchedule db_fault]. by rewrite Hdb.
Qed.

Lemma Earlier_scheduleDailyCheckIn_run host ag :
  Earlier.scheduleDailyCheckIn host ag =
    (if Regex.test timeRegex (configuredCheckInTime (state ag))
        && bool_decide (db_fault ag = None)
        && negb (existsb isDailyCheckIn (schedules ag))
        && bool_decide
             (cronError host (Earlier.cronPatternOf (configuredCheckInTime (state ag)))
              = None)
     then withSchedule ag
            (dailyJob host (Earlier.cronPatternOf (configuredCheckInTime (state ag))))
     else ag,
     Normal tt).
Proof.
  unfold Earlier.scheduleDailyCheckIn, tryCatch. unfold bind at 1. unfold readState at 1.
  destruct (Regex.test timeRegex _); [|reflexivity]. cbn [negb andb].
  unfold bind at 1. rewrite getSchedules_run.
  destruct (db_fault ag) as [e|] eqn:Hdb; [reflexivity|].
  rewrite bool_decide_eq_true_2 by done. cbn [andb].
  destruct (existsb isDailyCheckIn (schedules ag)); [reflexivity|]. cbn [negb andb].
  unfold unawaited. rewrite schedule_run, Hdb.
  destruct (cronError host _) as [error|] eqn:Hcron; [reflexivity|].
  by rewrite bool_decide_eq_true_2 by done.
Qed.

(** C2. Two calls of [scheduleDailyCheckIn] in a row complete, whatever
    the condition of the storage, and an agent with at most one daily
    check-in job has at most one afterwards.  When the configured time is
    well formed, the storage answers and the SDK accepts the pattern, exactly
    one job with callback ["executeDailyCheckIn"] is scheduled afterwards, and
    the second call added nothing to the schedules the first left.  While
    the storage fails, both calls leave the agent as it is. *)
Theorem scheduleDailyCheckIn_twice_single_job (host1 host2 : Host) (ag : Agent) :
  exists ag1 ag2,
    scheduleDailyCheckIn host1 ag = (ag1, Normal tt)
    /\ scheduleDailyCheckIn host2 ag1 = (ag2, Normal tt)
    /\ ((length (dailyJobs ag) <= 1)%nat -> (length (dailyJobs ag2) <= 1)%nat)
    /\ (Regex.test timeRegex (configuredCheckInTime (state ag)) = true ->
        db_fault ag = None ->
        cronError host1 "* * * * *" = None ->
        (length (dailyJobs ag) <= 1)%nat ->
        length (dailyJobs ag2) = 1%nat /\ schedules ag2 = schedules ag1)
    /\ (db_fault ag <> None -> ag1 = ag /\ ag2 = ag).
Proof.
  assert (forall host a,
            (length (dailyJobs a) <= 1)%nat ->
            (length (dailyJobs (fst (scheduleDailyCheckIn host a))) <= 1)%nat
            /\ (dailyJobs a <> [] -> fst (scheduleDailyCheckIn host a) = a)) as Hstep.
  { intros host a Hone. rewrite scheduleDailyCheckIn_run. cbn [fst].
    rewrite existsb_filter. fold (dailyJobs a).
    destruct (dailyJobs a) as [|j js] eqn:Hjobs.
    - split; [|done].
      destruct (_ && _ && _ && _); [|rewrite Hjobs; cbn; lia].
      rewrite dailyJobs_first by done. cbn. lia.
    - cbn [negb]. rewrite andb_false_r. cbn [andb]. split; [by rewrite Hjobs|done]. }
  destruct (scheduleDailyCheckIn host1 ag) as [ag1 out1] eqn:Hrun1.
  destruct (scheduleDailyCheckIn host2 ag1) as [ag2 out2] eqn:Hrun2.
  assert (out1 = Normal tt) as -> by (rewrite scheduleDailyCheckIn_run in Hrun1; congruence).
  assert (out2 = Normal tt) as -> by (rewrite scheduleDailyCheckIn_run in Hrun2; congruence).
  exists ag1, ag2. split; [done|]. split; [done|].
  pose proof (Hstep host1 ag) as H1. rewrite Hrun1 in H1. cbn [fst] in H1.
  pose proof (Hstep host2 ag1) as H2. rewrite Hrun2 in H2. cbn [fst] in H2.
  split; [|split].
  - intros Hone. by apply H2, H1.
  - intros Htime Hdb Hcron Hone.
    assert (length (dailyJobs ag1) = 1%nat) as Hjob.
    { rewrite scheduleDailyCheckIn_run, Htime, existsb_filter in Hrun1.
      fold (dailyJobs ag) in Hrun1.
      rewrite !bool_decide_eq_true_2 in Hrun1 by done. cbn [andb] in Hrun1.
      destruct (dailyJobs ag) as [|j [|]] eqn:Hjobs; cbn in Hone; try lia;
        cbn [negb andb] in Hrun1; injection Hrun1 as <-.
      - by rewrite dailyJobs_first.
      - by rewrite Hjobs. }
    assert (ag2 = ag1) as ->.
    { apply H2; [lia|]. by destruct (dailyJobs ag1). }
    done.
  - intros Hdb. rewrite scheduleDailyCheckIn_run in Hrun1.
    rewrite (bool_decide_eq_false_2 (db_fault ag = None)) in Hrun1 by done.
    rewrite andb_false_r in Hrun1. cbn [andb] in Hrun1. injection Hrun1 as <-.
    rewrite scheduleDailyCheckIn_run in Hrun2.
    rewrite (bool_decide_eq_false_2 (db_fault ag = None)) in Hrun2 by done.
    rewrite andb_false_r in Hrun2. cbn [andb] in Hrun2. by injection Hrun2 as <-.
Qed.

Lemma scheduleDailyCheckIn_twice_single_job_witness :
  exists ag1 ag2,
    scheduleDailyCheckIn morning freshAgent = (ag1, Normal tt)
    /\ scheduleDailyCheckIn evening ag1 = (ag2, Normal tt)
    /\ length (dailyJobs ag2) = 1%nat
    /\ schedules ag2 = schedules ag1.
Proof.
  destruct (scheduleDailyCheckIn_twice_single_job morning evening freshAgent)
    as (ag1 & ag2 & Hrun1 & Hrun2 & _ & Hone & _).
  exists ag1, ag2. split; [exact Hrun1|]. split; [exact Hrun2|].
  apply Hone.
  - reflexivity.
  - reflexivity.
  - reflexivity.
  - cbn. lia.
Defined.

(** An ill-formed time makes the call a no-op, in both variants. *)
Lemma scheduleDailyCheckIn_bad_time host ag :
  Regex.test timeRegex (configuredCheckInTime (state ag)) = false ->
  scheduleDailyCheckIn host ag = (ag, Normal tt)
  /\ Earlier.scheduleDailyCheckIn host ag = (ag, Normal tt).
Proof.
  intros H. by rewrite scheduleDailyCheckIn_run, Earlier_scheduleDailyCheckIn_run, H.
Qed.


(** The earlier variant derives the pattern [MM HH * * *] from the time
    [HH:MM]. *)
Lemma Earlier_scheduleDailyCheckIn_cron host ag :
  Regex.test timeRegex (configuredCheckInTime (state ag)) = true ->
  db_fault ag = None ->
  dailyJobs ag = [] ->
  exists hh mm,
    configuredCheckInTime (state ag) = hh +:+ ":" +:+ mm
    /\ (cronError host (mm +:+ " " +:+ hh +:+ " * * *") = None ->
        Earlier.scheduleDailyCheckIn host ag
        = (withSchedule ag (dailyJob host (mm +:+ " " +:+ hh +:+ " * * *")), Normal tt)).
Proof.
  intros Htime Hdb Hnone.
  destruct (timeRegex_shape _ Htime) as (hh & mm & Heq & Hsplit & _).
  exists hh, mm. split; [exact Heq|]. intros Hcron.
  rewrite Earlier_scheduleDailyCheckIn_run, Htime, existsb_filter.
  unfold dailyJobs in Hnone. rewrite Hnone. cbn [andb negb].
  assert (Earlier.cronPatternOf (configuredCheckInTime (state ag))
          = mm +:+ " " +:+ hh +:+ " * * *") as ->
    by (unfold Earlier.cronPatternOf; by rewrite Hsplit).
  by rewrite !bool_decide_eq_true_2.
Qed.

(** The variant of [src/server.ts] schedules the same pattern whatever the
    time. *)
Lemma scheduleDailyCheckIn_cron host ag :
  Regex.test timeRegex (configuredCheckInTime (state ag)) = true ->
  db_fault ag = None ->
  cronError host "* * * * *" = None ->
  dailyJobs ag = [] ->
  scheduleDailyCheckIn host ag = (withSchedule ag (dailyJob host "* * * * *"), Normal tt).
Proof.
  intros Htime Hdb Hcron Hnone.
  rewrite scheduleDailyCheckIn_run, Htime, existsb_filter.
  unfold dailyJobs in Hnone. rewrite Hnone. by rewrite !bool_decide_eq_true_2.
Qed.

(** C7. With the time 09:00 and no job scheduled, [scheduleDailyCheckIn] of
    [src/server.ts] creates a job with the pattern [* * * * *], which fires
    every minute, where the claim - and the earlier variant of the same
    method - has [00 09 * * *]. *)
Theorem scheduleDailyCheckIn_every_minute :
  configuredCheckInTime (state freshAgent) = "09:00"
  /\ scheduleDailyCheckIn morning freshAgent
     = (withSchedule freshAgent (dailyJob morning "* * * * *"), Normal tt)
  /\ Earlier.scheduleDailyCheckIn morning freshAgent
     = (withSchedule freshAgent (dailyJob morning "00 09 * * *"), Normal tt)
  /\ dailyJob morning "* * * * *" <> dailyJob morning "00 09 * * *".
Proof.
  split; [reflexivity|]. split; [reflexivity|]. split; [reflexivity|]. discriminate.
Qed.

(** ** Check-in workflow *)

Section WorkflowLemmas.
Import Workflow.
Context {World : Type} (fetch : Request -> Eff World Response) (runtime : Runtime).

Lemma post_Normal request c w r :
  fetch request (world c) = (w, Normal r) ->
  post fetch request c = (mkCycle w (issued c ++ [request]), Normal r).
Proof. unfold post. by intros ->. Qed.

Lemma post_Thrown request c w e :
  fetch request (world c) = (w, Thrown e) ->
  post fetch request c = (mkCycle w (issued c ++ [request]), Thrown e).
Proof. unfold post. by intros ->. Qed.

(** A step whose callback returns at once takes one attempt. *)
Lemma attempts_Normal {A} n (callback : Eff (@Cycle World) A) c c' a :
  callback c = (c', Normal a) -> attempts n callback c = (c', Normal a).
Proof. destruct n; cbn [attempts]; unfold tryCatch; by intros ->. Qed.

Lemma stepDo_Normal {A} name (callback : Eff (@Cycle World) A) c c' a :
  callback c = (c', Normal a) -> stepDo runtime name callback c = (c', Normal a).
Proof. apply attempts_Normal. Qed.

Lemma attempts_retry {A} n (callback : Eff (@Cycle World) A) c c' e :
  callback c = (c', Thrown e) -> attempts (S n) callback c = attempts n callback c'.
Proof. cbn [attempts]. unfold tryCatch at 1. by intros ->. Qed.

Lemma attempts_last {A} (callback : Eff (@Cycle World) A) c c' e :
  callback c = (c', Thrown e) -> attempts 0 callback c = (c', Thrown e).
Proof. cbn [attempts]. unfold tryCatch. by intros ->. Qed.

Lemma checked_run {A} request failure (result : Response -> A) c :
  checked fetch request failure result c =
    match fetch request (world c) with
    | (w, Normal response) =>
        (mkCycle w (issued c ++ [request]),
         if negb (ok response) then Thrown (failure response) else Normal (result response))
    | (w, Thrown e) => (mkCycle w (issued c ++ [request]), Thrown e)
    end.
Proof.
  unfold checked, bind, post.
  destruct (fetch request (world c)) as [w [response|e]]; [|done].
  by destruct (ok response).
Qed.

(** What a step of a cycle does: it posts its request once to [S n]
    times; when it completes, the last answer was OK, and when it fails,
    every attempt was made. *)
Lemma attempts_checked {A} n request failure (result : Response -> A) c :
  exists k w out,
    attempts n (checked fetch request failure result) c
    = (mkCycle w (issued c ++ replicate k request), out)
    /\ (1 <= k <= S n)%nat
    /\ match out with
       | Normal a =>
           exists w0 response,
             fetch request w0 = (w, Normal response) /\ ok response = true
             /\ a = result response
       | Thrown e =>
           k = S n
           /\ exists w0, failing (snd (fetch request w0))
                         /\ e = match snd (fetch request w0) with
                                | Normal response => failure response
                                | Thrown rejection => rejection
                                end
       end.
Proof.
  revert c. induction n as [|n IH]; intros c.
  - pose proof (checked_run request failure result c) as Hrun.
    destruct (fetch request (world c)) as [w [response|e]] eqn:Hfetch.
    + destruct (ok response) eqn:Hok; cbn [negb] in Hrun.
      * exists 1%nat, w, (Normal (result response)).
        split; [by apply attempts_Normal|]. split; [lia|]. by exists (world c), response.
      * exists 1%nat, w, (Thrown (failure response)).
        split; [by apply attempts_last|]. split; [lia|]. split; [done|].
        exists (world c). by rewrite Hfetch.
    + exists 1%nat, w, (Thrown e).
      split; [by apply attempts_last|]. split; [lia|]. split; [done|].
      exists (world c). by rewrite Hfetch.
  - pose proof (checked_run request failure result c) as Hrun.
    destruct (fetch request (world c)) as [w [response|e]] eqn:Hfetch.
    + destruct (ok response) eqn:Hok; cbn [negb] in Hrun.
      * exists 1%nat, w, (Normal (result response)).
        split; [by apply attempts_Normal|]. split; [lia|]. by exists (world c), response.
      * destruct (IH (mkCycle w (issued c ++ [request]))) as (k & w' & out & Hrest & Hk & Hout).
        exists (S k), w', out. split.
        { rewrite (attempts_retry _ _ _ _ _ Hrun), Hrest. cbn [issued replicate].
          by rewrite <- app_assoc. }
        split; [lia|]. destruct out as [a|e']; [done|].
        destruct Hout as [-> Hout]. done.
    + destruct (IH (mkCycle w (issued c ++ [request]))) as (k & w' & out & Hrest & Hk & Hout).
      exists (S k), w', out. split.
      { rewrite (attempts_retry _ _ _ _ _ Hrun), Hrest. cbn [issued replicate].
        by rewrite <- app_assoc. }
      split; [lia|]. destruct out as [a|e']; [done|].
      destruct Hout as [-> Hout]. done.
Qed.

(** A step whose request is refused the same way at every attempt, the
    world staying as it is, fails after all its attempts. *)
Lemma attempts_refused {A} n request failure (result : Response -> A) c response :
  fetch request (world c) = (world c, Normal response) -> ok response = false ->
  attempts n (checked fetch request failure result) c
  = (mkCycle (world c) (issued c ++ replicate (S n) request), Thrown (failure response)).
Proof.
  revert c. induction n as [|n IH]; intros c Hfetch Hok.
  - apply attempts_last. by rewrite checked_run, Hfetch, Hok.
  - erewrite attempts_retry by (by rewrite checked_run, Hfetch, Hok).
    rewrite IH by done. cbn [issued world replicate]. by rewrite <- app_assoc.
Qed.

(** The first step, when the prompt is delivered at once. *)
Lemma prompt_step input w w1 r :
  fetch (promptRequest input) w = (w1, Normal r) -> ok r = true ->
  stepDo runtime "send-check-in-message"
    (bind (post fetch (promptRequest input))
       (fun response =>
          if negb (ok response)
          then throw ("Failed to send check-in message: " +:+ statusText response)
          else ret tt))
    (mkCycle w []) = (mkCycle w1 [promptRequest input], Normal tt).
Proof.
  intros Hfetch Hok. apply stepDo_Normal.
  erewrite bind_Normal by (by apply post_Normal).
  by rewrite Hok.
Qed.

(** The wait, by whether the reply comes before its timeout. *)
Lemma waitForEvent_in_time after text (c : @Cycle World) :
  (after < deadline)%Z ->
  waitForEvent runtime (Some (after, text)) "user-check-in-response" (24 * 60 * 60) c
  = (c, Normal (Some text)).
Proof.
  intros Hin. unfold waitForEvent. unfold deadline in Hin.
  by rewrite (proj2 (Z.ltb_lt _ _) Hin).
Qed.

Lemma waitForEvent_timeout arrival (c : @Cycle World) :
  (forall after text, arrival = Some (after, text) -> (deadline <= after)%Z) ->
  waitForEvent runtime arrival "user-check-in-response" (24 * 60 * 60) c
  = (c, Thrown (timeoutError runtime)).
Proof.
  intros Hlate. unfold waitForEvent.
  destruct arrival as [[after text]|]; [|done].
  specialize (Hlate after text eq_refl). unfold deadline in Hlate.
  by rewrite (proj2 (Z.ltb_ge _ _) Hlate).
Qed.

(** A cycle whose prompt was delivered and whose reply does not come
    before the timeout of the wait ends with the error of the wait, the
    prompt being its only request. *)
Lemma run_timeout input arrival w w1 r :
  fetch (promptRequest input) w = (w1, Normal r) -> ok r = true ->
  (forall after text, arrival = Some (after, text) -> (deadline <= after)%Z) ->
  run fetch runtime input arrival (mkCycle w [])
  = (mkCycle w1 [promptRequest input], Thrown (timeoutError runtime)).
Proof.
  intros Hfetch Hok Hlate. unfold run.
  erewrite bind_Normal by (by eapply prompt_step).
  by erewrite bind_Thrown by (by apply waitForEvent_timeout).
Qed.
End WorkflowLemmas.

(** C6. The claim does not hold of the code: when the prompt was delivered
    and no reply comes, the wait throws and the cycle ends there, with the
    prompt as its only request - no reminder is sent through [send-message],
    the step [handle-timeout] is never reached.  The same happens when the
    reply comes one hour after the prompt, the timeout being 86400
    milliseconds. *)
Theorem run_timeout_sends_no_reminder :
  Workflow.run Workflow.healthy Workflow.defaultRuntime Workflow.sampleInput None
    (Workflow.mkCycle tt [])
  = (Workflow.mkCycle tt [Workflow.promptRequest Workflow.sampleInput],
     Thrown (Workflow.timeoutError Workflow.defaultRuntime))
  /\ Workflow.posts Workflow.SendMessage
       (fst (Workflow.run Workflow.healthy Workflow.defaultRuntime Workflow.sampleInput None
               (Workflow.mkCycle tt []))) = []
  /\ (Workflow.reminderRequest Workflow.sampleInput
      ∉ Workflow.issued
          (fst (Workflow.run Workflow.healthy Workflow.defaultRuntime Workflow.sampleInput None
                  (Workflow.mkCycle tt []))))
  /\ Workflow.run Workflow.healthy Workflow.defaultRuntime Workflow.sampleInput
       (Some (3600000%Z, "I feel great today")) (Workflow.mkCycle tt [])
     = (Workflow.mkCycle tt [Workflow.promptRequest Workflow.sampleInput],
        Thrown (Workflow.timeoutError Workflow.defaultRuntime)).
Proof.
  split; [reflexivity|]. split; [reflexivity|]. split; [|reflexivity].
  intros Hin. apply list_elem_of_singleton in Hin. discriminate.
Qed.

(** The wait tells a reply by the millisecond: one that comes at the
    timeout is the same as none. *)
Example run_late_reply :
  Workflow.run Workflow.healthy Workflow.defaultRuntime Workflow.sampleInput
    (Some (Workflow.deadline, "fine")) (Workflow.mkCycle tt [])
  = Workflow.run Workflow.healthy Workflow.defaultRuntime Workflow.sampleInput None
      (Workflow.mkCycle tt []).
Proof. reflexivity. Qed.




(** The cycle of the specification's end-to-end scenario: every step
    succeeds and the five requests are issued in order, the last one
    numbering the recommendations from 1. *)
Example run_end_to_end :
  exists c,
    Workflow.run Workflow.healthy Workflow.defaultRuntime Workflow.sampleInput
      (Some (60%Z, "I feel great today")) (Workflow.mkCycle tt []) = (c, Normal tt)
    /\ Workflow.route <$> Workflow.issued c
       = [Workflow.SendCheckInMessage; Workflow.AnalyzeTone; Workflow.GetRecommendations;
          Workflow.SaveCheckIn; Workflow.SendMessage]
    /\ Workflow.payload <$> Workflow.posts Workflow.SendMessage c
       = [Workflow.MessagePayload
            (Workflow.summaryMessage (Some "positive")
               (Some ["Take a mindful walk"; "Breathe"; "Journal"]))]
    /\ JsString.includes
         (Workflow.summaryMessage (Some "positive")
            (Some ["Take a mindful walk"; "Breathe"; "Journal"]))
         ("1. Take a mindful walk" +:+ Workflow.newline +:+ "2. Breathe" +:+ Workflow.newline
          +:+ "3. Journal") = true.
Proof. eexists. split; [reflexivity|]. split; [reflexivity|]. split; reflexivity. Qed.

(** ** Recommendation selector *)

Lemma professionalSupport_not_in_table tone :
  professionalSupport ∉ toolRecommendations tone.
Proof.
  destruct tone; not_listed.
Qed.

(** C3. The selector is a function of tone and intensity alone:
    [("negative", 8)] always gives the same six items in the same order, the
    last one the professional-support suggestion; [("negative", 3)] does not
    contain it; and in general the per-tone list is returned with exactly one
    item, the professional-support one, appended at its end when the tone is
    negative and the intensity is at least 7, and unchanged otherwise (the
    per-tone lists do not contain that item). *)
Theorem getMindfulnessRecommendations_professional_support :
  getMindfulnessRecommendations Tone.Negative (Some 8%Q)
  = [ "Practice 4-7-8 breathing technique - inhale for 4, hold for 7, exhale for 8";
      "Write down your feelings in a journal - express what you're experiencing";
      "Try progressive muscle relaxation - tense and release each muscle group";
      "Consider talking to a trusted friend or professional - you don't have to go through this alone";
      "Practice self-compassion - be kind to yourself, acknowledge that difficult emotions are valid";
      "Consider reaching out to a mental health professional or crisis support line if needed" ]
  /\ last (getMindfulnessRecommendations Tone.Negative (Some 8%Q)) = Some professionalSupport
  /\ (professionalSupport ∉ getMindfulnessRecommendations Tone.Negative (Some 3%Q))
  /\ (forall intensity : Q,
        (7 <= intensity)%Q ->
        getMindfulnessRecommendations Tone.Negative (Some intensity)
        = toolRecommendations Tone.Negative ++ [professionalSupport])
  /\ (forall intensity : Q,
        (intensity < 7)%Q ->
        getMindfulnessRecommendations Tone.Negative (Some intensity)
        = toolRecommendations Tone.Negative)
  /\ getMindfulnessRecommendations Tone.Negative None = toolRecommendations Tone.Negative
  /\ (forall tone intensity,
        tone <> Tone.Negative ->
        getMindfulnessRecommendations tone intensity = toolRecommendations tone)
  /\ (forall tone, professionalSupport ∉ toolRecommendations tone).
Proof.
  split; [reflexivity|]. split; [reflexivity|].
  split; [apply (professionalSupport_not_in_table Tone.Negative)|].
  split.
  { intros intensity H. unfold getMindfulnessRecommendations. cbn [default from_option id].
    by rewrite (proj2 (Qle_bool_iff _ _) H). }
  split.
  { intros intensity H. unfold getMindfulnessRecommendations. cbn [default].
    cbn [from_option id]. destruct (Qle_bool 7 intensity) eqn:Hle; [|reflexivity].
    apply Qle_bool_iff in Hle. by apply Qlt_not_le in H. }
  split; [reflexivity|].
  split; [|apply professionalSupport_not_in_table].
  intros tone intensity Hne. unfold getMindfulnessRecommendations.
  destruct tone; [| |done]; by rewrite andb_false_r.
Qed.

Lemma getMindfulnessRecommendations_professional_support_witness :
  getMindfulnessRecommendations Tone.Negative (Some (15 # 2))
  = toolRecommendations Tone.Negative ++ [professionalSupport]
  /\ getMindfulnessRecommendations Tone.Negative (Some (69 # 10))
     = toolRecommendations Tone.Negative
  /\ getMindfulnessRecommendations Tone.Positive (Some 9%Q) = toolRecommendations Tone.Positive.
Proof.
  destruct getMindfulnessRecommendations_professional_support
    as (_ & _ & _ & Hhigh & Hlow & _ & Hother & _).
  split; [|split].
  - apply Hhigh. unfold Qle. cbn. lia.
  - apply Hlow. unfold Qlt. cbn. lia.
  - apply Hother. discriminate.
Defined.

(** ** Recommendation endpoint *)

Lemma getRecommendations_run emotionalTone intensity ag :
  Endpoint.getRecommendations emotionalTone intensity ag =
    (ag, Normal (Endpoint.mkResponse 200
                   (Endpoint.RecommendationsBody
                      (default (Endpoint.Items Endpoint.neutralList)
                         (Endpoint.lookup (toLowerCase (default "neutral" emotionalTone))))))).
Proof. reflexivity. Qed.

Lemma professionalSupport_not_in_endpoint_lists :
  (professionalSupport ∉ Endpoint.positiveList)
  /\ (professionalSupport ∉ Endpoint.neutralList)
  /\ (professionalSupport ∉ Endpoint.negativeList).
Proof.
  split_and!; not_listed.
Qed.

(** The answer of [POST /internal/get-recommendations] does not depend on
    the intensity: for every tone and any two intensities the response, and
    the agent it leaves, are identical.  The list is chosen by the
    lower-cased tone alone: the positive, neutral or negative list for these
    three keys, the neutral list for every other key that is not a name the
    table object inherits ([__proto__], [constructor]); no list the endpoint
    returns contains the professional-support item. *)
Lemma getRecommendations_ignores_intensity
    (emotionalTone : option string) (intensity1 intensity2 : option Q) (ag : Agent) :
  let toneKey := toLowerCase (default "neutral" emotionalTone) in
  Endpoint.getRecommendations emotionalTone intensity1 ag
  = Endpoint.getRecommendations emotionalTone intensity2 ag
  /\ (exists recs,
        Endpoint.getRecommendations emotionalTone intensity1 ag
        = (ag, Normal (Endpoint.mkResponse 200 (Endpoint.RecommendationsBody recs)))
        /\ (toneKey = "positive" -> recs = Endpoint.Items Endpoint.positiveList)
        /\ (toneKey = "neutral" -> recs = Endpoint.Items Endpoint.neutralList)
        /\ (toneKey = "negative" -> recs = Endpoint.Items Endpoint.negativeList)
        /\ (toneKey ∉ ["positive"; "neutral"; "negative"; "__proto__"; "constructor"] ->
            recs = Endpoint.Items Endpoint.neutralList)
        /\ (forall items, recs = Endpoint.Items items -> professionalSupport ∉ items)).
Proof.
  intros toneKey. split; [reflexivity|].
  rewrite getRecommendations_run. fold toneKey.
  eexists. split; [reflexivity|].
  unfold Endpoint.lookup.
  split_and!.
  - by intros ->.
  - by intros ->.
  - by intros ->.
  - intros H. repeat (apply not_elem_of_cons in H as [? H]).
    by rewrite !bool_decide_eq_false_2.
  - intros items.
    destruct professionalSupport_not_in_endpoint_lists as (Hp & Hn & Hg).
    repeat case_bool_decide; cbn; intros [= <-] || intros [=]; assumption.
Qed.

Example getRecommendations_ignores_intensity_sample :
  Endpoint.getRecommendations (Some "Negative") (Some 9%Q) freshAgent
  = Endpoint.getRecommendations (Some "Negative") (Some 2%Q) freshAgent
  /\ Endpoint.getRecommendations (Some "bogus") (Some 9%Q) freshAgent
     = (freshAgent,
        Normal (Endpoint.mkResponse 200
                  (Endpoint.RecommendationsBody (Endpoint.Items Endpoint.neutralList)))).
Proof. split; reflexivity. Qed.

(** C9. The claim does not hold of the code for a tone that is not one of
    the three but names a member the table object inherits: for
    [constructor] and [__proto__] the lookup of
    [recommendations[toneKey] || recommendations.neutral] finds that member,
    which is truthy, so the endpoint does not fall back to the neutral list
    as it does for another unknown tone, and its answer carries no list at
    all. *)
Theorem getRecommendations_inherited_key_no_fallback :
  ("constructor" ∉ validTones) /\ ("__proto__" ∉ validTones)
  /\ Endpoint.getRecommendations (Some "constructor") (Some 5%Q) freshAgent
     = (freshAgent,
        Normal (Endpoint.mkResponse 200 (Endpoint.RecommendationsBody Endpoint.Omitted)))
  /\ Endpoint.getRecommendations (Some "__proto__") (Some 5%Q) freshAgent
     = (freshAgent,
        Normal (Endpoint.mkResponse 200 (Endpoint.RecommendationsBody Endpoint.EmptyObject)))
  /\ Endpoint.getRecommendations (Some "constructor") (Some 5%Q) freshAgent
     <> (freshAgent,
         Normal (Endpoint.mkResponse 200
                   (Endpoint.RecommendationsBody (Endpoint.Items Endpoint.neutralList))))
  /\ Endpoint.getRecommendations (Some "__proto__") (Some 5%Q) freshAgent
     <> (freshAgent,
         Normal (Endpoint.mkResponse 200
                   (Endpoint.RecommendationsBody (Endpoint.Items Endpoint.neutralList))))
  /\ Endpoint.getRecommendations (Some "bogus") (Some 5%Q) freshAgent
     = (freshAgent,
        Normal (Endpoint.mkResponse 200
                  (Endpoint.RecommendationsBody (Endpoint.Items Endpoint.neutralList)))).
Proof.
  split; [not_listed|]. split; [not_listed|].
  split; [reflexivity|]. split; [reflexivity|].
  split; [discriminate|]. split; [discriminate|reflexivity].
Qed.

(** * Further properties *)

(** ** Check-in ledger *)

(** Every outcome of a save, in one equation. *)
Lemma saveCheckIn_run host tone summary recs ag :
  saveCheckIn host tone summary recs ag =
    if negb (truthy tone) || negb (truthy summary)
    then (ag, Thrown "Emotional tone and summary are required")
    else
      match db_fault ag with
      | Some e => (ag, Thrown e)
      | None =>
          match List.filter (sameDay (currentUser ag) (isoDate (today host))) (check_ins ag) with
          | r :: _ =>
              (mkAgent (Some (stateAfterSave host tone summary recs ag))
                 (rewriteRow (CheckInRow.id r) (storedTone tone) summary recs (stamp host)
                    <$> check_ins ag)
                 (user_preferences ag) (db_fault ag) (schedules ag) (messages ag), Normal tt)
          | [] =>
              if bool_decide (generateId host ∈ CheckInRow.id <$> check_ins ag)
              then (ag, Thrown "UNIQUE constraint failed: check_ins.id")
              else
                (mkAgent (Some (stateAfterSave host tone summary recs ag))
                   (check_ins ag ++ [insertedRow host tone summary recs ag])
                   (user_preferences ag) (db_fault ag) (schedules ag) (messages ag), Normal tt)
          end
      end.
Proof.
  destruct (truthy tone) eqn:Ht;
    [|unfold saveCheckIn; by rewrite tryCatch_rethrow, Ht].
  destruct (truthy summary) eqn:Hs;
    [|unfold saveCheckIn; by rewrite tryCatch_rethrow, Ht, Hs].
  cbn [negb orb].
  assert (tone ≠ "") as Htone by (by destruct tone).
  assert (summary ≠ "") as Hsum by (by destruct summary).
  destruct (db_fault ag) as [e|] eqn:Hdb.
  - unfold saveCheckIn. rewrite tryCatch_rethrow, Ht, Hs. cbn [negb orb].
    erewrite bind_Normal by reflexivity.
    unfold selectCheckInId.
    by erewrite bind_Thrown by (erewrite bind_Thrown; [reflexivity|by apply sqlReady_fault]).
  - destruct (List.filter _ _) as [|r rest] eqn:Hf.
    + case_bool_decide as Hid.
      * unfold saveCheckIn. rewrite tryCatch_rethrow, Ht, Hs. cbn [negb orb].
        erewrite bind_Normal by reflexivity.
        erewrite bind_Normal by (by apply selectCheckInId_ok).
        fold (currentUser ag). rewrite Hf. cbn [fmap list_fmap take].
        by erewrite bind_Thrown by (by apply insertCheckIn_taken).
      * rewrite <- Hdb. by apply saveCheckIn_insert.
    + rewrite <- Hdb. by eapply saveCheckIn_update.
Qed.

(** X1. A save is all or nothing.  When it throws, the agent - ledger and
    state - is as it was before the call.  It succeeds exactly when tone
    and summary are not empty, the storage answers and, if the user has no
    row for the day yet, the generated id is not taken. *)
Theorem saveCheckIn_all_or_nothing
    (host : Host) (tone summary : string) (recs : list string) (ag : Agent) :
  (forall ag' e, saveCheckIn host tone summary recs ag = (ag', Thrown e) -> ag' = ag)
  /\ ((exists ag', saveCheckIn host tone summary recs ag = (ag', Normal tt))
      <-> tone ≠ "" /\ summary ≠ "" /\ db_fault ag = None
          /\ (List.filter (sameDay (currentUser ag) (isoDate (today host))) (check_ins ag) = []
              -> generateId host ∉ CheckInRow.id <$> check_ins ag)).
Proof.
  rewrite saveCheckIn_run.
  destruct (truthy tone) eqn:Ht; cbn [negb orb].
  2:{ apply truthy_false in Ht. split; [by intros ?? [= <- _]|].
      split; [by intros [? [=]]|]. by intros [? _]. }
  destruct (truthy summary) eqn:Hs; cbn [negb orb].
  2:{ apply truthy_false in Hs. split; [by intros ?? [= <- _]|].
      split; [by intros [? [=]]|]. by intros (_ & ? & _). }
  assert (tone ≠ "") by (by destruct tone).
  assert (summary ≠ "") by (by destruct summary).
  destruct (db_fault ag) as [e|] eqn:Hdb.
  { split; [by intros ?? [= <- _]|]. split; [by intros [? [=]]|]. by intros (_ & _ & [=] & _). }
  destruct (List.filter _ _) as [|r rest] eqn:Hf.
  - case_bool_decide as Hid.
    + split; [by intros ?? [= <- _]|]. split; [by intros [? [=]]|].
      intros (_ & _ & _ & Hfresh). by destruct (Hfresh eq_refl).
    + split; [by intros ?? [=]|]. split; [done|]. intros _. by eexists.
  - split; [by intros ?? [=]|]. split; [|intros _; by eexists].
    intros _. split_and!; try done.
Qed.

Lemma id_rewriteRow rowId tone summary recs createdAt (rows : list CheckInRow.t) :
  CheckInRow.id <$> (rewriteRow rowId tone summary recs createdAt <$> rows)
  = CheckInRow.id <$> rows.
Proof.
  induction rows as [|r rows IH]; [done|]. cbn [fmap list_fmap] in *. rewrite IH.
  f_equal. unfold rewriteRow. by destruct (bool_decide _).
Qed.

(** X2. A save keeps the ledger well formed, whatever its outcome: the ids
    stay unique and no user gets a second row for a day. *)
Theorem saveCheckIn_keeps_ledger_well_formed
    (host : Host) (tone summary : string) (recs : list string) (ag ag' : Agent)
    (outcome : completion unit) :
  ledgerOk ag ->
  saveCheckIn host tone summary recs ag = (ag', outcome) ->
  ledgerOk ag'.
Proof.
  intros [Hids Hday] Hrun. split.
  - rewrite saveCheckIn_run in Hrun.
    destruct (negb (truthy tone) || negb (truthy summary)); [by inversion Hrun; subst|].
    destruct (db_fault ag); [by inversion Hrun; subst|].
    destruct (List.filter _ _) as [|r rest].
    + case_bool_decide as Hid; inversion Hrun; subst; [done|]. cbn [check_ins].
      rewrite fmap_app. apply NoDup_app. split; [done|]. split; [|apply NoDup_singleton].
      intros x Hx Hx'. apply list_elem_of_singleton in Hx'. by subst.
    + inversion Hrun; subst. cbn [check_ins]. by rewrite id_rewriteRow.
  - by eapply saveCheckIn_keeps_one_row_a_day.
Qed.

Lemma NoDup_fmap_inj_on {A B} (f : A -> B) (l : list A) x y :
  NoDup (f <$> l) -> x ∈ l -> y ∈ l -> f x = f y -> x = y.
Proof.
  induction l as [|a l IH]; intros Hnd Hx Hy Heq; [by apply elem_of_nil in Hx|].
  cbn [fmap list_fmap] in Hnd. apply NoDup_cons in Hnd as [Ha Hnd].
  apply elem_of_cons in Hx as [->|Hx]; apply elem_of_cons in Hy as [->|Hy].
  - done.
  - destruct Ha. rewrite Heq. by apply list_elem_of_fmap_2.
  - destruct Ha. rewrite <- Heq. by apply list_elem_of_fmap_2.
  - by apply IH.
Qed.

Lemma filter_In_head {A} (p : A -> bool) (l : list A) r rest :
  List.filter p l = r :: rest -> r ∈ l /\ p r = true.
Proof.
  intros H. assert (In r (List.filter p l)) as Hin by (rewrite H; by left).
  apply List.filter_In in Hin as [Hin ?]. split; [by apply list_elem_of_In|done].
Qed.

Lemma filter_fmap_fixed {A} (p : A -> bool) (f : A -> A) (l : list A) :
  (forall x, p (f x) = p x) ->
  (forall x, x ∈ l -> p x = true -> f x = x) ->
  List.filter p (f <$> l) = List.filter p l.
Proof.
  intros Hp Hf. induction l as [|x l IH]; [done|].
  cbn [fmap list_fmap List.filter]. rewrite Hp.
  rewrite IH by (intros y Hy; apply Hf; by right).
  destruct (p x) eqn:Hx; [|done]. rewrite (Hf x); [done|by left|done].
Qed.

(** X3. In a ledger with unique ids a successful save touches the row of
    the user's day only: every other row, the preference rows, the
    schedules and the chat messages are as before. *)
Theorem saveCheckIn_touches_one_row
    (host : Host) (tone summary : string) (recs : list string) (ag ag' : Agent) :
  NoDup (CheckInRow.id <$> check_ins ag) ->
  saveCheckIn host tone summary recs ag = (ag', Normal tt) ->
  let elsewhere r := negb (sameDay (currentUser ag) (isoDate (today host)) r) in
  List.filter elsewhere (check_ins ag') = List.filter elsewhere (check_ins ag)
  /\ user_preferences ag' = user_preferences ag
  /\ schedules ag' = schedules ag
  /\ messages ag' = messages ag.
Proof.
  intros Hids Hrun elsewhere. rewrite saveCheckIn_run in Hrun.
  destruct (negb (truthy tone) || negb (truthy summary)); [discriminate|].
  destruct (db_fault ag); [discriminate|].
  destruct (List.filter _ _) as [|r rest] eqn:Hf.
  - case_bool_decide; inversion Hrun; subst. cbn. split; [|done].
    rewrite List.filter_app. cbn [List.filter]. unfold elsewhere at 2, sameDay, insertedRow. cbn.
    rewrite !bool_decide_eq_true_2 by done. cbn. by rewrite app_nil_r.
  - inversion Hrun; subst. cbn. split; [|done].
    apply filter_In_head in Hf as [Hr Hsame].
    apply filter_fmap_fixed.
    + intros x. unfold elsewhere. by rewrite sameDay_rewriteRow.
    + intros x Hx Helse. unfold rewriteRow. case_bool_decide as Hid; [|done].
      assert (x = r) as -> by (by eapply NoDup_fmap_inj_on).
      unfold elsewhere in Helse. by rewrite Hsame in Helse.
Qed.

(** ** Text order *)

Lemma ascii_compare_refl c : Ascii.compare c c = Eq.
Proof. unfold Ascii.compare. apply N.compare_refl. Qed.

Lemma string_compare_refl s : String.compare s s = Eq.
Proof. induction s as [|c s IH]; [done|]. cbn. by rewrite ascii_compare_refl. Qed.


Lemma ltb_irrefl s : String.ltb s s = false.
Proof. unfold String.ltb. by rewrite string_compare_refl. Qed.

Lemma ltb_asym a b : String.ltb a b = true -> String.ltb b a = false.
Proof.
  unfold String.ltb. rewrite (String.compare_antisym a b).
  by destruct (String.compare b a).
Qed.



(** ** Check-in history *)

Lemma insertByCreatedAt_elem r sorted x :
  x ∈ insertByCreatedAt r sorted <-> x = r \/ x ∈ sorted.
Proof.
  induction sorted as [|y sorted IH]; cbn.
  - rewrite list_elem_of_singleton. split; [by left|intros [?|H]; [done|by apply elem_of_nil in H]].
  - destruct (String.ltb _ _).
    + rewrite !elem_of_cons, IH. tauto.
    + rewrite !elem_of_cons. tauto.
Qed.

Lemma orderByCreatedAtDesc_elem rows x :
  x ∈ orderByCreatedAtDesc rows <-> x ∈ rows.
Proof.
  induction rows as [|r rows IH]; [done|].
  cbn [orderByCreatedAtDesc foldr]. fold (orderByCreatedAtDesc rows).
  rewrite insertByCreatedAt_elem, elem_of_cons, IH. tauto.
Qed.

Lemma insertByCreatedAt_length r sorted :
  length (insertByCreatedAt r sorted) = S (length sorted).
Proof.
  induction sorted as [|y sorted IH]; [done|]. cbn.
  destruct (String.ltb _ _); cbn; by rewrite ?IH.
Qed.

Lemma orderByCreatedAtDesc_length rows :
  length (orderByCreatedAtDesc rows) = length rows.
Proof.
  induction rows as [|r rows IH]; [done|].
  cbn [orderByCreatedAtDesc foldr]. fold (orderByCreatedAtDesc rows).
  by rewrite insertByCreatedAt_length, IH.
Qed.




Lemma selectHistory_ok userId limit ag :
  db_fault ag = None ->
  selectHistory userId limit ag =
    (ag, Normal (limitRows limit
                   (orderByCreatedAtDesc (List.filter (ownCheckIn userId) (check_ins ag))))).
Proof. intros H. unfold selectHistory. by rewrite (bind_Normal _ _ _ _ _ (sqlReady_ok _ H)). Qed.

Lemma selectHistory_fault userId limit ag e :
  db_fault ag = Some e -> selectHistory userId limit ag = (ag, Thrown e).
Proof.
  intros H. unfold selectHistory. by rewrite (bind_Thrown _ _ _ _ _ (sqlReady_fault _ _ H)).
Qed.

(** What [getCheckInHistory] returns, in one equation. *)
Lemma getCheckInHistory_run limit ag :
  getCheckInHistory limit ag =
    (ag, Normal (match db_fault ag with
                 | Some _ => []
                 | None =>
                     limitRows (default 7%Z limit)
                       (orderByCreatedAtDesc
                          (List.filter (ownCheckIn (currentUser ag)) (check_ins ag)))
                 end)).
Proof.
  unfold getCheckInHistory. destruct (db_fault ag) as [e|] eqn:Hdb.
  - erewrite tryCatch_Thrown; [reflexivity|].
    erewrite bind_Normal by reflexivity.
    by erewrite bind_Thrown by (by apply selectHistory_fault).
  - apply tryCatch_Normal.
    erewrite bind_Normal by reflexivity.
    by erewrite bind_Normal by (by apply selectHistory_ok).
Qed.

Lemma getLastCheckIn_run ag :
  getLastCheckIn ag =
    (ag, Normal (match db_fault ag with
                 | Some _ => None
                 | None =>
                     CheckInRow.date <$>
                       head (orderByCreatedAtDesc
                               (List.filter (ownCheckIn (currentUser ag)) (check_ins ag)))
                 end)).
Proof.
  unfold getLastCheckIn. destruct (db_fault ag) as [e|] eqn:Hdb.
  - erewrite tryCatch_Thrown; [reflexivity|].
    erewrite bind_Normal by reflexivity.
    by erewrite bind_Thrown by (by apply selectHistory_fault).
  - apply tryCatch_Normal.
    erewrite bind_Normal by reflexivity.
    erewrite bind_Normal by (by apply selectHistory_ok).
    fold (currentUser ag). unfold limitRows. cbn.
    by destruct (orderByCreatedAtDesc _).
Qed.



(** The row stamped after all others comes first. *)
Lemma head_orderByCreatedAtDesc rows r :
  r ∈ rows ->
  (forall x, x ∈ rows ->
     x = r \/ String.ltb (CheckInRow.created_at x) (CheckInRow.created_at r) = true) ->
  head (orderByCreatedAtDesc rows) = Some r.
Proof.
  induction rows as [|y rows IH]; intros Hr Hlate; [by apply elem_of_nil in Hr|].
  cbn [orderByCreatedAtDesc foldr]. fold (orderByCreatedAtDesc rows).
  assert (forall s, head (insertByCreatedAt y s) =
            match s with
            | [] => Some y
            | x :: _ => if String.ltb (CheckInRow.created_at y) (CheckInRow.created_at x)
                        then Some x else Some y
            end) as Hhead.
  { intros [|x s]; [done|]. cbn. by destruct (String.ltb _ _). }
  rewrite Hhead.
  destruct (orderByCreatedAtDesc rows) as [|x s] eqn:Hsorted.
  - assert (rows = []) as ->.
    { apply (f_equal length) in Hsorted. rewrite orderByCreatedAtDesc_length in Hsorted.
      by destruct rows. }
    apply list_elem_of_singleton in Hr. by subst.
  - assert (x ∈ rows) as Hx by (apply orderByCreatedAtDesc_elem; rewrite Hsorted; by left).
    destruct (Hlate y ltac:(by left)) as [->|Hy].
    + destruct (Hlate x ltac:(by right)) as [->|Hxr].
      * by rewrite ltb_irrefl.
      * by rewrite (ltb_asym _ _ Hxr).
    + assert (r ∈ rows) as Hr'.
      { apply elem_of_cons in Hr as [->|?]; [|done]. by rewrite ltb_irrefl in Hy. }
      assert (head (x :: s) = Some r) as [= ->].
      { apply IH; [done|]. intros z Hz. apply Hlate. by right. }
      by rewrite Hy.
Qed.

Lemma filter_ownCheckIn_elem userId rows x :
  In x (List.filter (ownCheckIn userId) rows) <-> x ∈ rows /\ CheckInRow.user_id x = userId.
Proof.
  rewrite List.filter_In, <- list_elem_of_In. unfold ownCheckIn.
  by rewrite bool_decide_eq_true.
Qed.

Lemma sameDay_spec userId date r :
  sameDay userId date r = true <-> CheckInRow.user_id r = userId /\ CheckInRow.date r = date.
Proof.
  unfold sameDay. rewrite andb_true_iff. by rewrite !bool_decide_eq_true.
Qed.

(** The row of the day after a successful save. *)
Lemma saveCheckIn_row host tone summary recs ag ag' :
  NoDup (CheckInRow.id <$> check_ins ag) ->
  saveCheckIn host tone summary recs ag = (ag', Normal tt) ->
  db_fault ag' = None /\ currentUser ag' = currentUser ag
  /\ exists rowId,
       let row := CheckInRow.make rowId (currentUser ag) (isoDate (today host))
                    (storedTone tone) summary recs (stamp host) in
       row ∈ check_ins ag'
       /\ forall x, x ∈ check_ins ag' -> x = row \/ x ∈ check_ins ag.
Proof.
  intros Hids Hrun. rewrite saveCheckIn_run in Hrun.
  destruct (negb (truthy tone) || negb (truthy summary)); [discriminate|].
  destruct (db_fault ag) eqn:Hdb; [discriminate|].
  destruct (List.filter _ _) as [|r rest] eqn:Hf.
  - case_bool_decide; [discriminate|]. injection Hrun as <-.
    split; [done|]. split; [apply orDefault_currentUser|].
    exists (generateId host). cbn [check_ins]. split.
    + apply elem_of_app. right. by left.
    + intros x [Hx|Hx%list_elem_of_singleton]%elem_of_app; [by right|by left].
  - injection Hrun as <-.
    split; [done|]. split; [apply orDefault_currentUser|].
    apply filter_In_head in Hf as [Hr [Hu Hd]%sameDay_spec].
    exists (CheckInRow.id r). cbn [check_ins]. split.
    + apply list_elem_of_fmap. exists r. split; [|done].
      by rewrite rewriteRow_self, Hu, Hd.
    + intros x (y & -> & Hy)%list_elem_of_fmap.
      destruct (decide (CheckInRow.id y = CheckInRow.id r)) as [Hid|Hid].
      * left. apply (NoDup_fmap_inj_on _ _ _ _ Hids Hy Hr) in Hid as ->.
        by rewrite rewriteRow_self, Hu, Hd.
      * right. unfold rewriteRow. by rewrite bool_decide_eq_false_2.
Qed.

(** X5. A save followed by a look at the history: when the stamp of the save
    is later than the stamps of the user's rows (and ids are unique),
    [getLastCheckIn] answers the day of the save, and the history of
    length one is the saved row. *)
Theorem saveCheckIn_then_latest
    (host : Host) (tone summary : string) (recs : list string) (ag ag' : Agent) :
  NoDup (CheckInRow.id <$> check_ins ag) ->
  (forall x, x ∈ check_ins ag -> CheckInRow.user_id x = currentUser ag ->
             String.ltb (CheckInRow.created_at x) (stamp host) = true) ->
  saveCheckIn host tone summary recs ag = (ag', Normal tt) ->
  getLastCheckIn ag' = (ag', Normal (Some (isoDate (today host))))
  /\ exists rowId,
       getCheckInHistory (Some 1%Z) ag' =
         (ag', Normal [CheckInRow.make rowId (currentUser ag) (isoDate (today host))
                         (storedTone tone) summary recs (stamp host)]).
Proof.
  intros Hids Hlate Hrun.
  destruct (saveCheckIn_row _ _ _ _ _ _ Hids Hrun) as (Hdb & Hu & rowId & Hrow & Hrest).
  cbn zeta in Hrow, Hrest.
  set (row := CheckInRow.make _ _ _ _ _ _ _) in *.
  assert (head (orderByCreatedAtDesc
                  (List.filter (ownCheckIn (currentUser ag')) (check_ins ag'))) = Some row)
    as Hhead.
  { apply head_orderByCreatedAtDesc.
    - apply list_elem_of_In, filter_ownCheckIn_elem. by rewrite Hu.
    - intros x [Hx Hxu]%list_elem_of_In%filter_ownCheckIn_elem.
      destruct (Hrest x Hx) as [->|Hold]; [by left|right].
      apply Hlate; [done|]. by rewrite <- Hu. }
  split.
  - rewrite getLastCheckIn_run, Hdb, Hhead. done.
  - exists rowId. rewrite getCheckInHistory_run, Hdb. cbn [default from_option].
    unfold limitRows. cbn [Z.ltb Z.compare Z.to_nat Pos.to_nat Pos.iter_op].
    destruct (orderByCreatedAtDesc _) as [|first others]; [done|].
    injection Hhead as ->. done.
Qed.

(** ** Preference store *)

Lemma present_Some o s : present o = Some s -> o = Some s /\ s ≠ "".
Proof.
  destruct o as [[|c t]|]; cbn; [done| |done]. intros [= <-]. done.
Qed.

Lemma present_truthy s : s ≠ "" -> present (Some s) = Some s.
Proof. by destruct s. Qed.

Lemma orDefault_present o d : orDefault o d = default d (present o).
Proof. by destruct o as [[|c s]|]. Qed.

Lemma getAgentName_of_state ag name :
  present (stateAgentName ag) = Some name -> getAgentName ag = (ag, Normal name).
Proof.
  intros H. unfold getAgentName. apply tryCatch_Normal.
  erewrite bind_Normal by reflexivity.
  unfold stateAgentName in H. by rewrite H.
Qed.

Lemma selectModelProvider_ok userId ag :
  db_fault ag = None ->
  selectModelProvider userId ag =
    (ag, Normal (take 1 (PrefRow.model_provider
                           <$> List.filter (ownedBy userId) (user_preferences ag)))).
Proof.
  intros H. unfold selectModelProvider. by rewrite (bind_Normal _ _ _ _ _ (sqlReady_ok _ H)).
Qed.

Lemma selectModelProvider_fault userId ag e :
  db_fault ag = Some e -> selectModelProvider userId ag = (ag, Thrown e).
Proof.
  intros H. unfold selectModelProvider.
  by rewrite (bind_Thrown _ _ _ _ _ (sqlReady_fault _ _ H)).
Qed.

Lemma getModelProvider_run ag :
  getModelProvider ag = (ag, Normal (modelProviderByFallback ag)).
Proof.
  unfold getModelProvider, modelProviderByFallback, stateModelProvider.
  apply tryCatch_Normal.
  erewrite bind_Normal by reflexivity.
  destruct (present _) as [inState|]; [reflexivity|].
  fold (currentUser ag).
  destruct (db_fault ag) as [e|] eqn:Hdb.
  - erewrite bind_Normal
      by (erewrite tryCatch_Thrown
            by (by erewrite bind_Thrown by (by apply selectModelProvider_fault));
          reflexivity).
    reflexivity.
  - destruct (List.filter (ownedBy (currentUser ag)) (user_preferences ag))
      as [|row rest] eqn:Hf.
    + erewrite bind_Normal
        by (apply tryCatch_Normal;
            erewrite bind_Normal by (by apply selectModelProvider_ok);
            rewrite Hf; reflexivity).
      reflexivity.
    + destruct (present (PrefRow.model_provider row)) as [provider|] eqn:Hp.
      * destruct (isProvider provider) eqn:Hv.
        -- erewrite bind_Normal
             by (apply tryCatch_Normal;
                 erewrite bind_Normal by (by apply selectModelProvider_ok);
                 rewrite Hf; cbn [fmap list_fmap take head mjoin option_join];
                 rewrite Hp, Hv; reflexivity).
           reflexivity.
        -- erewrite bind_Normal
             by (apply tryCatch_Normal;
                 erewrite bind_Normal by (by apply selectModelProvider_ok);
                 rewrite Hf; cbn [fmap list_fmap take head mjoin option_join];
                 rewrite Hp, Hv; reflexivity).
           reflexivity.
      * erewrite bind_Normal
          by (apply tryCatch_Normal;
              erewrite bind_Normal by (by apply selectModelProvider_ok);
              rewrite Hf; cbn [fmap list_fmap take head mjoin option_join];
              rewrite Hp; reflexivity).
        reflexivity.
Qed.

(** X6. [getModelProvider] never throws and never changes the agent.  A value
    found in the storage is answered only when it is one of the two
    providers; a value found in the state is answered as it is. *)
Theorem getModelProvider_never_fails (ag : Agent) :
  exists provider,
    getModelProvider ag = (ag, Normal provider)
    /\ provider ≠ ""
    /\ (present (stateModelProvider ag) = None ->
        provider = "openai" \/ provider = "workers-ai")
    /\ (forall inState, present (stateModelProvider ag) = Some inState -> provider = inState)
    /\ (present (stateModelProvider ag) = None -> db_fault ag <> None -> provider = "openai").
Proof.
  exists (modelProviderByFallback ag). split; [apply getModelProvider_run|].
  unfold modelProviderByFallback.
  destruct (present (stateModelProvider ag)) as [inState|] eqn:Hs.
  { apply present_Some in Hs as [_ Hne]. split_and!; try done. by intros ? [= <-]. }
  assert (forall p, (if isProvider p then p else "openai") = "openai"
                    \/ (if isProvider p then p else "openai") = "workers-ai") as Hvalid.
  { intros p. unfold isProvider. repeat case_bool_decide; subst; cbn; auto. }
  assert (match db_fault ag with
          | Some _ => "openai"
          | None =>
              match List.filter (ownedBy (currentUser ag)) (user_preferences ag) with
              | [] => "openai"
              | row :: _ =>
                  match present (PrefRow.model_provider row) with
                  | Some provider => if isProvider provider then provider else "openai"
                  | None => "openai"
                  end
              end
          end = "openai"
          \/ match db_fault ag with
             | Some _ => "openai"
             | None =>
                 match List.filter (ownedBy (currentUser ag)) (user_preferences ag) with
                 | [] => "openai"
                 | row :: _ =>
                     match present (PrefRow.model_provider row) with
                     | Some provider => if isProvider provider then provider else "openai"
                     | None => "openai"
                     end
                 end
             end = "workers-ai") as Hcases.
  { destruct (db_fault ag); [by left|].
    destruct (List.filter _ _) as [|row ?]; [by left|].
    destruct (present (PrefRow.model_provider row)); [apply Hvalid|by left]. }
  split_and!.
  - by destruct Hcases as [-> | ->].
  - done.
  - done.
  - intros _ Hdb. by destruct (db_fault ag).
Qed.

Lemma head_filter_ownedBy userId r rest rows :
  List.filter (ownedBy userId) rows = r :: rest -> ownedBy userId r = true.
Proof. intros H. by apply filter_In_head in H as [_ ?]. Qed.

Lemma upsertAgentName_row userId name updatedAt ag :
  db_fault ag = None ->
  exists rows row,
    upsertAgentName userId name updatedAt ag =
      (mkAgent (state ag) (check_ins ag) rows (db_fault ag) (schedules ag) (messages ag),
       Normal tt)
    /\ head (List.filter (ownedBy userId) rows) = Some row
    /\ PrefRow.agent_name row = Some name
    /\ PrefRow.model_provider row = (preferenceRow userId ag ≫= PrefRow.model_provider).
Proof.
  intros Hdb. unfold upsertAgentName, preferenceRow.
  rewrite (bind_Normal _ _ _ _ _ (sqlReady_ok _ Hdb)).
  erewrite bind_Normal by reflexivity.
  rewrite existsb_filter.
  destruct (List.filter (ownedBy userId) (user_preferences ag)) as [|r rest] eqn:Hf.
  - eexists _, _. split; [reflexivity|].
    rewrite List.filter_app, Hf. cbn [List.filter app].
    unfold ownedBy at 1. cbn. rewrite bool_decide_eq_true_2 by done. done.
  - eexists _, _. split; [reflexivity|].
    rewrite filter_ownedBy_fmap by (intros; apply ownedBy_upsert).
    rewrite Hf. cbn [fmap list_fmap head].
    by rewrite (head_filter_ownedBy _ _ _ _ Hf).
Qed.

Lemma ownedBy_upsert_provider userId provider updatedAt r :
  ownedBy userId
    (if ownedBy userId r
     then PrefRow.make (PrefRow.user_id r) (PrefRow.check_in_time r) (PrefRow.timezone r)
            (PrefRow.agent_name r) (Some provider) (Some updatedAt)
     else r)
  = ownedBy userId r.
Proof. by destruct (ownedBy userId r) eqn:H. Qed.

Lemma upsertModelProvider_row userId provider updatedAt ag :
  db_fault ag = None ->
  exists rows row,
    upsertModelProvider userId provider updatedAt ag =
      (mkAgent (state ag) (check_ins ag) rows (db_fault ag) (schedules ag) (messages ag),
       Normal tt)
    /\ head (List.filter (ownedBy userId) rows) = Some row
    /\ PrefRow.model_provider row = Some provider
    /\ PrefRow.agent_name row = (preferenceRow userId ag ≫= PrefRow.agent_name).
Proof.
  intros Hdb. unfold upsertModelProvider, preferenceRow.
  rewrite (bind_Normal _ _ _ _ _ (sqlReady_ok _ Hdb)).
  erewrite bind_Normal by reflexivity.
  rewrite existsb_filter.
  destruct (List.filter (ownedBy userId) (user_preferences ag)) as [|r rest] eqn:Hf.
  - eexists _, _. split; [reflexivity|].
    rewrite List.filter_app, Hf. cbn [List.filter app].
    unfold ownedBy at 1. cbn. rewrite bool_decide_eq_true_2 by done. done.
  - eexists _, _. split; [reflexivity|].
    rewrite filter_ownedBy_fmap by (intros; apply ownedBy_upsert_provider).
    rewrite Hf. cbn [fmap list_fmap head].
    by rewrite (head_filter_ownedBy _ _ _ _ Hf).
Qed.

Lemma upsertModelProvider_fault userId provider updatedAt ag e :
  db_fault ag = Some e -> upsertModelProvider userId provider updatedAt ag = (ag, Thrown e).
Proof.
  intros H. unfold upsertModelProvider.
  by rewrite (bind_Thrown _ _ _ _ _ (sqlReady_fault _ _ H)).
Qed.

Lemma currentUser_keep ag st' rows :
  MindGuardState.userId st' = (state ag ≫= MindGuardState.userId) ->
  currentUser (mkAgent (Some st') (check_ins ag) rows (db_fault ag) (schedules ag) (messages ag))
  = currentUser ag.
Proof. intros H. unfold currentUser. cbn. by rewrite H. Qed.

(** What a successful [updateAgentName] leaves behind. *)
Lemma updateAgentName_effect host newName ag ag' :
  updateAgentName host newName ag = (ag', Normal tt) ->
  trim newName ≠ "" /\ db_fault ag = None /\ db_fault ag' = None
  /\ currentUser ag' = currentUser ag
  /\ stateAgentName ag' = Some (trim newName)
  /\ stateModelProvider ag' =
       match state ag ≫= MindGuardState.preferences with
       | Some held => Preferences.modelProvider held
       | None => Some "openai"
       end
  /\ (exists row,
        preferenceRow (currentUser ag) ag' = Some row
        /\ PrefRow.agent_name row = Some (trim newName)
        /\ PrefRow.model_provider row
           = (preferenceRow (currentUser ag) ag ≫= PrefRow.model_provider))
  /\ check_ins ag' = check_ins ag /\ schedules ag' = schedules ag
  /\ messages ag' = messages ag.
Proof.
  unfold updateAgentName. rewrite tryCatch_rethrow, length_zero_truthy.
  destruct (truthy (trim newName)) eqn:Htrim.
  2:{ assert (negb (truthy newName) || negb false = true) as ->
        by (by destruct (truthy newName)).
      discriminate. }
  assert (truthy newName = true) as ->.
  { destruct newName; [by rewrite trim_empty in Htrim|done]. }
  cbn [negb orb].
  assert (trim newName ≠ "") as Hne by (by destruct (trim newName)).
  destruct (50 <? String.length newName)%nat; [discriminate|].
  erewrite bind_Normal by reflexivity. fold (currentUser ag).
  destruct (db_fault ag) as [e|] eqn:Hdb.
  { erewrite bind_Thrown by (by apply upsertAgentName_fault). discriminate. }
  destruct (upsertAgentName_row (currentUser ag) (trim newName) (stamp host) ag Hdb)
    as (rows & row & Hup & Hrow & Hname & Hprov).
  erewrite bind_Normal by exact Hup.
  erewrite bind_Normal by reflexivity.
  intros [= <-]. rewrite Hdb.
  split; [done|]. split; [done|]. split; [done|].
  split; [unfold currentUser; reflexivity|].
  split; [reflexivity|].
  split; [unfold stateModelProvider; cbn; by destruct (state ag ≫= _)|].
  split; [|done]. exists row. done.
Qed.

(** What a successful [updateModelProvider] leaves behind. *)
Lemma updateModelProvider_effect host provider ag ag' :
  updateModelProvider host provider ag = (ag', Normal tt) ->
  db_fault ag = None /\ db_fault ag' = None
  /\ currentUser ag' = currentUser ag
  /\ stateModelProvider ag' = Some provider
  /\ stateAgentName ag' = Some (default "MindGuard" (present (stateAgentName ag)))
  /\ (exists row,
        preferenceRow (currentUser ag) ag' = Some row
        /\ PrefRow.model_provider row = Some provider
        /\ PrefRow.agent_name row
           = (preferenceRow (currentUser ag) ag ≫= PrefRow.agent_name))
  /\ check_ins ag' = check_ins ag /\ schedules ag' = schedules ag
  /\ messages ag' = messages ag.
Proof.
  unfold updateModelProvider. rewrite tryCatch_rethrow.
  erewrite bind_Normal by reflexivity. fold (currentUser ag).
  destruct (db_fault ag) as [e|] eqn:Hdb.
  { erewrite bind_Thrown by (by apply upsertModelProvider_fault). discriminate. }
  destruct (upsertModelProvider_row (currentUser ag) provider (stamp host) ag Hdb)
    as (rows & row & Hup & Hrow & Hprov & Hname).
  erewrite bind_Normal by exact Hup.
  erewrite bind_Normal by reflexivity.
  intros [= <-]. rewrite Hdb.
  split; [done|]. split; [done|].
  split; [unfold currentUser; reflexivity|].
  split; [reflexivity|].
  split; [unfold stateAgentName; cbn; by rewrite orDefault_present|].
  split; [|done]. exists row. done.
Qed.

Lemma updateModelProvider_fault host provider ag e :
  db_fault ag = Some e -> updateModelProvider host provider ag = (ag, Thrown e).
Proof.
  intros Hdb. unfold updateModelProvider. rewrite tryCatch_rethrow.
  erewrite bind_Normal by reflexivity.
  by erewrite bind_Thrown by (by apply upsertModelProvider_fault).
Qed.

Lemma updateModelProvider_ok host provider ag :
  db_fault ag = None -> exists ag', updateModelProvider host provider ag = (ag', Normal tt).
Proof.
  intros Hdb. unfold updateModelProvider. rewrite tryCatch_rethrow.
  erewrite bind_Normal by reflexivity.
  destruct (upsertModelProvider_row (currentUser ag) provider (stamp host) ag Hdb)
    as (rows & row & Hup & _).
  fold (currentUser ag). erewrite bind_Normal by exact Hup.
  erewrite bind_Normal by reflexivity. by eexists.
Qed.

Lemma default_MindGuard_truthy o : default "MindGuard" (present o) ≠ "".
Proof. by destruct o as [[|c s]|]. Qed.

(** [modelProviderByFallback] reads the state, the fault, the user and the
    row of the user only. *)
Lemma modelProviderByFallback_ext ag ag' :
  stateModelProvider ag' = stateModelProvider ag ->
  db_fault ag' = db_fault ag ->
  (preferenceRow (currentUser ag') ag' ≫= PrefRow.model_provider)
  = (preferenceRow (currentUser ag) ag ≫= PrefRow.model_provider) ->
  modelProviderByFallback ag' = modelProviderByFallback ag.
Proof.
  unfold modelProviderByFallback, preferenceRow. intros -> -> Hrow.
  destruct (present (stateModelProvider ag)); [done|].
  destruct (db_fault ag); [done|].
  destruct (List.filter _ (user_preferences ag')) as [|r' ?];
    destruct (List.filter _ (user_preferences ag)) as [|r ?]; cbn in Hrow.
  - done.
  - by rewrite <- Hrow.
  - by rewrite Hrow.
  - by rewrite Hrow.
Qed.

(** X7. Renaming the agent: the new name is what [getAgentName] answers from
    then on, and the answer of [getModelProvider] stays what it was, unless
    the state held no preferences: then it is ["openai"], whatever the
    storage holds. *)
Theorem updateAgentName_then_getAgentName
    (host : Host) (newName : string) (ag ag' : Agent) :
  updateAgentName host newName ag = (ag', Normal tt) ->
  getAgentName ag' = (ag', Normal (trim newName))
  /\ getModelProvider ag' =
       (ag', Normal (match state ag ≫= MindGuardState.preferences with
                     | Some _ => modelProviderByFallback ag
                     | None => "openai"
                     end)).
Proof.
  intros (Hne & Hdb & Hdb' & Hu & Hname & Hprov & (row & Hrow & _ & Hkept) & _)
    %updateAgentName_effect.
  split.
  - apply getAgentName_of_state. rewrite Hname. by apply present_truthy.
  - rewrite getModelProvider_run. do 2 f_equal.
    destruct (state ag ≫= MindGuardState.preferences) as [held|] eqn:Hheld.
    + apply modelProviderByFallback_ext.
      * rewrite Hprov. unfold stateModelProvider. by rewrite Hheld.
      * by rewrite Hdb, Hdb'.
      * rewrite Hu, Hrow. done.
    + unfold modelProviderByFallback. by rewrite Hprov.
Qed.

(** X8. Choosing the provider: the choice is what [getModelProvider] answers
    from then on; [getAgentName] answers the name the state held before,
    and ["MindGuard"] when it held none, whatever the storage holds. *)
Theorem updateModelProvider_then_getModelProvider
    (host : Host) (provider : string) (ag ag' : Agent) :
  provider ≠ "" ->
  updateModelProvider host provider ag = (ag', Normal tt) ->
  getModelProvider ag' = (ag', Normal provider)
  /\ getAgentName ag' = (ag', Normal (default "MindGuard" (present (stateAgentName ag)))).
Proof.
  intros Hne (Hdb & Hdb' & Hu & Hprov & Hname & _)%updateModelProvider_effect.
  split.
  - rewrite getModelProvider_run. unfold modelProviderByFallback.
    by rewrite Hprov, present_truthy.
  - apply getAgentName_of_state. rewrite Hname.
    apply present_truthy, default_MindGuard_truthy.
Qed.

(** X9. A name and a provider set one after the other, in either order, are
    both in force afterwards, in the state and in the row of the user. *)
Theorem name_and_provider_compose
    (host1 host2 : Host) (newName provider : string) (ag ag1 ag2 : Agent) :
  provider ≠ "" ->
  (updateAgentName host1 newName ag = (ag1, Normal tt)
   /\ updateModelProvider host2 provider ag1 = (ag2, Normal tt))
  \/ (updateModelProvider host1 provider ag = (ag1, Normal tt)
      /\ updateAgentName host2 newName ag1 = (ag2, Normal tt)) ->
  getAgentName ag2 = (ag2, Normal (trim newName))
  /\ getModelProvider ag2 = (ag2, Normal provider)
  /\ exists row,
       preferenceRow (currentUser ag) ag2 = Some row
       /\ PrefRow.agent_name row = Some (trim newName)
       /\ PrefRow.model_provider row = Some provider.
Proof.
  intros Hp [[Hname Hprov]|[Hprov Hname]].
  - apply updateAgentName_effect in Hname
      as (Hne & _ & _ & Hu1 & Hn1 & _ & (row1 & Hrow1 & Hrn1 & _) & _).
    apply updateModelProvider_effect in Hprov
      as (_ & _ & Hu2 & Hp2 & Hn2 & (row2 & Hrow2 & Hrp2 & Hrn2) & _).
    rewrite Hn1, present_truthy in Hn2 by done. cbn in Hn2.
    split; [apply getAgentName_of_state; by rewrite Hn2, present_truthy|].
    split.
    + rewrite getModelProvider_run. unfold modelProviderByFallback.
      by rewrite Hp2, present_truthy.
    + exists row2. rewrite <- Hu1. split; [done|]. split; [|done].
      rewrite Hrn2, Hu1, Hrow1. done.
  - apply updateModelProvider_effect in Hprov
      as (_ & _ & Hu1 & Hp1 & Hn1 & (row1 & Hrow1 & Hrp1 & _) & _).
    apply updateAgentName_effect in Hname
      as (Hne & _ & _ & Hu2 & Hn2 & Hp2 & (row2 & Hrow2 & Hrn2 & Hrp2) & _).
    split; [apply getAgentName_of_state; by rewrite Hn2, present_truthy|].
    split.
    + rewrite getModelProvider_run. unfold modelProviderByFallback.
      assert (stateModelProvider ag2 = Some provider) as ->; [|by rewrite present_truthy].
      rewrite Hp2. unfold stateModelProvider in Hp1.
      destruct (state ag1 ≫= MindGuardState.preferences); [done|discriminate].
    + exists row2. rewrite <- Hu1. split; [done|]. split; [done|].
      rewrite Hrp2, Hu1, Hrow1. done.
Qed.

Lemma ledgerOk_seasoned : ledgerOk seasoned.
Proof.
  split.
  - cbn. by apply (bool_decide_unpack _).
  - intros userId date. unfold seasoned, sameDay. cbn.
    repeat case_bool_decide; subst; cbn; try lia; discriminate.
Qed.

Lemma saveCheckIn_keeps_ledger_well_formed_witness :
  ledgerOk (fst (saveCheckIn morning "Happy" "a good walk" ["journal"] seasoned)).
Proof.
  apply (saveCheckIn_keeps_ledger_well_formed morning "Happy" "a good walk" ["journal"]
           seasoned _ (snd (saveCheckIn morning "Happy" "a good walk" ["journal"] seasoned))).
  - apply ledgerOk_seasoned.
  - reflexivity.
Defined.

Lemma saveCheckIn_touches_one_row_witness :
  let ag' := fst (saveCheckIn morning "Happy" "a good walk" ["journal"] seasoned) in
  let elsewhere r := negb (sameDay "ada" "2026-11-03" r) in
  List.filter elsewhere (check_ins ag') = List.filter elsewhere (check_ins seasoned)
  /\ user_preferences ag' = user_preferences seasoned
  /\ schedules ag' = schedules seasoned
  /\ messages ag' = messages seasoned.
Proof.
  apply (saveCheckIn_touches_one_row morning "Happy" "a good walk" ["journal"] seasoned).
  - cbn. by apply (bool_decide_unpack _).
  - reflexivity.
Defined.

Lemma saveCheckIn_then_latest_witness :
  let ag' := fst (saveCheckIn morning "Happy" "a good walk" ["journal"] seasoned) in
  getLastCheckIn ag' = (ag', Normal (Some "2026-11-03"))
  /\ exists rowId,
       getCheckInHistory (Some 1%Z) ag' =
         (ag', Normal [CheckInRow.make rowId "ada" "2026-11-03" "neutral" "a good walk"
                         ["journal"] "2026-11-03T09:00:00.412Z"]).
Proof.
  apply (saveCheckIn_then_latest morning "Happy" "a good walk" ["journal"] seasoned).
  - cbn. by apply (bool_decide_unpack _).
  - intros x Hx Hu. unfold seasoned in Hx. cbn [check_ins] in Hx.
    repeat (apply elem_of_cons in Hx as [->|Hx]; [try reflexivity; discriminate Hu|]).
    by apply elem_of_nil in Hx.
  - reflexivity.
Defined.

Lemma updateAgentName_then_getAgentName_witness :
  let ag' := fst (updateAgentName morning "  Sage " seasoned) in
  getAgentName ag' = (ag', Normal "Sage")
  /\ getModelProvider ag' = (ag', Normal "openai").
Proof.
  apply (updateAgentName_then_getAgentName morning "  Sage " seasoned). reflexivity.
Defined.

Lemma updateModelProvider_then_getModelProvider_witness :
  let ag' := fst (updateModelProvider morning "openai" seasoned) in
  getModelProvider ag' = (ag', Normal "openai")
  /\ getAgentName ag' = (ag', Normal "MindGuard").
Proof.
  apply (updateModelProvider_then_getModelProvider morning "openai" seasoned).
  - discriminate.
  - reflexivity.
Defined.

Lemma name_and_provider_compose_witness :
  let ag2 := fst (updateAgentName evening "Sage"
                    (fst (updateModelProvider morning "workers-ai" freshAgent))) in
  getAgentName ag2 = (ag2, Normal "Sage")
  /\ getModelProvider ag2 = (ag2, Normal "workers-ai")
  /\ exists row,
       preferenceRow "default" ag2 = Some row
       /\ PrefRow.agent_name row = Some "Sage"
       /\ PrefRow.model_provider row = Some "workers-ai".
Proof.
  apply (name_and_provider_compose morning evening "Sage" "workers-ai" freshAgent
           (fst (updateModelProvider morning "workers-ai" freshAgent))).
  - discriminate.
  - right. split; reflexivity.
Defined.

(** ** Chat messages *)

Lemma initializeDatabase_run ag : initializeDatabase ag = (ag, Normal tt).
Proof.
  unfold initializeDatabase, tryCatch, bind, sqlReady. by destruct (db_fault ag).
Qed.

Lemma saveMessages_run list ag :
  saveMessages list ag =
    match db_fault ag with
    | Some e => (ag, Thrown e)
    | None =>
        (mkAgent (state ag) (check_ins ag) (user_preferences ag) (db_fault ag)
           (schedules ag) list, Normal tt)
    end.
Proof.
  unfold saveMessages, bind, sqlReady, modify. destruct (db_fault ag) eqn:Hdb; cbn; by rewrite ?Hdb.
Qed.

Lemma appendMessage_run message ag :
  bind inspect (fun ag0 => saveMessages (messages ag0 ++ [message])) ag =
    match db_fault ag with
    | Some e => (ag, Thrown e)
    | None => (withMessage ag message, Normal tt)
    end.
Proof. unfold bind at 1, inspect. by rewrite saveMessages_run. Qed.

Lemma executeDailyCheckIn_run host workflow description ag :
  executeDailyCheckIn host workflow description ag =
    match db_fault ag with
    | Some _ => (ag, Normal tt)
    | None =>
        (withMessage ag (textMessage host "assistant" Workflow.checkInPrompt), Normal tt)
    end.
Proof.
  unfold executeDailyCheckIn. cbn [USE_WORKFLOWS].
  unfold tryCatch at 1. rewrite appendMessage_run.
  destruct (db_fault ag) as [e|] eqn:Hdb; [|done].
  unfold tryCatch. by rewrite appendMessage_run, Hdb.
Qed.

(** X10. The scheduled check-in never throws: while the storage answers it
    adds the prompt, as one assistant message behind the messages there
    were, and changes nothing else; while the storage fails it changes
    nothing, the shorter prompt of the fallback being lost the same way.
    The workflow binding is never used. *)
Theorem executeDailyCheckIn_sends_one_prompt
    (host : Host) (workflow : option (Eff Agent unit)) (description : string) (ag : Agent) :
  exists ag',
    executeDailyCheckIn host workflow description ag = (ag', Normal tt)
    /\ executeDailyCheckIn host None description ag = (ag', Normal tt)
    /\ (db_fault ag = None ->
        ag' = withMessage ag (Message.make (generateId host) "assistant"
                                Workflow.checkInPrompt (stamp host)))
    /\ (db_fault ag <> None -> ag' = ag).
Proof.
  rewrite !executeDailyCheckIn_run.
  destruct (db_fault ag); eexists; (split; [reflexivity|]); split; try done.
  all: split; done.
Qed.


(** ** The HTTP surface *)

Lemma sendMessageRoute_run host body ag :
  Http.sendMessageRoute host body ag =
    match snd (Http.destructure "message" body ag) with
    | Thrown e => (ag, Normal (Http.mkResponse 500 (Http.Error e)))
    | Normal fields =>
        match Http.holding (Http.message fields) with
        | None => (ag, Normal (Http.mkResponse 400 (Http.Error "Message is required")))
        | Some message =>
            match db_fault ag with
            | Some e => (ag, Normal (Http.mkResponse 500 (Http.Error e)))
            | None =>
                (withMessage ag
                   (Message.make (generateId host) "assistant" message (stamp host)),
                 Normal (Http.mkResponse 200 Http.Success))
            end
        end
    end.
Proof.
  unfold Http.sendMessageRoute. destruct body as [error| |fields]; [done|done|].
  cbn [Http.destructure snd ret]. unfold tryCatch, bind at 1, ret at 1.
  destruct (Http.holding (Http.message fields)) as [message|]; [|done].
  cbv [bind inspect Http.json ret].
  rewrite saveMessages_run. destruct (db_fault ag) eqn:Hdb; [done|].
  unfold withMessage. by rewrite Hdb.
Qed.

Lemma analyzeToneRoute_run body ag :
  Http.analyzeToneRoute body ag =
    match snd (Http.destructure "message" body ag) with
    | Thrown e => (ag, Normal (Http.mkResponse 500 (Http.Error e)))
    | Normal fields =>
        match Http.holding (Http.message fields) with
        | None => (ag, Normal (Http.mkResponse 400 (Http.Error "Message is required")))
        | Some (JString message) =>
            (ag, Normal (Http.mkResponse 200
                           (Http.Analysis (fst (Http.analyze message))
                              (snd (Http.analyze message)) [])))
        | Some other =>
            (ag, Normal (Http.mkResponse 500
                           (Http.Error (Http.noToLowerCase "message" other))))
        end
    end.
Proof.
  unfold Http.analyzeToneRoute. destruct body as [error| |fields]; [done|done|].
  cbn [Http.destructure snd ret]. unfold tryCatch, bind at 1, ret at 1.
  destruct (Http.holding (Http.message fields)) as [[| | |message| |]|]; try done.
  by destruct (Http.analyze message).
Qed.

Lemma getRecommendationsRoute_run body ag :
  exists response,
    Http.getRecommendationsRoute body ag = (ag, Normal response)
    /\ (Http.status response = 200%Z \/ Http.status response = 500%Z).
Proof.
  unfold Http.getRecommendationsRoute.
  destruct body as [error| |fields]; [eexists; split; [reflexivity|by right]..|].
  cbn [Http.destructure]. unfold tryCatch, bind at 1, ret at 1.
  destruct (Http.emotionalTone fields) as [[| | |tone| |]|];
    eexists; (split; [reflexivity|]); cbn; auto.
Qed.

Lemma saveCheckInOf_run host emotionalTone summary recommendations ag :
  Http.saveCheckInOf host emotionalTone summary recommendations ag =
    match recommendations with
    | Http.NotArray => (ag, Thrown "Recommendations must be an array")
    | _ =>
        match emotionalTone with
        | JString tone =>
            saveCheckIn host tone summary
              match recommendations with Http.Strings items => items | _ => [] end ag
        | other => (ag, Thrown (Http.noToLowerCase "emotionalTone" other))
        end
    end.
Proof. by destruct recommendations, emotionalTone. Qed.

Lemma saveCheckInRoute_run host body ag :
  Http.saveCheckInRoute host body ag =
    match snd (Http.destructure "emotionalTone" body ag) with
    | Thrown e => (ag, Normal (Http.mkResponse 500 (Http.Error e)))
    | Normal fields =>
        match Http.holding (Http.emotionalTone fields), present (Http.summary fields) with
        | Some emotionalTone, Some summary =>
            match Http.saveCheckInOf host emotionalTone summary
                    (Http.recommendations fields) ag with
            | (ag', Normal _) => (ag', Normal (Http.mkResponse 200 Http.Success))
            | (ag', Thrown e) => (ag', Normal (Http.mkResponse 500 (Http.Error e)))
            end
        | _, _ =>
            (ag, Normal (Http.mkResponse 400
                           (Http.Error "Emotional tone and summary are required")))
        end
    end.
Proof.
  unfold Http.saveCheckInRoute.
  unfold tryCatch, bind at 1. rewrite initializeDatabase_run.
  destruct body as [error| |fields]; [done|done|].
  cbn [Http.destructure snd ret]. unfold bind at 1, ret at 1.
  destruct (Http.holding (Http.emotionalTone fields)) as [tone|]; [|done].
  destruct (present (Http.summary fields)) as [summary|]; [|done].
  cbv beta iota. unfold bind, Http.json, ret.
  by destruct (Http.saveCheckInOf _ _ _ _ ag) as [ag' [[]|e]].
Qed.

Lemma updateNameRoute_run host body ag :
  Http.updateNameRoute host body ag =
    match snd (Http.destructure "name" body ag) with
    | Thrown e => (ag, Normal (Http.mkResponse 500 (Http.Error e)))
    | Normal fields =>
        match present (Http.asString (Http.name fields)) with
        | Some name =>
            match updateAgentName host name ag with
            | (ag', Normal _) => (ag', Normal (Http.mkResponse 200 (Http.NameUpdated name)))
            | (ag', Thrown e) => (ag', Normal (Http.mkResponse 500 (Http.Error e)))
            end
        | None => (ag, Normal (Http.mkResponse 400 (Http.Error "Invalid name provided")))
        end
    end.
Proof.
  unfold Http.updateNameRoute.
  unfold tryCatch, bind at 1. rewrite initializeDatabase_run.
  destruct body as [error| |fields]; [done|done|].
  cbn [Http.destructure snd ret]. unfold bind at 1, ret at 1.
  destruct (present (Http.asString (Http.name fields))) as [name|]; [|done].
  unfold bind, Http.json, ret.
  by destruct (updateAgentName _ _ ag) as [ag' [[]|e]].
Qed.

Lemma updateModelProviderRoute_run host body ag :
  Http.updateModelProviderRoute host body ag =
    match snd (Http.destructure "provider" body ag) with
    | Thrown e => (ag, Normal (Http.mkResponse 500 (Http.Error e)))
    | Normal fields =>
        match present (Http.asString (Http.provider fields)) with
        | Some provider =>
            if isProvider provider
            then match updateModelProvider host provider ag with
                 | (ag', Normal _) =>
                     (ag', Normal (Http.mkResponse 200 (Http.ProviderUpdated provider)))
                 | (ag', Thrown e) => (ag', Normal (Http.mkResponse 500 (Http.Error e)))
                 end
            else (ag, Normal (Http.mkResponse 400
                                (Http.Error "Invalid provider. Must be 'openai' or 'workers-ai'")))
        | None =>
            (ag, Normal (Http.mkResponse 400
                           (Http.Error "Invalid provider. Must be 'openai' or 'workers-ai'")))
        end
    end.
Proof.
  unfold Http.updateModelProviderRoute.
  unfold tryCatch, bind at 1. rewrite initializeDatabase_run.
  destruct body as [error| |fields]; [done|done|].
  cbn [Http.destructure snd ret]. unfold bind at 1, ret at 1.
  destruct (present (Http.asString (Http.provider fields))) as [provider|]; [|done].
  destruct (isProvider provider); [|done]. cbn [negb].
  unfold bind, Http.json, ret.
  by destruct (updateModelProvider _ _ ag) as [ag' [[]|e]].
Qed.

Lemma testCheckInRoute_run host workflow ag :
  Http.testCheckInRoute host workflow ag =
    (fst (executeDailyCheckIn host workflow "Manual test check-in" ag),
     Normal (Http.mkResponse 200 (Http.Triggered "Check-in triggered manually"))).
Proof.
  unfold Http.testCheckInRoute. cbv [tryCatch bind Http.json ret].
  rewrite executeDailyCheckIn_run. by destruct (db_fault ag).
Qed.

Lemma updateAgentName_Thrown host newName ag ag' e :
  updateAgentName host newName ag = (ag', Thrown e) -> ag' = ag.
Proof.
  unfold updateAgentName. rewrite tryCatch_rethrow.
  destruct (negb (truthy newName) || (String.length (trim newName) =? 0)%nat);
    [by intros [= <- _]|].
  destruct (50 <? String.length newName)%nat; [by intros [= <- _]|].
  erewrite bind_Normal by reflexivity.
  destruct (db_fault ag) as [e'|] eqn:Hdb.
  - erewrite bind_Thrown by (by apply upsertAgentName_fault). by intros [= <- _].
  - destruct (upsertAgentName_row (orDefault (state ag ≫= MindGuardState.userId) "default")
                (trim newName) (stamp host) ag Hdb) as (rows & row & Hup & _).
    erewrite bind_Normal by exact Hup.
    erewrite bind_Normal by reflexivity. discriminate.
Qed.

Lemma updateModelProvider_Thrown host provider ag ag' e :
  updateModelProvider host provider ag = (ag', Thrown e) -> ag' = ag.
Proof.
  destruct (db_fault ag) as [e'|] eqn:Hdb.
  - rewrite (updateModelProvider_fault _ _ _ _ Hdb). by intros [= <- _].
  - destruct (updateModelProvider_ok host provider ag Hdb) as [ag1 ->]. discriminate.
Qed.

Lemma saveCheckIn_Thrown host tone summary recs ag ag' e :
  saveCheckIn host tone summary recs ag = (ag', Thrown e) -> ag' = ag.
Proof.
  rewrite saveCheckIn_run.
  destruct (negb (truthy tone) || negb (truthy summary)); [by intros [= <- _]|].
  destruct (db_fault ag); [by intros [= <- _]|].
  destruct (List.filter _ _); [|discriminate].
  case_bool_decide; [by intros [= <- _]|discriminate].
Qed.

Lemma saveCheckIn_frame host tone summary recs ag ag' outcome :
  saveCheckIn host tone summary recs ag = (ag', outcome) ->
  schedules ag' = schedules ag /\ db_fault ag' = db_fault ag
  /\ messages ag' = messages ag /\ user_preferences ag' = user_preferences ag.
Proof.
  rewrite saveCheckIn_run.
  destruct (negb (truthy tone) || negb (truthy summary)); [by intros [= <- _]|].
  destruct (db_fault ag) eqn:Hdb; [by intros [= <- _]|].
  destruct (List.filter _ _); [|by intros [= <- _]].
  case_bool_decide; by intros [= <- _].
Qed.

Lemma status_listed (n : Z) :
  n = 200%Z \/ n = 400%Z \/ n = 404%Z \/ n = 500%Z -> n ∈ [200; 400; 404; 500]%Z.
Proof. intros H. apply list_elem_of_In. cbn. intuition congruence. Qed.

Local Ltac answered :=
  eexists _, _; (split; [reflexivity|]); (split; [apply status_listed; cbn; auto|]);
  cbn; done.

Lemma atomic_sendMessageRoute host body : atomic (Http.sendMessageRoute host body).
Proof.
  intros ag. rewrite sendMessageRoute_run.
  destruct body as [error| |fields]; cbn [Http.destructure snd ret throw]; [answered..|].
  destruct (Http.holding _); [destruct (db_fault ag) eqn:Hdb|]; answered.
Qed.

Lemma atomic_analyzeToneRoute body : atomic (Http.analyzeToneRoute body).
Proof.
  intros ag. rewrite analyzeToneRoute_run.
  destruct body as [error| |fields]; cbn [Http.destructure snd ret throw]; [answered..|].
  destruct (Http.holding _) as [[| | |message| |]|]; answered.
Qed.

Lemma atomic_getRecommendationsRoute body : atomic (Http.getRecommendationsRoute body).
Proof.
  intros ag. destruct (getRecommendationsRoute_run body ag) as (response & -> & Hstatus).
  eexists _, _. split; [reflexivity|]. split; [apply status_listed; tauto|]. done.
Qed.

Lemma saveCheckInOf_Thrown host tone summary recs ag ag' e :
  Http.saveCheckInOf host tone summary recs ag = (ag', Thrown e) -> ag' = ag.
Proof.
  rewrite saveCheckInOf_run.
  destruct recs, tone; try (by intros [= <- _]); apply saveCheckIn_Thrown.
Qed.

Lemma saveCheckInOf_frame host tone summary recs ag ag' outcome :
  Http.saveCheckInOf host tone summary recs ag = (ag', outcome) ->
  schedules ag' = schedules ag /\ db_fault ag' = db_fault ag
  /\ messages ag' = messages ag /\ user_preferences ag' = user_preferences ag.
Proof.
  rewrite saveCheckInOf_run.
  destruct recs, tone; try (by intros [= <- _]); apply saveCheckIn_frame.
Qed.

Lemma atomic_saveCheckInRoute host body : atomic (Http.saveCheckInRoute host body).
Proof.
  intros ag. rewrite saveCheckInRoute_run.
  destruct body as [error| |fields]; cbn [Http.destructure snd ret throw]; [answered..|].
  destruct (Http.holding (Http.emotionalTone fields)) as [tone|]; [|answered].
  destruct (present (Http.summary fields)) as [summary|]; [|answered].
  destruct (Http.saveCheckInOf _ _ _ _ ag) as [ag' [[]|e]] eqn:Hrun;
    pose proof (saveCheckInOf_frame _ _ _ _ _ _ _ Hrun) as (Hs & Hd & _);
    eexists _, _; (split; [reflexivity|]); (split; [apply status_listed; cbn; auto|]);
    cbn; (split; [|done]).
  - done.
  - intros _. by eapply saveCheckInOf_Thrown.
Qed.

Lemma atomic_updateNameRoute host body : atomic (Http.updateNameRoute host body).
Proof.
  intros ag. rewrite updateNameRoute_run.
  destruct body as [error| |fields]; cbn [Http.destructure snd ret throw]; [answered..|].
  destruct (present (Http.asString (Http.name fields))) as [name|]; [|answered].
  destruct (updateAgentName _ _ ag) as [ag' [[]|e]] eqn:Hrun;
    eexists _, _; (split; [reflexivity|]); (split; [apply status_listed; cbn; auto|]); cbn.
  - apply updateAgentName_effect in Hrun as (_ & Hd & Hd' & _ & _ & _ & _ & _ & Hs & _).
    split; [done|]. split; [done|]. by rewrite Hd, Hd'.
  - apply updateAgentName_Thrown in Hrun as ->. done.
Qed.

Lemma atomic_updateModelProviderRoute host body :
  atomic (Http.updateModelProviderRoute host body).
Proof.
  intros ag. rewrite updateModelProviderRoute_run.
  destruct body as [error| |fields]; cbn [Http.destructure snd ret throw]; [answered..|].
  destruct (present (Http.asString (Http.provider fields))) as [provider|]; [|answered].
  destruct (isProvider provider); [|answered].
  destruct (updateModelProvider _ _ ag) as [ag' [[]|e]] eqn:Hrun;
    eexists _, _; (split; [reflexivity|]); (split; [apply status_listed; cbn; auto|]); cbn.
  - apply updateModelProvider_effect in Hrun as (Hd & Hd' & _ & _ & _ & _ & _ & Hs & _).
    split; [done|]. split; [done|]. by rewrite Hd, Hd'.
  - apply updateModelProvider_Thrown in Hrun as ->. done.
Qed.

Lemma atomic_getMessagesRoute : atomic Http.getMessagesRoute.
Proof.
  intros ag. eexists _, _.
  (split; [reflexivity|]); (split; [apply status_listed; cbn; auto|]); done.
Qed.

Lemma atomic_testCheckInRoute host workflow : atomic (Http.testCheckInRoute host workflow).
Proof.
  intros ag. rewrite testCheckInRoute_run, executeDailyCheckIn_run.
  destruct (db_fault ag) eqn:Hdb; eexists _, _;
    (split; [reflexivity|]); (split; [apply status_listed; cbn; auto|]); cbn; done.
Qed.

(** The routes one by one. *)
Local Ltac by_routes :=
  unfold Http.onRequest;
  repeat match goal with
         | |- atomic (if ?c then _ else _) => destruct c
         end;
  auto using atomic_sendMessageRoute, atomic_analyzeToneRoute,
    atomic_getRecommendationsRoute, atomic_saveCheckInRoute, atomic_updateNameRoute,
    atomic_updateModelProviderRoute, atomic_getMessagesRoute, atomic_testCheckInRoute.

(** X11. Whatever the request, [onRequest] answers - with 200, 400, 404 or
    500, never by throwing -, leaves the schedules alone, and changes the
    agent only when it answers 200: a request that is refused or fails has no
    effect. *)
Theorem onRequest_is_atomic
    (host : Host) (workflow : option (Eff Agent unit)) (request : Http.Request) (ag : Agent) :
  exists ag' response,
    Http.onRequest host workflow request ag = (ag', Normal response)
    /\ Http.status response ∈ [200; 400; 404; 500]%Z
    /\ (Http.status response <> 200%Z -> ag' = ag)
    /\ schedules ag' = schedules ag
    /\ db_fault ag' = db_fault ag.
Proof.
  revert ag. change (atomic (Http.onRequest host workflow request)).
  by_routes.
  intros ag. eexists _, _.
  (split; [reflexivity|]); (split; [apply status_listed; cbn; auto|]); done.
Qed.

(** X12. The two routes that post a message to the chat
    ([/internal/send-check-in-message] and [/internal/send-message]) answer
    400 exactly when the body can be read - it is JSON and not null - and
    its message is missing or falsy; 500 exactly when the body cannot be read,
    or has a message while the storage fails; and 200 otherwise.  With 200
    the chat has grown by one assistant message, put last, that carries the
    message as given, a text or not; with another status the agent is as it
    was. *)
Theorem sendMessageRoute_delivers (host : Host) (body : Http.Body) (ag : Agent) :
  exists ag' response,
    Http.sendMessageRoute host body ag = (ag', Normal response)
    /\ (Http.status response = 400%Z
        <-> Http.readable body = true
            /\ Http.holding (Http.message (Http.fieldsOf body)) = None)
    /\ (Http.status response = 500%Z
        <-> Http.readable body = false
            \/ (Http.holding (Http.message (Http.fieldsOf body)) <> None
                /\ db_fault ag <> None))
    /\ (Http.status response = 200%Z
        <-> Http.readable body = true
            /\ Http.holding (Http.message (Http.fieldsOf body)) <> None
            /\ db_fault ag = None)
    /\ (forall message,
          Http.status response = 200%Z ->
          Http.message (Http.fieldsOf body) = Some message ->
          ag' = withMessage ag (Message.make (generateId host) "assistant" message
                                  (stamp host)))
    /\ (Http.status response <> 200%Z -> ag' = ag).
Proof.
  rewrite sendMessageRoute_run.
  destruct body as [error| |fields]; cbn [Http.destructure snd ret throw Http.readable Http.fieldsOf].
  1,2: eexists _, _; (split; [reflexivity|]); cbn; intuition congruence.
  destruct (Http.holding (Http.message fields)) as [message|] eqn:Hm.
  - assert (Http.message fields = Some message) as Hgiven.
    { unfold Http.holding in Hm. destruct (Http.message fields) as [value|]; [|done].
      destruct (Http.truthy value); congruence. }
    destruct (db_fault ag) as [e|] eqn:Hdb; eexists _, _; (split; [reflexivity|]); cbn;
      intuition congruence.
  - eexists _, _. (split; [reflexivity|]). cbn. intuition congruence.
Qed.

Lemma analyze_cases message :
  Http.analyze message = ("positive", 7%Q)
  \/ Http.analyze message = ("negative", 7%Q)
  \/ Http.analyze message = ("neutral", 5%Q).
Proof.
  unfold Http.analyze.
  destruct (existsb _ Http.positiveWords); [by left|].
  destruct (existsb _ Http.negativeWords); [right; by left|right; by right].
Qed.

(** X13. Tone analysis over HTTP reads the agent and never changes it.  It
    answers 400 exactly when the body can be read and its message is
    missing or falsy, and 500 exactly when the body cannot be read - it is
    not JSON, or null - or its message is truthy and not a string.  For a
    message that is a string and not empty it answers 200: the tone is one of
    the three tones a check-in is stored with, positive as soon as one of the
    positive keywords occurs (whatever else does), the intensity is 7 for a
    positive or negative tone and 5 for a neutral one, and no keywords are
    reported. *)
Theorem analyzeToneRoute_classifies (body : Http.Body) (ag : Agent) :
  exists response,
    Http.analyzeToneRoute body ag = (ag, Normal response)
    /\ (Http.status response = 400%Z
        <-> Http.readable body = true
            /\ Http.holding (Http.message (Http.fieldsOf body)) = None)
    /\ (Http.status response = 500%Z
        <-> Http.readable body = false
            \/ (Http.holding (Http.message (Http.fieldsOf body)) <> None
                /\ Http.asString (Http.message (Http.fieldsOf body)) = None))
    /\ (forall message,
          present (Http.asString (Http.message (Http.fieldsOf body))) = Some message ->
          exists tone intensity,
            response = Http.mkResponse 200 (Http.Analysis tone intensity [])
            /\ tone ∈ validTones
            /\ storedTone tone = tone
            /\ intensity = (if bool_decide (tone = "neutral") then 5%Q else 7%Q)
            /\ (tone = "positive"
                <-> exists word, word ∈ Http.positiveWords
                                 /\ includes (toLowerCase message) word = true)).
Proof.
  rewrite analyzeToneRoute_run.
  destruct body as [error| |fields]; cbn [Http.destructure snd ret throw Http.readable Http.fieldsOf].
  1,2: eexists; (split; [reflexivity|]); cbn;
    (split; [split; [discriminate|by intros [? _]]|]); (split; [split; [by left|done]|]);
    discriminate.
  destruct (Http.message fields) as [value|]; cbn [Http.holding Http.asString present].
  2:{ eexists; (split; [reflexivity|]); cbn. split; [done|].
      split; [|discriminate]. split; [discriminate|]. intros [?|[? _]]; done. }
  destruct value as [|b|n|message|items|members]; cbn [Http.truthy Http.asString present].
  - eexists; (split; [reflexivity|]); cbn. split; [done|].
    split; [|discriminate]. split; [discriminate|]. intros [?|[? _]]; done.
  - destruct b; eexists; (split; [reflexivity|]); cbn.
    + split; [split; [discriminate|by intros [_ ?]]|]. split; [|discriminate].
      split; [by right|done].
    + split; [done|]. split; [|discriminate]. split; [discriminate|].
      intros [?|[? _]]; done.
  - destruct (negb (Qeq_bool n 0)); eexists; (split; [reflexivity|]); cbn.
    + split; [split; [discriminate|by intros [_ ?]]|]. split; [|discriminate].
      split; [by right|done].
    + split; [done|]. split; [|discriminate]. split; [discriminate|].
      intros [?|[? _]]; done.
  - destruct (truthy message); eexists; (split; [reflexivity|]); cbn.
    2:{ split; [done|]. split; [|discriminate]. split; [discriminate|].
        intros [?|[? _]]; done. }
    split; [split; [discriminate|by intros [_ ?]]|].
    split; [split; [discriminate|intros [?|[_ ?]]; done]|].
    intros ? [= <-]. eexists _, _. split; [reflexivity|].
    assert (fst (Http.analyze message) = "positive"
            <-> exists word, word ∈ Http.positiveWords
                             /\ includes (toLowerCase message) word = true) as Hpos.
    { unfold Http.analyze.
      destruct (existsb _ Http.positiveWords) eqn:Hex.
      - split; [intros _|done].
        apply existsb_exists in Hex as (word & Hin & Hword).
        exists word. split; [by apply list_elem_of_In|done].
      - split.
        + destruct (existsb _ Http.negativeWords); discriminate.
        + intros (word & Hin%list_elem_of_In & Hword).
          assert (existsb (includes (toLowerCase message)) Http.positiveWords = true) as Hyes
            by (apply existsb_exists; by exists word).
          congruence. }
    destruct (analyze_cases message) as [H|[H|H]]; rewrite H in *; cbn [fst snd] in *.
    + split_and!; [|done|done|done]. apply list_elem_of_In. cbn. auto.
    + split_and!; [|done|done|done]. apply list_elem_of_In. cbn. auto.
    + split_and!; [|done|done|done]. apply list_elem_of_In. cbn. auto.
  - eexists; (split; [reflexivity|]); cbn.
    split; [split; [discriminate|by intros [_ ?]]|]. split; [|discriminate].
    split; [by right|done].
  - eexists; (split; [reflexivity|]); cbn.
    split; [split; [discriminate|by intros [_ ?]]|]. split; [|discriminate].
    split; [by right|done].
Qed.

(** X14. Saving a check-in over HTTP, for a body whose summary is a
    string when it is truthy and whose recommendations hold strings when
    they are an array.  400 exactly when the body can be read and the tone
    or the summary is missing or falsy.  200 exactly when the tone is a
    string that is not empty, the summary is not empty, the recommendations
    are missing or an array, the storage answers and, if the day has no row
    yet, the generated id is free - and then the day of the user has a row
    with the tone as stored, the summary and the recommendations of the body
    (none when the body has none).  Else 500: for a body that cannot be
    read, a tone that is not a string, recommendations that are not an array,
    or a failure of the storage.  Unless it answers 200 the agent is as it
    was. *)
Theorem saveCheckInRoute_answers (host : Host) (body : Http.Body) (ag : Agent) :
  let fields := Http.fieldsOf body in
  exists ag' response,
    Http.saveCheckInRoute host body ag = (ag', Normal response)
    /\ Http.status response ∈ [200; 400; 500]%Z
    /\ (Http.status response = 400%Z
        <-> Http.readable body = true
            /\ (Http.holding (Http.emotionalTone fields) = None
                \/ present (Http.summary fields) = None))
    /\ (Http.status response = 200%Z
        <-> present (Http.asString (Http.emotionalTone fields)) <> None
            /\ present (Http.summary fields) <> None
            /\ Http.recommendations fields <> Http.NotArray
            /\ db_fault ag = None
            /\ (List.filter (sameDay (currentUser ag) (isoDate (today host))) (check_ins ag)
                = [] -> generateId host ∉ CheckInRow.id <$> check_ins ag))
    /\ (Http.status response = 200%Z ->
        exists tone summary row rest,
          Http.emotionalTone fields = Some (JString tone)
          /\ Http.summary fields = Some summary
          /\ List.filter (sameDay (currentUser ag) (isoDate (today host))) (check_ins ag')
             = row :: rest
          /\ CheckInRow.emotional_tone row = storedTone tone
          /\ CheckInRow.summary row = summary
          /\ CheckInRow.recommendations row
             = match Http.recommendations fields with
               | Http.Strings items => items
               | _ => []
               end)
    /\ (Http.status response <> 200%Z -> ag' = ag).
Proof.
  cbv zeta. rewrite saveCheckInRoute_run.
  destruct body as [error| |fields]; cbn [Http.destructure snd ret throw Http.readable Http.fieldsOf].
  1,2: eexists _, _; (split; [reflexivity|]); cbn;
    (split; [apply list_elem_of_In; cbn; auto|]); intuition congruence.
  destruct (Http.holding (Http.emotionalTone fields)) as [value|] eqn:Ht.
  2:{ eexists _, _. (split; [reflexivity|]). cbn.
      (split; [apply list_elem_of_In; cbn; auto|]).
      assert (present (Http.asString (Http.emotionalTone fields)) = None) as Hnone.
      { destruct (Http.emotionalTone fields) as [[| | |tone| |]|]; cbn in Ht |- *; try done.
        by destruct (truthy tone). }
      intuition congruence. }
  destruct (present (Http.summary fields)) as [summary|] eqn:Hs.
  2:{ eexists _, _. (split; [reflexivity|]). cbn.
      (split; [apply list_elem_of_In; cbn; auto|]). intuition congruence. }
  assert (Http.emotionalTone fields = Some value /\ Http.truthy value = true) as [Hgiven Htruthy].
  { unfold Http.holding in Ht. destruct (Http.emotionalTone fields) as [v|]; [|done].
    destruct (Http.truthy v) eqn:Hv; [|done]. by injection Ht as ->. }
  apply present_Some in Hs as [Hs Hsne].
  rewrite saveCheckInOf_run, Hgiven.
  destruct (Http.recommendations fields) as [|items|] eqn:Hrecs.
  3:{ eexists _, _. (split; [reflexivity|]). cbn.
      (split; [apply list_elem_of_In; cbn; auto|]). intuition congruence. }
  all: destruct value as [|b|n|tone|others|members]; cbn [Http.asString present];
    try (eexists _, _; (split; [reflexivity|]); cbn;
         (split; [apply list_elem_of_In; cbn; auto|]); intuition congruence).
  all: cbn [Http.truthy] in Htruthy; rewrite Htruthy.
  all: assert (tone ≠ "") as Htne by (by destruct tone).
  all: rewrite saveCheckIn_run, Htruthy, (truthy_true _ Hsne); cbn [negb orb].
  all: destruct (db_fault ag) as [e|] eqn:Hdb;
    [eexists _, _; (split; [reflexivity|]); cbn;
     (split; [apply list_elem_of_In; cbn; auto|]); intuition congruence|].
  all: destruct (List.filter _ (check_ins ag)) as [|r rest] eqn:Hf.
  all: try case_bool_decide as Hid.
  all: eexists _, _; (split; [reflexivity|]); cbn [Http.status check_ins];
    (split; [apply list_elem_of_In; cbn; auto|]).
  all: split; [intuition congruence|].
  all: split; [split; [try discriminate|]; intuition congruence|].
  all: split; [|intuition congruence].
  all: try discriminate.
  all: intros _; eexists tone, summary, _, _; (split; [done|]); (split; [done|]).
  1,3: rewrite List.filter_app, Hf; cbn [List.filter app];
    unfold sameDay at 1, insertedRow; cbn;
    rewrite !bool_decide_eq_true_2 by done; cbn; done.
  all: rewrite filter_rewriteRow, Hf; cbn [fmap list_fmap];
    rewrite rewriteRow_self; done.
Qed.

Lemma updateAgentName_run_blank host newName ag :
  trim newName = "" -> updateAgentName host newName ag = (ag, Thrown "Agent name cannot be empty").
Proof.
  intros Hblank. unfold updateAgentName. rewrite tryCatch_rethrow, Hblank.
  by rewrite orb_true_r.
Qed.

Lemma updateAgentName_run_long host newName ag :
  trim newName ≠ "" -> (50 < String.length newName)%nat ->
  updateAgentName host newName ag = (ag, Thrown "Agent name must be 50 characters or less").
Proof.
  intros Hne Hlong. unfold updateAgentName. rewrite tryCatch_rethrow, length_zero_truthy.
  assert (truthy (trim newName) = true) as -> by (by apply truthy_true).
  assert (truthy newName = true) as ->.
  { destruct newName; [by rewrite trim_empty in Hne|done]. }
  cbn [negb orb]. by rewrite (proj2 (Nat.ltb_lt _ _) Hlong).
Qed.

Lemma updateAgentName_run_ok host newName ag :
  trim newName ≠ "" -> (String.length newName <= 50)%nat -> db_fault ag = None ->
  exists ag', updateAgentName host newName ag = (ag', Normal tt).
Proof.
  intros Hne Hlen Hdb. unfold updateAgentName. rewrite tryCatch_rethrow, length_zero_truthy.
  assert (truthy (trim newName) = true) as -> by (by apply truthy_true).
  assert (truthy newName = true) as ->.
  { destruct newName; [by rewrite trim_empty in Hne|done]. }
  cbn [negb orb]. rewrite (proj2 (Nat.ltb_ge _ _) Hlen).
  erewrite bind_Normal by reflexivity.
  destruct (upsertAgentName_row (orDefault (state ag ≫= MindGuardState.userId) "default")
              (trim newName) (stamp host) ag Hdb) as (rows & row & Hup & _).
  erewrite bind_Normal by exact Hup.
  erewrite bind_Normal by reflexivity. by eexists.
Qed.

Lemma updateAgentName_run_fault host newName ag e :
  trim newName ≠ "" -> (String.length newName <= 50)%nat -> db_fault ag = Some e ->
  updateAgentName host newName ag = (ag, Thrown e).
Proof.
  intros Hne Hlen Hdb. unfold updateAgentName. rewrite tryCatch_rethrow, length_zero_truthy.
  assert (truthy (trim newName) = true) as -> by (by apply truthy_true).
  assert (truthy newName = true) as ->.
  { destruct newName; [by rewrite trim_empty in Hne|done]. }
  cbn [negb orb]. rewrite (proj2 (Nat.ltb_ge _ _) Hlen).
  erewrite bind_Normal by reflexivity.
  by erewrite bind_Thrown by (by apply upsertAgentName_fault).
Qed.

(** X15. Renaming over HTTP.  A body that cannot be read - it is not
    JSON, or null - is answered 500 and changes nothing.  A name that is
    missing, falsy or not a string is refused with 400; a name of white space
    only, or of more than 50 characters as given, is not: it is answered 500,
    with the message of [updateAgentName], like a failure of the storage.
    Any other name is accepted while the storage answers: the response
    repeats the name as it was given, while the name in force from then on is
    the trimmed one. *)
Theorem updateNameRoute_answers (host : Host) (body : Http.Body) (ag : Agent) :
  let given := present (Http.asString (Http.name (Http.fieldsOf body))) in
  exists ag' response,
    Http.updateNameRoute host body ag = (ag', Normal response)
    /\ (Http.readable body = false -> ag' = ag /\ Http.status response = 500%Z)
    /\ (Http.readable body = true -> given = None ->
        ag' = ag /\ response = Http.mkResponse 400 (Http.Error "Invalid name provided"))
    /\ (forall name,
          given = Some name ->
          if bool_decide (trim name = "")
          then ag' = ag
               /\ response = Http.mkResponse 500 (Http.Error "Agent name cannot be empty")
          else if bool_decide (50 < String.length name)%nat
          then ag' = ag
               /\ response = Http.mkResponse 500
                               (Http.Error "Agent name must be 50 characters or less")
          else match db_fault ag with
               | Some e => ag' = ag /\ response = Http.mkResponse 500 (Http.Error e)
               | None =>
                   response = Http.mkResponse 200 (Http.NameUpdated name)
                   /\ getAgentName ag' = (ag', Normal (trim name))
               end).
Proof.
  cbv zeta. rewrite updateNameRoute_run.
  destruct body as [error| |fields]; cbn [Http.destructure snd ret throw Http.readable Http.fieldsOf].
  1,2: eexists _, _; (split; [reflexivity|]); (split; [done|]); (split; [done|]);
    discriminate.
  destruct (present (Http.asString (Http.name fields))) as [name|].
  2:{ eexists _, _. split; [reflexivity|]. split; [done|]. split; [done|]. discriminate. }
  destruct (decide (trim name = "")) as [Hblank|Hblank].
  { rewrite (updateAgentName_run_blank _ _ _ Hblank).
    eexists _, _. split; [reflexivity|]. split; [done|]. split; [discriminate|].
    intros ? [= <-]. by rewrite bool_decide_eq_true_2. }
  destruct (decide (50 < String.length name)%nat) as [Hlong|Hlong].
  { rewrite (updateAgentName_run_long _ _ _ Hblank Hlong).
    eexists _, _. split; [reflexivity|]. split; [done|]. split; [discriminate|].
    intros ? [= <-]. rewrite bool_decide_eq_false_2 by done.
    by rewrite bool_decide_eq_true_2. }
  destruct (db_fault ag) as [e|] eqn:Hdb.
  { rewrite (updateAgentName_run_fault _ _ _ e Hblank ltac:(lia) Hdb).
    eexists _, _. split; [reflexivity|]. split; [done|]. split; [discriminate|].
    intros ? [= <-]. by rewrite !bool_decide_eq_false_2 by done. }
  destruct (updateAgentName_run_ok host name ag Hblank ltac:(lia) Hdb) as [ag' Hrun].
  rewrite Hrun.
  eexists _, _. split; [reflexivity|]. split; [done|]. split; [discriminate|].
  intros ? [= <-]. rewrite !bool_decide_eq_false_2 by done.
  split; [done|].
  apply updateAgentName_effect in Hrun as (_ & _ & _ & _ & Hname & _).
  apply getAgentName_of_state. rewrite Hname. by apply present_truthy.
Qed.

Lemma provider_given (member : option Json) :
  match present (Http.asString member) with
  | Some provider =>
      member = Some (JString provider)
      /\ (isProvider provider = true <-> provider = "openai" \/ provider = "workers-ai")
  | None => member <> Some (JString "openai") /\ member <> Some (JString "workers-ai")
  end.
Proof.
  destruct member as [[| | |provider| |]|]; cbn [Http.asString present]; try done.
  destruct provider as [|c s]; [done|]. cbn [truthy]. split; [done|].
  unfold isProvider. rewrite orb_true_iff, !bool_decide_eq_true. done.
Qed.

(** X16. Choosing the provider over HTTP.  A body that can be read and
    whose provider is anything but one of the two providers, as a string
    spelled exactly, is refused with 400; one of the two is accepted with 200
    while the storage answers, and is what [getModelProvider] answers from
    then on; every other case - a body that is not JSON or is null, or a
    failure of the storage - is answered 500.  Unless it answers 200 the
    agent is as it was. *)
Theorem updateModelProviderRoute_answers (host : Host) (body : Http.Body) (ag : Agent) :
  let given := Http.provider (Http.fieldsOf body) in
  exists ag' response,
    Http.updateModelProviderRoute host body ag = (ag', Normal response)
    /\ (Http.status response = 400%Z
        <-> Http.readable body = true
            /\ given <> Some (JString "openai") /\ given <> Some (JString "workers-ai"))
    /\ (Http.status response = 200%Z
        <-> (given = Some (JString "openai") \/ given = Some (JString "workers-ai"))
            /\ db_fault ag = None)
    /\ (Http.status response = 500%Z
        <-> Http.readable body = false
            \/ ((given = Some (JString "openai") \/ given = Some (JString "workers-ai"))
                /\ db_fault ag <> None))
    /\ (Http.status response = 200%Z ->
        exists provider,
          given = Some (JString provider)
          /\ response = Http.mkResponse 200 (Http.ProviderUpdated provider)
          /\ getModelProvider ag' = (ag', Normal provider))
    /\ (Http.status response <> 200%Z -> ag' = ag).
Proof.
  cbv zeta. rewrite updateModelProviderRoute_run.
  destruct body as [error| |fields]; cbn [Http.destructure snd ret throw Http.readable Http.fieldsOf].
  1,2: eexists _, _; (split; [reflexivity|]); cbn; intuition congruence.
  pose proof (provider_given (Http.provider fields)) as Hgiven.
  destruct (present (Http.asString (Http.provider fields))) as [provider|] eqn:Hp.
  2:{ eexists _, _. split; [reflexivity|]. cbn. intuition congruence. }
  destruct Hgiven as [Hmember Hone]. rewrite Hmember.
  destruct (isProvider provider) eqn:Hvalid.
  2:{ eexists _, _. split; [reflexivity|]. cbn.
      assert (provider <> "openai" /\ provider <> "workers-ai") as [H1 H2].
      { split; intros ->; by destruct Hone as [_ Hone]; discriminate Hone; auto. }
      intuition congruence. }
  assert (Some (JString provider) = Some (JString "openai")
          \/ Some (JString provider) = Some (JString "workers-ai")) as Hlisted.
  { destruct (proj1 Hone eq_refl) as [-> | ->]; auto. }
  destruct (db_fault ag) as [e|] eqn:Hdb.
  { rewrite (updateModelProvider_fault _ _ _ _ Hdb).
    eexists _, _. split; [reflexivity|]. cbn. intuition congruence. }
  destruct (updateModelProvider_ok host provider ag Hdb) as [ag' Hrun]. rewrite Hrun.
  eexists _, _. split; [reflexivity|]. cbn.
  split; [intuition congruence|]. split; [intuition congruence|].
  split; [intuition congruence|]. split; [|intuition congruence].
  intros _. exists provider. split; [done|]. split; [done|].
  apply updateModelProvider_effect in Hrun as (_ & _ & _ & Hprov & _).
  rewrite getModelProvider_run. unfold modelProviderByFallback.
  by rewrite Hprov, present_truthy by (by apply present_Some in Hp as [_ ?]).
Qed.

(** X17. The manual trigger answers 200 in every case - also when the storage
    fails and no prompt could be added to the chat. *)
Theorem testCheckInRoute_always_200
    (host : Host) (workflow : option (Eff Agent unit)) (ag : Agent) :
  exists ag',
    Http.testCheckInRoute host workflow ag
    = (ag', Normal (Http.mkResponse 200 (Http.Triggered "Check-in triggered manually")))
    /\ (db_fault ag <> None -> ag' = ag)
    /\ (db_fault ag = None ->
        messages ag' = messages ag ++ [textMessage host "assistant" Workflow.checkInPrompt]).
Proof.
  rewrite testCheckInRoute_run, executeDailyCheckIn_run.
  destruct (db_fault ag); eexists; (split; [reflexivity|]); cbn; done.
Qed.

(** ** Routing *)

Lemma endsWith_unfold s suffix :
  Http.endsWith s suffix
  = String.eqb s suffix
    || match s with
       | EmptyString => false
       | String _ s' => Http.endsWith s' suffix
       end.
Proof. by destruct s. Qed.

Lemma endsWith_here s suffix : String.eqb s suffix = true -> Http.endsWith s suffix = true.
Proof. intros H. by rewrite endsWith_unfold, H. Qed.

Lemma endsWith_refl s : Http.endsWith s s = true.
Proof. apply endsWith_here, String.eqb_refl. Qed.

Lemma endsWith_cons c s suffix :
  Http.endsWith (String c s) suffix = String.eqb (String c s) suffix || Http.endsWith s suffix.
Proof. reflexivity. Qed.

Lemma endsWith_app a b : Http.endsWith (a +:+ b) b = true.
Proof.
  induction a as [|c a IH]; [apply endsWith_refl|].
  change (String c a +:+ b) with (String c (a +:+ b)).
  by rewrite endsWith_cons, IH, orb_true_r.
Qed.

Lemma onRoute_endsWith pathname route :
  Http.onRoute pathname route = Http.endsWith pathname route.
Proof.
  unfold Http.onRoute. destruct (String.eqb pathname route) eqn:H; [|done].
  by rewrite endsWith_here.
Qed.

(** Two suffixes of one text: one is a suffix of the other. *)
Lemma endsWith_both s r1 r2 :
  Http.endsWith s r1 = true -> Http.endsWith s r2 = true ->
  Http.endsWith r1 r2 = true \/ Http.endsWith r2 r1 = true.
Proof.
  induction s as [|c s IH].
  - rewrite !(endsWith_unfold ""), !orb_false_r.
    intros <-%String.eqb_eq <-%String.eqb_eq. by left.
  - rewrite !endsWith_cons.
    intros [<-%String.eqb_eq|H1]%orb_prop [<-%String.eqb_eq|H2]%orb_prop.
    + left. apply endsWith_refl.
    + left. by rewrite endsWith_cons, H2, orb_true_r.
    + right. by rewrite endsWith_cons, H1, orb_true_r.
    + by apply IH.
Qed.

Lemma routes_exclusive (pathname route1 route2 : string) :
  route1 ∈ routePaths -> route2 ∈ routePaths ->
  Http.onRoute pathname route1 = true -> Http.onRoute pathname route2 = true ->
  route1 = route2.
Proof.
  rewrite !onRoute_endsWith. intros H1 H2 Hs1 Hs2.
  pose proof (endsWith_both _ _ _ Hs1 Hs2) as Hone. clear Hs1 Hs2.
  unfold routePaths in H1, H2.
  repeat (apply elem_of_cons in H1 as [->|H1]);
    try (by apply elem_of_nil in H1);
    repeat (apply elem_of_cons in H2 as [->|H2]);
    try (by apply elem_of_nil in H2);
    try reflexivity;
    by destruct Hone as [Hone|Hone]; vm_compute in Hone.
Qed.

(** X18. No path is on two routes: a path that passes the test of one route of
    [onRequest] fails the test of every other, so the order of the tests
    does not matter. *)
Theorem routes_exclude_one_another (pathname route1 route2 : string) :
  route1 ∈ routePaths -> route2 ∈ routePaths -> route1 ≠ route2 ->
  Http.onRoute pathname route1 = true -> Http.onRoute pathname route2 = false.
Proof.
  intros H1 H2 Hne Hon. destruct (Http.onRoute pathname route2) eqn:Hon2; [|done].
  destruct Hne. by apply (routes_exclusive pathname).
Qed.

Lemma routes_exclude_one_another_witness :
  Http.onRoute "/agents/mindguard/default/internal/send-message"
    "/internal/send-check-in-message" = false.
Proof.
  apply (routes_exclude_one_another "/agents/mindguard/default/internal/send-message"
           "/internal/send-message" "/internal/send-check-in-message").
  - apply list_elem_of_In. cbn. auto 10.
  - apply list_elem_of_In. cbn. auto 10.
  - discriminate.
  - reflexivity.
Defined.

Lemma append_assoc (a b c : string) : (a +:+ b) +:+ c = a +:+ (b +:+ c).
Proof.
  induction a as [|x a IH]; [done|].
  change (String x ((a +:+ b) +:+ c) = String x (a +:+ (b +:+ c))). by rewrite IH.
Qed.

Lemma endsWith_app_other a b route :
  Http.endsWith b route = false -> Http.endsWith route b = false ->
  Http.endsWith (a +:+ b) route = false.
Proof.
  intros Hb Hr. destruct (Http.endsWith (a +:+ b) route) eqn:H; [|done].
  destruct (endsWith_both _ _ _ H (endsWith_app a b)); congruence.
Qed.

Lemma pathnameOf_split request :
  AgentWorld.pathnameOf request
  = ("/agents/mindguard/" +:+ Workflow.agentId request)
    +:+ ("/internal/" +:+ AgentWorld.endpointName (Workflow.route request)).
Proof. unfold AgentWorld.pathnameOf. by rewrite append_assoc. Qed.

(** The requests of the workflow reach the handlers they are meant for,
    whatever the id of the agent in the path. *)
Lemma onRequest_serves_the_workflow
    (host : Host) (workflow : option (Eff Agent unit)) (request : Workflow.Request)
    (body : Http.Body) :
  Http.onRequest host workflow
    (Http.mkRequest (AgentWorld.pathnameOf request) Http.POST body)
  = match Workflow.route request with
    | Workflow.SendCheckInMessage | Workflow.SendMessage => Http.sendMessageRoute host body
    | Workflow.AnalyzeTone => Http.analyzeToneRoute body
    | Workflow.GetRecommendations => Http.getRecommendationsRoute body
    | Workflow.SaveCheckIn => Http.saveCheckInRoute host body
    end.
Proof.
  unfold Http.onRequest. cbn [Http.pathname Http.method Http.isPOST Http.body].
  rewrite !onRoute_endsWith, pathnameOf_split.
  destruct (Workflow.route request); cbn [AgentWorld.endpointName];
    repeat first
      [ rewrite endsWith_app_other by reflexivity
      | rewrite endsWith_app ];
    reflexivity.
Qed.

(** ** The shape of a cycle *)

Lemma sound_step input requests k request :
  sound input requests ->
  Workflow.workerUrl request = Workflow.workerUrlOf input ->
  Workflow.agentId request = Workflow.inputAgentId input ->
  request <> Workflow.reminderRequest input ->
  sound input (requests ++ replicate k request).
Proof.
  intros [Hall Hnot] Hurl Hagent Hne. split.
  - apply Forall_app. split; [done|]. by apply Forall_replicate.
  - intros [Hin|Hin]%elem_of_app; [done|].
    apply elem_of_replicate_inv in Hin. congruence.
Qed.

Local Ltac traced :=
  unfold attempted; cbn [zip_with happyPath concat];
  rewrite ?fmap_app, ?fmap_replicate, ?app_nil_r, <- ?app_assoc; reflexivity.

Local Ltac counted :=
  repeat (constructor; [lia|]); constructor.

Local Ltac still_sound Hstep Hbefore Hdiffers Hafter :=
  match type of Hstep with
  | _ = (?c, _) =>
      assert (sound _ (Workflow.issued c)) as Hafter
        by (cbn [Workflow.issued]; apply sound_step;
            [exact Hbefore|reflexivity|reflexivity|Hdiffers])
  end;
  cbn [Workflow.issued] in Hafter.

(** X19. Whatever the endpoints answer and whenever the reply comes, the
    requests of a cycle all go to the agent of the input, and the endpoints
    they go to are a non-empty beginning of the five of a full cycle, each
    repeated as often as its step was attempted: at least once, and at most
    once more than the runtime retries.  The cycle ends normally only when
    all five were reached; tone analysis is requested, and the cycle ends
    normally, only for a reply that came before the timeout of the wait; and
    the reminder is never sent. *)
Theorem run_trace_shape {World : Type}
    (fetch : Workflow.Request -> Eff World Workflow.Response) (runtime : Workflow.Runtime)
    (input : Workflow.CheckInWorkflowInput) (arrival : Workflow.Arrival) (w : World) :
  let result := Workflow.run fetch runtime input arrival (Workflow.mkCycle w []) in
  let trace := Workflow.route <$> Workflow.issued (fst result) in
  Forall (fun request =>
            Workflow.workerUrl request = Workflow.workerUrlOf input
            /\ Workflow.agentId request = Workflow.inputAgentId input)
    (Workflow.issued (fst result))
  /\ (exists counts,
        trace = attempted counts
        /\ (1 <= length counts <= 5)%nat
        /\ Forall (fun k => (1 <= k <= S (Workflow.retryLimit runtime))%nat) counts
        /\ (snd result = Normal tt -> length counts = 5%nat)
        /\ ((2 <= length counts)%nat -> inTime arrival))
  /\ (Workflow.AnalyzeTone ∈ trace -> inTime arrival)
  /\ (snd result = Normal tt -> inTime arrival)
  /\ Workflow.reminderRequest input ∉ Workflow.issued (fst result).
Proof.
  cbv zeta.
  enough (exists counts,
            sound input (Workflow.issued
                           (fst (Workflow.run fetch runtime input arrival
                                   (Workflow.mkCycle w []))))
            /\ Workflow.route
                 <$> Workflow.issued (fst (Workflow.run fetch runtime input arrival
                                             (Workflow.mkCycle w [])))
               = attempted counts
            /\ (1 <= length counts <= 5)%nat
            /\ Forall (fun k => (1 <= k <= S (Workflow.retryLimit runtime))%nat) counts
            /\ (snd (Workflow.run fetch runtime input arrival (Workflow.mkCycle w []))
                = Normal tt -> length counts = 5%nat)
            /\ ((2 <= length counts)%nat -> inTime arrival))
    as (counts & [Hall Hnot] & Htrace & Hlen & Hcounts & Hend & Hin).
  { split; [exact Hall|]. split; [by exists counts|].
    split; [|split; [|exact Hnot]].
    - rewrite Htrace. intros Hanalyze. apply Hin.
      destruct counts as [|k1 [|k2 rest]]; [cbn in Hlen; lia| |cbn; lia].
      unfold attempted in Hanalyze. cbn [zip_with happyPath concat] in Hanalyze.
      rewrite app_nil_r in Hanalyze. by apply elem_of_replicate_inv in Hanalyze.
    - intros Hnormal. apply Hin. rewrite (Hend Hnormal). lia. }
  unfold Workflow.run. fold (Workflow.workerUrlOf input).
  set (url := Workflow.workerUrlOf input). set (agent := Workflow.inputAgentId input).
  assert (sound input []) as Hsound0 by (split; [constructor|by intros ?%elem_of_nil]).
  (* the prompt *)
  destruct (attempts_checked fetch (Workflow.retryLimit runtime)
              (Workflow.mkRequest url agent Workflow.SendCheckInMessage
                 (Workflow.MessagePayload Workflow.checkInPrompt))
              (fun response =>
                 "Failed to send check-in message: " +:+ Workflow.statusText response)
              (fun _ => tt) (Workflow.mkCycle w []))
    as (k1 & w1 & out1 & Hstep1 & Hk1 & _).
  cbn [Workflow.issued] in Hstep1.
  still_sound Hstep1 Hsound0 discriminate Hsound1.
  destruct out1 as [[]|e1].
  2:{ erewrite bind_Thrown by exact Hstep1. cbn [fst snd Workflow.issued].
      exists [k1]. split; [exact Hsound1|]. split; [traced|]. split; [cbn; lia|].
      split; [counted|]. split; [discriminate|cbn; lia]. }
  erewrite bind_Normal by exact Hstep1.
  (* the wait *)
  assert ((exists after text, arrival = Some (after, text) /\ (after < Workflow.deadline)%Z)
          \/ (forall after text, arrival = Some (after, text) ->
                (Workflow.deadline <= after)%Z)) as [(after & text & -> & Hlt)|Hlate].
  { destruct arrival as [[after text]|]; [|right; discriminate].
    destruct (decide (after < Workflow.deadline)%Z) as [Hlt|Hge].
    - left. by exists after, text.
    - right. intros ? ? [= <- <-]. lia. }
  2:{ erewrite bind_Thrown by (by apply waitForEvent_timeout).
      cbn [fst snd Workflow.issued].
      exists [k1]. split; [exact Hsound1|]. split; [traced|]. split; [cbn; lia|].
      split; [counted|]. split; [discriminate|cbn; lia]. }
  assert (inTime (Some (after, text))) as Hin by (by exists after, text).
  erewrite bind_Normal by (by apply waitForEvent_in_time).
  cbv beta iota.
  (* tone analysis *)
  destruct (attempts_checked fetch (Workflow.retryLimit runtime)
              (Workflow.mkRequest url agent Workflow.AnalyzeTone (Workflow.MessagePayload text))
              (fun response => "Failed to analyze tone: " +:+ Workflow.statusText response)
              Workflow.json
              (Workflow.mkCycle w1
                 ([] ++ replicate k1
                          (Workflow.mkRequest url agent Workflow.SendCheckInMessage
                             (Workflow.MessagePayload Workflow.checkInPrompt)))))
    as (k2 & w2 & out2 & Hstep2 & Hk2 & _).
  cbn [Workflow.issued] in Hstep2.
  still_sound Hstep2 Hsound1 discriminate Hsound2.
  destruct out2 as [analysis|e2].
  2:{ erewrite bind_Thrown by exact Hstep2. cbn [fst snd Workflow.issued].
      exists [k1; k2]. split; [exact Hsound2|]. split; [traced|]. split; [cbn; lia|].
      split; [counted|]. split; [discriminate|done]. }
  erewrite bind_Normal by exact Hstep2.
  (* the recommendations *)
  match type of Hstep2 with
  | _ = (?c, _) =>
      destruct (attempts_checked fetch (Workflow.retryLimit runtime)
                  (Workflow.mkRequest url agent Workflow.GetRecommendations
                     (Workflow.TonePayload (Workflow.tone analysis)
                        (Workflow.intensityOr5 (Workflow.intensity analysis))))
                  (fun response =>
                     "Failed to get recommendations: " +:+ Workflow.statusText response)
                  Workflow.json c)
        as (k3 & w3 & out3 & Hstep3 & Hk3 & _)
  end.
  cbn [Workflow.issued] in Hstep3.
  still_sound Hstep3 Hsound2 discriminate Hsound3.
  destruct out3 as [recommendationsResult|e3].
  2:{ erewrite bind_Thrown by exact Hstep3. cbn [fst snd Workflow.issued].
      exists [k1; k2; k3]. split; [exact Hsound3|]. split; [traced|]. split; [cbn; lia|].
      split; [counted|]. split; [discriminate|done]. }
  erewrite bind_Normal by exact Hstep3.
  (* the save *)
  match type of Hstep3 with
  | _ = (?c, _) =>
      destruct (attempts_checked fetch (Workflow.retryLimit runtime)
                  (Workflow.mkRequest url agent Workflow.SaveCheckIn
                     (Workflow.CheckInPayload (Workflow.tone analysis)
                        ("Daily check-in: User reported feeling "
                         +:+ Workflow.shown (Workflow.tone analysis)
                         +:+ ". Response: " +:+ String.substring 0 200 text +:+ "...")
                        (default [] (Workflow.recommendations recommendationsResult))))
                  (fun response => "Failed to save check-in: " +:+ Workflow.statusText response)
                  (fun _ => tt) c)
        as (k4 & w4 & out4 & Hstep4 & Hk4 & _)
  end.
  cbn [Workflow.issued] in Hstep4.
  still_sound Hstep4 Hsound3 discriminate Hsound4.
  destruct out4 as [[]|e4].
  2:{ erewrite bind_Thrown by exact Hstep4. cbn [fst snd Workflow.issued].
      exists [k1; k2; k3; k4]. split; [exact Hsound4|]. split; [traced|]. split; [cbn; lia|].
      split; [counted|]. split; [discriminate|done]. }
  erewrite bind_Normal by exact Hstep4.
  (* the summary *)
  match type of Hstep4 with
  | _ = (?c, _) =>
      destruct (attempts_checked fetch (Workflow.retryLimit runtime)
                  (Workflow.mkRequest url agent Workflow.SendMessage
                     (Workflow.MessagePayload
                        (Workflow.summaryMessage (Workflow.tone analysis)
                           (Workflow.recommendations recommendationsResult))))
                  (fun response => "Failed to send summary: " +:+ Workflow.statusText response)
                  (fun _ => tt) c)
        as (k5 & w5 & out5 & Hstep5 & Hk5 & _)
  end.
  cbn [Workflow.issued] in Hstep5.
  assert (Workflow.mkRequest url agent Workflow.SendMessage
            (Workflow.MessagePayload
               (Workflow.summaryMessage (Workflow.tone analysis)
                  (Workflow.recommendations recommendationsResult)))
          <> Workflow.reminderRequest input) as Hsummary.
  { intros Heq. discriminate Heq. }
  still_sound Hstep5 Hsound4 ltac:(exact Hsummary) Hsound5.
  match goal with
  | |- context [fst ?r] => replace r with
        (Workflow.mkCycle w5
           (((((([] ++ replicate k1
                         (Workflow.mkRequest url agent Workflow.SendCheckInMessage
                            (Workflow.MessagePayload Workflow.checkInPrompt)))
                ++ replicate k2
                     (Workflow.mkRequest url agent Workflow.AnalyzeTone
                        (Workflow.MessagePayload text)))
               ++ replicate k3
                    (Workflow.mkRequest url agent Workflow.GetRecommendations
                       (Workflow.TonePayload (Workflow.tone analysis)
                          (Workflow.intensityOr5 (Workflow.intensity analysis)))))
              ++ replicate k4
                   (Workflow.mkRequest url agent Workflow.SaveCheckIn
                      (Workflow.CheckInPayload (Workflow.tone analysis)
                         ("Daily check-in: User reported feeling "
                          +:+ Workflow.shown (Workflow.tone analysis)
                          +:+ ". Response: " +:+ String.substring 0 200 text +:+ "...")
                         (default [] (Workflow.recommendations recommendationsResult)))))
             ++ replicate k5
                  (Workflow.mkRequest url agent Workflow.SendMessage
                     (Workflow.MessagePayload
                        (Workflow.summaryMessage (Workflow.tone analysis)
                           (Workflow.recommendations recommendationsResult)))))),
         out5) by (symmetry; exact Hstep5)
  end.
  cbn [fst snd Workflow.issued].
  exists [k1; k2; k3; k4; k5]. split; [exact Hsound5|]. split; [traced|]. split; [cbn; lia|].
  split; [counted|]. split; done.
Qed.

(** ** A cycle against the agent *)

Lemma fetch_run hosts workflow reasonPhrase request ag :
  AgentWorld.fetch hosts workflow reasonPhrase request ag =
    match Http.onRequest (hosts (Workflow.route request)) workflow
            (Http.mkRequest (AgentWorld.pathnameOf request) Http.POST
               (AgentWorld.bodyOf (Workflow.payload request))) ag with
    | (ag', Normal response) =>
        (ag', Normal (Workflow.mkResponse
                        ((200 <=? Http.status response)%Z && (Http.status response <=? 299)%Z)
                        (reasonPhrase (Http.status response))
                        (AgentWorld.jsonOf (Http.payload response))))
    | (ag', Thrown e) => (ag', Thrown e)
    end.
Proof. reflexivity. Qed.

Lemma fetch_message hosts workflow reasonPhrase url agentId route text ag :
  route = Workflow.SendCheckInMessage \/ route = Workflow.SendMessage ->
  text ≠ "" -> db_fault ag = None ->
  AgentWorld.fetch hosts workflow reasonPhrase
    (Workflow.mkRequest url agentId route (Workflow.MessagePayload text)) ag
  = (withMessage ag (textMessage (hosts route) "assistant" text),
     Normal (Workflow.mkResponse true (reasonPhrase 200%Z) (Workflow.mkJson None None None))).
Proof.
  intros Hroute Hne Hdb. rewrite fetch_run, onRequest_serves_the_workflow.
  cbn [Workflow.route Workflow.payload AgentWorld.bodyOf].
  assert (Http.sendMessageRoute (hosts route)
            (Http.Members
               (Http.mkFields None None (Some (JString text)) None None None Http.Absent)) ag
          = (withMessage ag (textMessage (hosts route) "assistant" text),
             Normal (Http.mkResponse 200 Http.Success))) as Hsend.
  { rewrite sendMessageRoute_run.
    cbn [Http.destructure snd ret Http.message Http.holding Http.truthy].
    by rewrite (truthy_true _ Hne), Hdb. }
  destruct Hroute as [-> | ->]; by rewrite Hsend.
Qed.

Lemma fetch_message_fault hosts workflow reasonPhrase url agentId route text ag e :
  route = Workflow.SendCheckInMessage \/ route = Workflow.SendMessage ->
  text ≠ "" -> db_fault ag = Some e ->
  AgentWorld.fetch hosts workflow reasonPhrase
    (Workflow.mkRequest url agentId route (Workflow.MessagePayload text)) ag
  = (ag, Normal (Workflow.mkResponse false (reasonPhrase 500%Z)
                   (Workflow.mkJson None None None))).
Proof.
  intros Hroute Hne Hdb. rewrite fetch_run, onRequest_serves_the_workflow.
  cbn [Workflow.route Workflow.payload AgentWorld.bodyOf].
  assert (Http.sendMessageRoute (hosts route)
            (Http.Members
               (Http.mkFields None None (Some (JString text)) None None None Http.Absent)) ag
          = (ag, Normal (Http.mkResponse 500 (Http.Error e)))) as Hsend.
  { rewrite sendMessageRoute_run.
    cbn [Http.destructure snd ret Http.message Http.holding Http.truthy].
    by rewrite (truthy_true _ Hne), Hdb. }
  destruct Hroute as [-> | ->]; by rewrite Hsend.
Qed.

Lemma fetch_analysis hosts workflow reasonPhrase url agentId text ag :
  AgentWorld.fetch hosts workflow reasonPhrase
    (Workflow.mkRequest url agentId Workflow.AnalyzeTone (Workflow.MessagePayload text)) ag
  = (ag,
     Normal (if truthy text
             then Workflow.mkResponse true (reasonPhrase 200%Z)
                    (Workflow.mkJson (Some (fst (Http.analyze text)))
                       (Some (snd (Http.analyze text))) None)
             else Workflow.mkResponse false (reasonPhrase 400%Z)
                    (Workflow.mkJson None None None))).
Proof.
  rewrite fetch_run, onRequest_serves_the_workflow.
  cbn [Workflow.route Workflow.payload AgentWorld.bodyOf].
  rewrite analyzeToneRoute_run.
  cbn [Http.destructure snd ret Http.message Http.holding Http.truthy].
  by destruct text.
Qed.

Lemma fetch_recommendations hosts workflow reasonPhrase url agentId tone intensity ag :
  AgentWorld.fetch hosts workflow reasonPhrase
    (Workflow.mkRequest url agentId Workflow.GetRecommendations
       (Workflow.TonePayload tone intensity)) ag
  = (ag,
     Normal (Workflow.mkResponse true (reasonPhrase 200%Z)
               (Workflow.mkJson None None
                  match default (Endpoint.Items Endpoint.neutralList)
                          (Endpoint.lookup (toLowerCase (default "neutral" tone))) with
                  | Endpoint.Items items => Some items
                  | _ => None
                  end))).
Proof.
  rewrite fetch_run, onRequest_serves_the_workflow.
  cbn [Workflow.route Workflow.payload AgentWorld.bodyOf].
  unfold Http.getRecommendationsRoute, Endpoint.getRecommendations.
  destruct tone as [tone|];
    cbv [bind tryCatch ret Http.json Http.destructure Http.emotionalTone Http.intensity
         Endpoint.status Endpoint.body fmap option_fmap option_map];
    by destruct (default _ (Endpoint.lookup _)).
Qed.

Lemma fetch_save hosts workflow reasonPhrase url agentId tone summary recs ag :
  tone ≠ "" -> summary ≠ "" ->
  AgentWorld.fetch hosts workflow reasonPhrase
    (Workflow.mkRequest url agentId Workflow.SaveCheckIn
       (Workflow.CheckInPayload (Some tone) summary recs)) ag
  = match saveCheckIn (hosts Workflow.SaveCheckIn) tone summary recs ag with
    | (ag', Normal _) =>
        (ag', Normal (Workflow.mkResponse true (reasonPhrase 200%Z)
                        (Workflow.mkJson None None None)))
    | (ag', Thrown e) =>
        (ag', Normal (Workflow.mkResponse false (reasonPhrase 500%Z)
                        (Workflow.mkJson None None None)))
    end.
Proof.
  intros Ht Hs. rewrite fetch_run, onRequest_serves_the_workflow.
  cbn [Workflow.route Workflow.payload AgentWorld.bodyOf].
  rewrite saveCheckInRoute_run.
  cbn [Http.destructure snd ret Http.emotionalTone Http.summary Http.recommendations
       fmap option_fmap option_map Http.holding Http.truthy].
  rewrite (truthy_true _ Ht), present_truthy by done.
  rewrite saveCheckInOf_run.
  by destruct (saveCheckIn _ _ _ _ ag) as [ag' [[]|e]].
Qed.

Lemma saveCheckIn_ok_row host tone summary recs ag :
  tone ≠ "" -> summary ≠ "" -> db_fault ag = None ->
  (List.filter (sameDay (currentUser ag) (isoDate (today host))) (check_ins ag) = []
   -> generateId host ∉ CheckInRow.id <$> check_ins ag) ->
  exists ag' row rest,
    saveCheckIn host tone summary recs ag = (ag', Normal tt)
    /\ List.filter (sameDay (currentUser ag) (isoDate (today host))) (check_ins ag')
       = row :: rest
    /\ CheckInRow.emotional_tone row = storedTone tone
    /\ CheckInRow.summary row = summary
    /\ CheckInRow.recommendations row = recs
    /\ db_fault ag' = None /\ messages ag' = messages ag
    /\ schedules ag' = schedules ag /\ user_preferences ag' = user_preferences ag.
Proof.
  intros Ht Hs Hdb Hfree.
  rewrite saveCheckIn_run, (truthy_true _ Ht), (truthy_true _ Hs), Hdb. cbn [negb orb].
  destruct (List.filter _ (check_ins ag)) as [|r rest] eqn:Hf.
  - rewrite bool_decide_eq_false_2 by auto.
    eexists _, _, _. split; [reflexivity|]. cbn [check_ins].
    rewrite List.filter_app, Hf. cbn [List.filter app].
    unfold sameDay at 1, insertedRow. cbn.
    rewrite !bool_decide_eq_true_2 by done. cbn. done.
  - eexists _, _, _. split; [reflexivity|]. cbn [check_ins].
    rewrite filter_rewriteRow, Hf. cbn [fmap list_fmap].
    rewrite rewriteRow_self. done.
Qed.

Lemma analyze_tone_listed text :
  exists recs,
    Endpoint.lookup (toLowerCase (fst (Http.analyze text))) = Some (Endpoint.Items recs)
    /\ Endpoint.lookup (fst (Http.analyze text)) = Some (Endpoint.Items recs)
    /\ storedTone (fst (Http.analyze text)) = fst (Http.analyze text)
    /\ fst (Http.analyze text) ≠ ""
    /\ length recs = 3%nat.
Proof.
  destruct (analyze_cases text) as [H|[H|H]]; rewrite H; eexists; by split_and!.
Qed.

(** X20. A whole cycle against the agent itself.  When the reply comes before
    the timeout of the wait and is not empty, the storage answers and the ledger can take the row,
    the five requests are served in order and the cycle ends normally: the
    chat holds the prompt and then the summary; the user of the agent state -
    not the user named in the input of the workflow - has a row for the day
    with the tone the keyword analysis gave, a summary that quotes at most 200
    characters of the reply, and the three recommendations of the endpoint
    for that tone, the same that the summary message lists. *)
Theorem cycle_on_the_agent
    (hosts : Workflow.Route -> Host) (workflow : option (Eff Agent unit))
    (reasonPhrase : Z -> string) (runtime : Workflow.Runtime)
    (input : Workflow.CheckInWorkflowInput) (after : Z) (reply : string) (ag : Agent) :
  (after < Workflow.deadline)%Z ->
  reply ≠ "" ->
  db_fault ag = None ->
  (List.filter (sameDay (currentUser ag) (isoDate (today (hosts Workflow.SaveCheckIn))))
     (check_ins ag) = []
   -> generateId (hosts Workflow.SaveCheckIn) ∉ CheckInRow.id <$> check_ins ag) ->
  let tone := fst (Http.analyze reply) in
  exists ag' c recs row rest,
    Workflow.run (AgentWorld.fetch hosts workflow reasonPhrase) runtime input
      (Some (after, reply)) (Workflow.mkCycle ag []) = (c, Normal tt)
    /\ Workflow.world c = ag'
    /\ Workflow.route <$> Workflow.issued c = happyPath
    /\ Endpoint.lookup tone = Some (Endpoint.Items recs)
    /\ messages ag'
       = messages ag
         ++ [textMessage (hosts Workflow.SendCheckInMessage) "assistant"
               Workflow.checkInPrompt;
             textMessage (hosts Workflow.SendMessage) "assistant"
               (Workflow.summaryMessage (Some tone) (Some recs))]
    /\ List.filter
         (sameDay (currentUser ag) (isoDate (today (hosts Workflow.SaveCheckIn))))
         (check_ins ag') = row :: rest
    /\ CheckInRow.emotional_tone row = tone
    /\ CheckInRow.summary row
       = "Daily check-in: User reported feeling " +:+ tone +:+ ". Response: "
         +:+ String.substring 0 200 reply +:+ "..."
    /\ CheckInRow.recommendations row = recs
    /\ schedules ag' = schedules ag
    /\ user_preferences ag' = user_preferences ag.
Proof.
  intros Hin Hreply Hdb Hfree tone.
  destruct (analyze_tone_listed reply) as (recs & Hlookup & Hlisted & Hstored & Htone & _).
  fold tone in Hlookup, Hlisted, Hstored, Htone.
  set (summary := "Daily check-in: User reported feeling " +:+ tone +:+ ". Response: "
                  +:+ String.substring 0 200 reply +:+ "...").
  set (ag1 := withMessage ag (textMessage (hosts Workflow.SendCheckInMessage) "assistant"
                                Workflow.checkInPrompt)).
  destruct (saveCheckIn_ok_row (hosts Workflow.SaveCheckIn) tone summary recs ag1)
    as (ag2 & row & rest & Hsave & Hrow & Hrt & Hrs & Hrr & Hdb2 & Hm2 & Hs2 & Hp2);
    [done|done|done|exact Hfree|].
  rewrite Hstored in Hrt.
  exists (withMessage ag2 (textMessage (hosts Workflow.SendMessage) "assistant"
                             (Workflow.summaryMessage (Some tone) (Some recs)))).
  eexists _, recs, row, rest.
  split.
  - unfold Workflow.run. fold (Workflow.workerUrlOf input).
    erewrite bind_Normal.
    2:{ apply stepDo_Normal.
        erewrite bind_Normal
          by (apply post_Normal; cbn [Workflow.world];
              by apply fetch_message; [left| |]).
        reflexivity. }
    erewrite bind_Normal by (by apply waitForEvent_in_time).
    cbv beta iota.
    erewrite bind_Normal.
    2:{ apply stepDo_Normal.
        erewrite bind_Normal
          by (apply post_Normal; cbn [Workflow.world]; apply fetch_analysis).
        rewrite (truthy_true _ Hreply). reflexivity. }
    cbn [Workflow.json Workflow.tone Workflow.intensity]. fold tone.
    erewrite bind_Normal.
    2:{ apply stepDo_Normal.
        erewrite bind_Normal
          by (apply post_Normal; cbn [Workflow.world]; apply fetch_recommendations).
        reflexivity. }
    cbv beta iota.
    cbn [Workflow.json Workflow.recommendations Workflow.tone Workflow.shown
         default from_option id].
    rewrite Hlookup. cbn [default from_option id].
    fold summary.
    erewrite bind_Normal.
    2:{ apply stepDo_Normal.
        erewrite bind_Normal
          by (apply post_Normal; cbn [Workflow.world];
              rewrite fetch_save by done; fold ag1; rewrite Hsave; reflexivity).
        reflexivity. }
    apply stepDo_Normal.
    erewrite bind_Normal
      by (apply post_Normal; cbn [Workflow.world];
          apply fetch_message; [by right| |exact Hdb2]; done).
    reflexivity.
  - cbn [Workflow.world Workflow.issued]. split; [reflexivity|].
    split; [reflexivity|]. split; [exact Hlisted|].
    split_and!.
    + cbn [withMessage messages]. rewrite Hm2. subst ag1. cbn [withMessage messages].
      by rewrite <- app_assoc.
    + exact Hrow.
    + exact Hrt.
    + exact Hrs.
    + exact Hrr.
    + cbn [withMessage schedules]. by rewrite Hs2.
    + cbn [withMessage user_preferences]. by rewrite Hp2.
Qed.

Lemma cycle_on_the_agent_witness :
  exists ag' c recs row rest,
    Workflow.run (AgentWorld.fetch cycleHosts None reasonPhraseOf) Workflow.defaultRuntime
      Workflow.sampleInput (Some (2400%Z, "Feeling GREAT after a sad week"))
      (Workflow.mkCycle seasoned [])
    = (c, Normal tt)
    /\ Workflow.world c = ag'
    /\ Workflow.route <$> Workflow.issued c = happyPath
    /\ Endpoint.lookup "positive" = Some (Endpoint.Items recs)
    /\ messages ag'
       = [textMessage (cycleHosts Workflow.SendCheckInMessage) "assistant"
            Workflow.checkInPrompt;
          textMessage (cycleHosts Workflow.SendMessage) "assistant"
            (Workflow.summaryMessage (Some "positive") (Some recs))]
    /\ List.filter (sameDay "ada" "2026-11-03") (check_ins ag') = row :: rest
    /\ CheckInRow.emotional_tone row = "positive"
    /\ CheckInRow.summary row
       = "Daily check-in: User reported feeling positive. Response: Feeling GREAT after a sad week..."
    /\ CheckInRow.recommendations row = recs
    /\ schedules ag' = []
    /\ user_preferences ag' = user_preferences seasoned.
Proof.
  apply (cycle_on_the_agent cycleHosts None reasonPhraseOf Workflow.defaultRuntime
           Workflow.sampleInput 2400%Z "Feeling GREAT after a sad week" seasoned).
  - reflexivity.
  - discriminate.
  - reflexivity.
  - intros Hnone. vm_compute in Hnone. discriminate.
Defined.

(** X21. An empty reply that comes before the timeout of the wait stops
    the cycle at tone analysis, which refuses it with 400 at every attempt
    the runtime makes of the step: behind the prompt the analysis was
    requested once and once more for each retry, the chat holds the prompt
    and nothing else happened - no row, no summary, no reminder. *)
Theorem cycle_with_empty_reply
    (hosts : Workflow.Route -> Host) (workflow : option (Eff Agent unit))
    (reasonPhrase : Z -> string) (runtime : Workflow.Runtime)
    (input : Workflow.CheckInWorkflowInput) (after : Z) (ag : Agent) :
  (after < Workflow.deadline)%Z ->
  db_fault ag = None ->
  Workflow.run (AgentWorld.fetch hosts workflow reasonPhrase) runtime input
    (Some (after, "")) (Workflow.mkCycle ag [])
  = (Workflow.mkCycle
       (withMessage ag (textMessage (hosts Workflow.SendCheckInMessage) "assistant"
                          Workflow.checkInPrompt))
       (Workflow.promptRequest input
        :: replicate (S (Workflow.retryLimit runtime)) (Workflow.analyzeRequest input "")),
     Thrown ("Failed to analyze tone: " +:+ reasonPhrase 400%Z)).
Proof.
  intros Hin Hdb.
  unfold Workflow.run. fold (Workflow.workerUrlOf input).
  erewrite bind_Normal.
  2:{ apply stepDo_Normal.
      erewrite bind_Normal
        by (apply post_Normal; cbn [Workflow.world];
            by apply fetch_message; [left| |]).
      reflexivity. }
  erewrite bind_Normal by (by apply waitForEvent_in_time).
  cbv beta iota.
  erewrite bind_Thrown; [reflexivity|].
  exact (attempts_refused (AgentWorld.fetch hosts workflow reasonPhrase)
           (Workflow.retryLimit runtime) (Workflow.analyzeRequest input "")
           (fun response => "Failed to analyze tone: " +:+ Workflow.statusText response)
           Workflow.json
           (Workflow.mkCycle
              (withMessage ag (textMessage (hosts Workflow.SendCheckInMessage) "assistant"
                                 Workflow.checkInPrompt))
              [Workflow.promptRequest input])
           _ (fetch_analysis _ _ _ _ _ _ _) eq_refl).
Qed.

Lemma cycle_with_empty_reply_witness :
  Workflow.run (AgentWorld.fetch cycleHosts None reasonPhraseOf) Workflow.defaultRuntime
    Workflow.sampleInput (Some (2400%Z, "")) (Workflow.mkCycle seasoned [])
  = (Workflow.mkCycle
       (withMessage seasoned (textMessage (cycleHosts Workflow.SendCheckInMessage) "assistant"
                                Workflow.checkInPrompt))
       (Workflow.promptRequest Workflow.sampleInput
        :: replicate 6 (Workflow.analyzeRequest Workflow.sampleInput "")),
     Thrown "Failed to analyze tone: Bad Request").
Proof.
  apply (cycle_with_empty_reply cycleHosts None reasonPhraseOf Workflow.defaultRuntime
           Workflow.sampleInput 2400%Z seasoned).
  - reflexivity.
  - reflexivity.
Defined.

(** X22. While the storage fails, a cycle stops at its first step, whatever
    the reply: the prompt is answered 500 at every attempt the runtime makes
    - once, and once more for each retry -, no other request is issued and
    the agent is as before. *)
Theorem cycle_with_storage_down
    (hosts : Workflow.Route -> Host) (workflow : option (Eff Agent unit))
    (reasonPhrase : Z -> string) (runtime : Workflow.Runtime)
    (input : Workflow.CheckInWorkflowInput) (arrival : Workflow.Arrival) (ag : Agent)
    (e : string) :
  db_fault ag = Some e ->
  Workflow.run (AgentWorld.fetch hosts workflow reasonPhrase) runtime input arrival
    (Workflow.mkCycle ag [])
  = (Workflow.mkCycle ag
       (replicate (S (Workflow.retryLimit runtime)) (Workflow.promptRequest input)),
     Thrown ("Failed to send check-in message: " +:+ reasonPhrase 500%Z)).
Proof.
  intros Hdb.
  unfold Workflow.run. fold (Workflow.workerUrlOf input).
  erewrite bind_Thrown; [reflexivity|].
  refine (attempts_refused (AgentWorld.fetch hosts workflow reasonPhrase)
            (Workflow.retryLimit runtime) (Workflow.promptRequest input)
            (fun response =>
               "Failed to send check-in message: " +:+ Workflow.statusText response)
            (fun _ => tt) (Workflow.mkCycle ag [])
            (Workflow.mkResponse false (reasonPhrase 500%Z) (Workflow.mkJson None None None))
            _ eq_refl).
  cbn [Workflow.world]. by eapply fetch_message_fault; [left| |].
Qed.

Lemma cycle_with_storage_down_witness :
  let down := mkAgent None [] [] (Some "SQLITE_BUSY") [] [] in
  Workflow.run (AgentWorld.fetch cycleHosts None reasonPhraseOf) Workflow.defaultRuntime
    Workflow.sampleInput (Some (2400%Z, "fine")) (Workflow.mkCycle down [])
  = (Workflow.mkCycle down (replicate 6 (Workflow.promptRequest Workflow.sampleInput)),
     Thrown "Failed to send check-in message: Internal Server Error").
Proof.
  apply (cycle_with_storage_down cycleHosts None reasonPhraseOf Workflow.defaultRuntime
           Workflow.sampleInput (Some (2400%Z, "fine"))
           (mkAgent None [] [] (Some "SQLITE_BUSY") [] []) "SQLITE_BUSY").
  reflexivity.
Defined.

(** ** The daily job over the life of an agent *)










(** ** Tools *)

(** X24. The [saveCheckInData] tool never throws: it answers with a text.  The
    text reports success exactly when [saveCheckIn] succeeded, and then the
    agent is the one that call left; otherwise the text carries the
    message of the error, and the agent is as before. *)
Theorem saveCheckInData_reports
    (host : Host) (answered emotionalTone summary : string)
    (recommendations : list string) (ag : Agent) :
  exists ag' text,
    Tools.saveCheckInData host answered emotionalTone summary recommendations ag
    = (ag', Normal text)
    /\ match saveCheckIn host emotionalTone summary recommendations ag with
       | (saved, Normal _) =>
           ag' = saved /\ text = "Check-in saved successfully for " +:+ isoDate answered
       | (_, Thrown e) => ag' = ag /\ text = "Error saving check-in: " +:+ e
       end.
Proof.
  unfold Tools.saveCheckInData. cbv [tryCatch bind ret].
  destruct (saveCheckIn _ _ _ _ ag) as [saved [[]|e]] eqn:Hrun.
  - eexists _, _. split; [reflexivity|done].
  - apply saveCheckIn_Thrown in Hrun as ->. eexists _, _. split; [reflexivity|done].
Qed.


(** ** The state after a save *)

Lemma recordEntry_elsewhere entry entries (keep : CheckInEntry.t -> bool) :
  (forall e, CheckInEntry.date e = CheckInEntry.date entry -> keep e = false) ->
  List.filter keep (recordEntry entry entries) = List.filter keep entries.
Proof.
  intros Hkeep. unfold recordEntry.
  destruct (list_find _ entries) as [[i x]|] eqn:Hfind.
  - apply list_find_Some in Hfind as (Hi & Hx & _).
    revert i Hi. induction entries as [|e entries IH]; intros i Hi; [done|].
    destruct i as [|i]; cbn in Hi |- *.
    + injection Hi as ->. by rewrite !Hkeep.
    + destruct (keep e); [f_equal|]; by apply IH.
  - rewrite List.filter_app. cbn. rewrite Hkeep by done. by rewrite app_nil_r.
Qed.

(** X26. After a successful save the state agrees with the ledger: it names
    the user the row belongs to, its [lastCheckIn] is the day of the row,
    and the first entry of that day in [dailyCheckIns] carries the tone, the
    summary and the recommendations of the row; the entries of other days are
    the ones there were, in their order, and preferences the state held are
    kept (the defaults are filled in when it held none). *)
Theorem saveCheckIn_state_matches_ledger
    (host : Host) (tone summary : string) (recs : list string) (ag ag' : Agent) :
  saveCheckIn host tone summary recs ag = (ag', Normal tt) ->
  let day := isoDate (today host) in
  exists st entries row rest i entry,
    state ag' = Some st
    /\ MindGuardState.userId st = Some (currentUser ag)
    /\ MindGuardState.lastCheckIn st = Some day
    /\ MindGuardState.dailyCheckIns st = Some entries
    /\ MindGuardState.preferences st
       = Some (default defaultPreferences (state ag ≫= MindGuardState.preferences))
    /\ List.filter (sameDay (currentUser ag) day) (check_ins ag') = row :: rest
    /\ list_find (fun e => CheckInEntry.date e = day) entries = Some (i, entry)
    /\ entry = CheckInEntry.make (CheckInRow.date row) (CheckInRow.emotional_tone row)
                 (CheckInRow.summary row) (CheckInRow.recommendations row)
    /\ List.filter (fun e => negb (bool_decide (CheckInEntry.date e = day))) entries
       = List.filter (fun e => negb (bool_decide (CheckInEntry.date e = day)))
           (default [] (state ag ≫= MindGuardState.dailyCheckIns)).
Proof.
  intros Hrun day. unfold day. clear day. rewrite saveCheckIn_run in Hrun.
  destruct (negb (truthy tone) || negb (truthy summary)); [discriminate|].
  destruct (db_fault ag) eqn:Hdb; [discriminate|].
  set (entry := CheckInEntry.make (isoDate (today host)) (storedTone tone) summary recs).
  destruct (recordEntry_find entry (default [] (state ag ≫= MindGuardState.dailyCheckIns)))
    as [i Hfind].
  assert (List.filter (fun e => negb (bool_decide (CheckInEntry.date e = isoDate (today host))))
            (recordEntry entry (default [] (state ag ≫= MindGuardState.dailyCheckIns)))
          = List.filter (fun e => negb (bool_decide (CheckInEntry.date e = isoDate (today host))))
              (default [] (state ag ≫= MindGuardState.dailyCheckIns))) as Hrest.
  { apply recordEntry_elsewhere. intros e He. by rewrite bool_decide_eq_true_2. }
  destruct (List.filter _ (check_ins ag)) as [|r rest] eqn:Hf.
  - case_bool_decide; [discriminate|]. injection Hrun as <-.
    eexists _, _, _, _, i, entry. cbn [state check_ins].
    split; [reflexivity|]. unfold stateAfterSave.
    cbn [MindGuardState.userId MindGuardState.lastCheckIn MindGuardState.dailyCheckIns
         MindGuardState.preferences].
    split; [done|]. split; [done|]. split; [reflexivity|]. split; [done|].
    split.
    { rewrite List.filter_app, Hf. cbn [List.filter app].
      unfold sameDay at 1, insertedRow. cbn.
      rewrite !bool_decide_eq_true_2 by done. cbn. reflexivity. }
    split; [exact Hfind|]. split; [done|exact Hrest].
  - injection Hrun as <-.
    apply filter_In_head in Hf as Hr. destruct Hr as [_ [Hu Hd]%sameDay_spec].
    eexists _, _, _, _, i, entry. cbn [state check_ins].
    split; [reflexivity|]. unfold stateAfterSave.
    cbn [MindGuardState.userId MindGuardState.lastCheckIn MindGuardState.dailyCheckIns
         MindGuardState.preferences].
    split; [done|]. split; [done|]. split; [reflexivity|]. split; [done|].
    split.
    { rewrite filter_rewriteRow, Hf. cbn [fmap list_fmap]. rewrite rewriteRow_self.
      reflexivity. }
    split; [exact Hfind|]. split; [|exact Hrest].
    cbn. by rewrite Hd.
Qed.

Lemma saveCheckIn_state_matches_ledger_witness :
  exists st entries row rest i entry,
    state (fst (saveCheckIn morning "Happy" "a good walk" ["journal"] seasoned)) = Some st
    /\ MindGuardState.userId st = Some "ada"
    /\ MindGuardState.lastCheckIn st = Some "2026-11-03"
    /\ MindGuardState.dailyCheckIns st = Some entries
    /\ MindGuardState.preferences st = Some defaultPreferences
    /\ List.filter (sameDay "ada" "2026-11-03")
         (check_ins (fst (saveCheckIn morning "Happy" "a good walk" ["journal"] seasoned)))
       = row :: rest
    /\ list_find (fun e => CheckInEntry.date e = "2026-11-03") entries = Some (i, entry)
    /\ entry = CheckInEntry.make (CheckInRow.date row) (CheckInRow.emotional_tone row)
                 (CheckInRow.summary row) (CheckInRow.recommendations row)
    /\ List.filter (fun e => negb (bool_decide (CheckInEntry.date e = "2026-11-03"))) entries
       = [].
Proof.
  apply (saveCheckIn_state_matches_ledger morning "Happy" "a good walk" ["journal"] seasoned).
  reflexivity.
Defined.

(** ** The time of the daily check-in *)

(** Every spelling of every time of the day, checked by running the
    matcher and the split. *)
Lemma every_time_checked :
  forallb (fun h =>
    forallb (fun m =>
      forallb (fun hh =>
        Regex.test timeRegex (hh +:+ ":" +:+ twoDigits m)
        && String.eqb (Earlier.cronPatternOf (hh +:+ ":" +:+ twoDigits m))
             (twoDigits m +:+ " " +:+ hh +:+ " * * *"))
        (hourSpellings h))
      (seq 0 60))
    (seq 0 24) = true.
Proof. vm_compute. reflexivity. Qed.

Lemma time_checked h m hh :
  (h < 24)%nat -> (m < 60)%nat -> hh ∈ hourSpellings h ->
  Regex.test timeRegex (hh +:+ ":" +:+ twoDigits m) = true
  /\ Earlier.cronPatternOf (hh +:+ ":" +:+ twoDigits m) = twoDigits m +:+ " " +:+ hh +:+ " * * *".
Proof.
  intros Hh Hm Hhh.
  pose proof (proj1 (forallb_forall _ _) every_time_checked h) as H1. cbv beta in H1.
  specialize (H1 ltac:(apply in_seq; lia)).
  pose proof (proj1 (forallb_forall _ _) H1 m) as H2. cbv beta in H2.
  specialize (H2 ltac:(apply in_seq; lia)).
  pose proof (proj1 (forallb_forall _ _) H2 hh) as Hall. cbv beta in Hall.
  apply list_elem_of_In in Hhh. specialize (Hall Hhh).
  apply andb_prop in Hall as [Htest Hcron]. by apply String.eqb_eq in Hcron.
Qed.

Lemma inRange_digits lo hi c :
  Regex.inRange lo hi c = true ->
  (N_of_ascii lo <= N_of_ascii c <= N_of_ascii hi)%N.
Proof. unfold Regex.inRange. intros [?%N.leb_le ?%N.leb_le]%andb_prop. lia. Qed.

(** A character between ["0"] and ["9"] is a decimal digit. *)
Lemma digit_char (hi : ascii) c :
  (N_of_ascii hi <= 57)%N ->
  Regex.inRange "0" hi c = true ->
  exists d, (d <= N.to_nat (N_of_ascii hi) - 48)%nat /\ c = ascii_of_nat (48 + d).
Proof.
  intros Hhi [Hlo Hup]%inRange_digits.
  change (N_of_ascii "0") with 48%N in Hlo.
  exists (N.to_nat (N_of_ascii c) - 48)%nat. split; [lia|].
  replace (48 + (N.to_nat (N_of_ascii c) - 48))%nat with (N.to_nat (N_of_ascii c)) by lia.
  unfold ascii_of_nat. by rewrite N2Nat.id, ascii_N_embedding.
Qed.

Lemma minute_text a b :
  Regex.inRange "0" "5" a = true -> Regex.inRange "0" "9" b = true ->
  exists m, (m < 60)%nat /\ String a (String b EmptyString) = twoDigits m.
Proof.
  intros (x & Hx & ->)%digit_char (y & Hy & ->)%digit_char; [|by vm_compute..].
  change (N.to_nat (N_of_ascii "5") - 48)%nat with 5%nat in Hx.
  change (N.to_nat (N_of_ascii "9") - 48)%nat with 9%nat in Hy.
  exists (10 * x + y)%nat. split; [lia|].
  do 6 (destruct x as [|x]; [do 10 (destruct y as [|y]; [reflexivity|]); lia|]). lia.
Qed.

Lemma hour_text_one b :
  Regex.inRange "0" "9" b = true ->
  exists h, (h < 24)%nat /\ String b EmptyString ∈ hourSpellings h.
Proof.
  intros (y & Hy & ->)%digit_char; [|by vm_compute].
  change (N.to_nat (N_of_ascii "9") - 48)%nat with 9%nat in Hy.
  exists y. split; [lia|].
  do 10 (destruct y as [|y]; [apply list_elem_of_In; cbn; auto|]). lia.
Qed.

Lemma hour_text_two a b :
  (Regex.inRange "0" "1" a = true /\ Regex.inRange "0" "9" b = true)
  \/ (a = "2"%char /\ Regex.inRange "0" "3" b = true) ->
  exists h, (h < 24)%nat /\ String a (String b EmptyString) ∈ hourSpellings h.
Proof.
  intros [[(x & Hx & ->)%digit_char (y & Hy & ->)%digit_char]
         |[-> (y & Hy & ->)%digit_char]]; try (by vm_compute).
  - change (N.to_nat (N_of_ascii "1") - 48)%nat with 1%nat in Hx.
    change (N.to_nat (N_of_ascii "9") - 48)%nat with 9%nat in Hy.
    exists (10 * x + y)%nat. split; [lia|].
    do 2 (destruct x as [|x];
          [do 10 (destruct y as [|y]; [apply list_elem_of_In; cbn; auto|]); lia|]). lia.
  - change (N.to_nat (N_of_ascii "3") - 48)%nat with 3%nat in Hy.
    exists (20 + y)%nat. split; [lia|].
    do 4 (destruct y as [|y]; [apply list_elem_of_In; cbn; auto|]). lia.
Qed.

(** The texts the matcher accepts, character by character. *)
Lemma timeRegex_chars s :
  Regex.test timeRegex s = true ->
  (exists b c d,
     s = String b (String ":" (String c (String d EmptyString)))
     /\ Regex.inRange "0" "9" b = true
     /\ Regex.inRange "0" "5" c = true /\ Regex.inRange "0" "9" d = true)
  \/ (exists a b c d,
        s = String a (String b (String ":" (String c (String d EmptyString))))
        /\ ((Regex.inRange "0" "1" a = true /\ Regex.inRange "0" "9" b = true)
            \/ (a = "2"%char /\ Regex.inRange "0" "3" b = true))
        /\ Regex.inRange "0" "5" c = true /\ Regex.inRange "0" "9" d = true).
Proof.
  intros H.
  destruct s as [|c1 [|c2 [|c3 [|c4 [|c5 s]]]]];
    cbn -[Regex.inRange Ascii.eqb] in H; try discriminate.
  all: repeat match type of H with
       | context [Regex.inRange ?lo ?hi ?c] =>
           let E := fresh "E" in destruct (Regex.inRange lo hi c) eqn:E;
           cbn -[Regex.inRange Ascii.eqb] in H
       | context [Ascii.eqb ?a ?b] =>
           let E := fresh "E" in destruct (Ascii.eqb a b) eqn:E;
           cbn -[Regex.inRange Ascii.eqb] in H
       end; try discriminate.
  all: repeat match goal with
       | E : Ascii.eqb ?c _ = true |- _ => apply Ascii.eqb_eq in E; subst c
       end.
  all: try (match goal with
            | E : Regex.inRange _ _ ":" = true |- _ => by vm_compute in E
            end).
  all: try (destruct s; [|by cbn in H]).
  all: try (match goal with
            | E : Regex.inRange _ _ "2" = true |- _ => by vm_compute in E
            end).
  all: try (left; eexists _, _, _; split; [reflexivity|]; by auto).
  all: try (right; eexists _, _, _, _; split; [reflexivity|]; by auto 6).
Qed.

(** X27. The check-in time the scheduler accepts is exactly a time of the day:
    an hour below 24, plain or in two digits, a colon, and a minute below
    60 in two digits. *)
Theorem timeRegex_accepts_the_times_of_day (s : string) :
  Regex.test timeRegex s = true
  <-> exists h m hh,
        (h < 24)%nat /\ (m < 60)%nat /\ hh ∈ hourSpellings h
        /\ s = hh +:+ ":" +:+ twoDigits m.
Proof.
  split.
  - intros [(b & c & d & -> & Hb & Hc & Hd)
           |(a & b & c & d & -> & Hab & Hc & Hd)]%timeRegex_chars.
    + destruct (hour_text_one b Hb) as (h & Hh & Hhh).
      destruct (minute_text c d Hc Hd) as (m & Hm & Hmm).
      exists h, m, (String b EmptyString). split_and!; [done|done|done|].
      rewrite <- Hmm. reflexivity.
    + destruct (hour_text_two a b Hab) as (h & Hh & Hhh).
      destruct (minute_text c d Hc Hd) as (m & Hm & Hmm).
      exists h, m, (String a (String b EmptyString)). split_and!; [done|done|done|].
      rewrite <- Hmm. reflexivity.
  - intros (h & m & hh & Hh & Hm & Hhh & ->).
    by destruct (time_checked h m hh Hh Hm Hhh) as [Htest _].
Qed.

Lemma replaceSchedule_new created rows :
  Schedule.id created ∉ Schedule.id <$> rows ->
  replaceSchedule created rows = rows ++ [created].
Proof.
  intros Hnew. unfold replaceSchedule. f_equal.
  induction rows as [|row rows IH]; [done|]. cbn [List.filter].
  rewrite fmap_cons in Hnew. apply not_elem_of_cons in Hnew as [Hne Hnew].
  rewrite bool_decide_eq_false_2 by congruence. cbn [negb]. by rewrite IH.
Qed.

(** X28. In the earlier variant of the agent the job of the daily check-in
    fires at the configured time: for every time of the day, in either
    spelling of the hour, the first call on an agent without a daily job
    creates one job, with the cron pattern [MM HH * * *] of that time - when
    the storage answers, the SDK accepts that pattern, and the id it draws
    is not the id of a schedule of the agent, so that the job is put behind
    the schedules there were. *)
Theorem Earlier_cron_of_every_time (host : Host) (ag : Agent) (h m : nat) (hh : string) :
  (h < 24)%nat -> (m < 60)%nat -> hh ∈ hourSpellings h ->
  configuredCheckInTime (state ag) = hh +:+ ":" +:+ twoDigits m ->
  dailyJobs ag = [] ->
  db_fault ag = None ->
  cronError host (twoDigits m +:+ " " +:+ hh +:+ " * * *") = None ->
  generateId host ∉ Schedule.id <$> schedules ag ->
  exists ag',
    Earlier.scheduleDailyCheckIn host ag = (ag', Normal tt)
    /\ dailyJobs ag' = [dailyJob host (twoDigits m +:+ " " +:+ hh +:+ " * * *")]
    /\ schedules ag' = schedules ag ++ [dailyJob host (twoDigits m +:+ " " +:+ hh +:+ " * * *")].
Proof.
  intros Hh Hm Hhh Htime Hnone Hdb Haccepted Hnew.
  destruct (time_checked h m hh Hh Hm Hhh) as [Htest Hcron].
  rewrite Earlier_scheduleDailyCheckIn_run, Htime, Htest.
  rewrite existsb_filter. fold (dailyJobs ag). rewrite Hnone. cbn [andb negb].
  rewrite Hcron, !bool_decide_eq_true_2 by done. cbn [andb].
  eexists. split; [reflexivity|].
  split; [by apply dailyJobs_first|].
  cbn [withSchedule schedules]. by apply replaceSchedule_new.
Qed.

Lemma Earlier_cron_of_every_time_witness :
  let ag := mkAgent (Some (MindGuardState.make None None None
                             (Some (Preferences.make (Some "7:05") None None None))))
              [] [] None
              [Schedule.make "t9" "executeTask" "weekly review" (Cron "0 18 * * 5")] [] in
  exists ag',
    Earlier.scheduleDailyCheckIn morning ag = (ag', Normal tt)
    /\ dailyJobs ag' = [dailyJob morning "05 7 * * *"]
    /\ schedules ag'
       = [Schedule.make "t9" "executeTask" "weekly review" (Cron "0 18 * * 5");
          dailyJob morning "05 7 * * *"].
Proof.
  apply (Earlier_cron_of_every_time morning
           (mkAgent (Some (MindGuardState.make None None None
                             (Some (Preferences.make (Some "7:05") None None None))))
              [] [] None
              [Schedule.make "t9" "executeTask" "weekly review" (Cron "0 18 * * 5")] [])
           7 5 "7").
  - lia.
  - lia.
  - apply list_elem_of_In. cbn. auto.
  - reflexivity.
  - reflexivity.
  - reflexivity.
  - reflexivity.
  - intros Hin. apply list_elem_of_singleton in Hin. discriminate.
Defined.

(** ** The model of the chat *)

(** X29. [getModel] follows the state alone: it chooses the Workers AI model
    exactly when the state names ["workers-ai"] and the binding works, and
    the OpenAI model in every other case - also when only the storage names
    ["workers-ai"], which [getModelProvider] would answer with.  When it
    chooses Workers AI, [getModelProvider] agrees; and after a successful
    [updateModelProvider] it follows the provider just set. *)
Theorem getModel_follows_the_state (binding : option (completion unit)) (ag : Agent) :
  (getModel binding ag = Llama33
   <-> stateModelProvider ag = Some "workers-ai" /\ binding = Some (Normal tt))
  /\ (getModel binding ag = Llama33 -> getModelProvider ag = (ag, Normal "workers-ai"))
  /\ (forall host provider ag',
        updateModelProvider host provider ag = (ag', Normal tt) ->
        getModel binding ag' = Llama33
        <-> provider = "workers-ai" /\ binding = Some (Normal tt)).
Proof.
  assert (forall a, getModel binding a = Llama33
            <-> stateModelProvider a = Some "workers-ai" /\ binding = Some (Normal tt))
    as Hiff.
  { intros a. unfold getModel, stateModelProvider.
    destruct ((state a ≫= MindGuardState.preferences) ≫= Preferences.modelProvider)
      as [p|]; cbn [orDefault].
    - destruct (truthy p) eqn:Hp.
      + case_bool_decide as Hw.
        * subst p. destruct binding as [[[]|e]|]; split; try done; by intros [_ ?].
        * split; [done|]. intros [[= ->] _]. done.
      + apply truthy_false in Hp as ->. cbn. split; [done|]. by intros [? _].
    - cbn. split; [done|]. by intros [? _]. }
  split; [apply Hiff|]. split.
  - intros [Hstate _]%Hiff. rewrite getModelProvider_run.
    unfold modelProviderByFallback. by rewrite Hstate.
  - intros host provider ag' (_ & _ & _ & Hprov & _)%updateModelProvider_effect.
    rewrite Hiff, Hprov. split; [by intros [[= ->] ?]|by intros [-> ?]].
Qed.
